(** * Diu-routine: the routine parser and its cache, embedded in Rocq

    The development follows the TypeScript sources
      server/services/pdf-parser-v3.ts         (PDFParserV3, the parser the
                                                cache service and the routers call)
      server/services/pdf-parser-optimized.ts  (PDFParserOptimized)
      the PDFParserV2 file                     (calculateStats with the empty guard)
      server/services/pdf-cache-service.ts     (PdfCacheService)
      server/services/pdf-parser.ts            (PDFParser: the filters)
      server/services/noticeboard-scraper.ts   (the routines of the noticeboard)
      the FacultyScraper file                  (generateInitials)

    Strings are Rocq strings read as sequences of code units; the character
    classes and case mappings are the ASCII ones, which is what the routine
    text and the regular expressions of the sources range over.  Indices and
    counts are [nat].  The regular expressions of the sources are kept as
    syntax and run by a backtracking matcher with the priorities of the
    JavaScript one (greedy quantifiers, left alternative first). *)

From Stdlib Require Import Ascii String List Arith Bool Lia Permutation Sorted.
From stdpp Require Import base list strings gmap.
Import ListNotations.

Local Open Scope string_scope.
Local Open Scope nat_scope.

(* ===================================================================== *)
(** ** JavaScript string primitives *)
(* ===================================================================== *)

Module Js.

Definition code (c : ascii) : nat := nat_of_ascii c.

Definition between (lo hi : nat) (c : ascii) : bool :=
  (lo <=? code c) && (code c <=? hi).

(** [\d], [[A-Z]], [[a-z]], [\w] and [\s] on ASCII text. *)
Definition isDigit (c : ascii) : bool := between 48 57 c.
Definition isUpper (c : ascii) : bool := between 65 90 c.
Definition isLower (c : ascii) : bool := between 97 122 c.
Definition isWord (c : ascii) : bool :=
  isDigit c || isUpper c || isLower c || (code c =? 95).
Definition isSpace (c : ascii) : bool :=
  between 9 13 c || (code c =? 32).

Definition upperChar (c : ascii) : ascii :=
  if isLower c then ascii_of_nat (code c - 32) else c.
Definition lowerChar (c : ascii) : ascii :=
  if isUpper c then ascii_of_nat (code c + 32) else c.

Fixpoint mapChars (f : ascii -> ascii) (s : string) : string :=
  match s with
  | EmptyString => EmptyString
  | String c r => String (f c) (mapChars f r)
  end.

(** [s.toUpperCase()] and [s.toLowerCase()]. *)
Definition toUpperCase (s : string) : string := mapChars upperChar s.
Definition toLowerCase (s : string) : string := mapChars lowerChar s.

Fixpoint trimStart (s : string) : string :=
  match s with
  | EmptyString => EmptyString
  | String c r => if isSpace c then trimStart r else s
  end.

(** The text without its trailing white space: a character is kept when it
    is no space or when something is kept after it. *)
Fixpoint trimEnd (s : string) : string :=
  match s with
  | EmptyString => EmptyString
  | String c r =>
      match trimEnd r with
      | EmptyString => if isSpace c then EmptyString else String c EmptyString
      | r' => String c r'
      end
  end.

(** [s.trim()]. *)
Definition trim (s : string) : string := trimEnd (trimStart s).

(** [text.split(sep)] for a one-character separator: the pieces between the
    separators, one more than there are separators. *)
Fixpoint splitOn (sep : ascii) (s : string) : list string :=
  match s with
  | EmptyString => [EmptyString]
  | String c r =>
      if Ascii.eqb c sep then EmptyString :: splitOn sep r
      else match splitOn sep r with
           | piece :: rest => String c piece :: rest
           | [] => [String c EmptyString]
           end
  end.

Definition newline : ascii := ascii_of_nat 10.

(** [s.substring(a, b)]: the code units from the smaller to the larger of
    the two indices, both clamped to the length. *)
Definition substring (a b : nat) (s : string) : string :=
  String.substring (Nat.min a b) (Nat.max a b - Nat.min a b) s.

(** [s.substring(a)]. *)
Definition substringFrom (a : nat) (s : string) : string :=
  String.substring a (String.length s - a) s.

(** [s.includes(t)]: [t] starts at some index of [s]. *)
Fixpoint includes (s t : string) : bool :=
  String.prefix t s ||
  match s with
  | EmptyString => false
  | String _ r => includes r t
  end.

(** [Array.from(new Set(arr))]: the first occurrence of each string, in
    the order of the array. *)
Definition uniqueInOrder (arr : list string) : list string :=
  fold_left (fun acc x => if existsb (String.eqb x) acc then acc else (acc ++ [x])%list)
            arr [].

(** [arr.includes(x)] on an array of strings. *)
Definition arrayIncludes (arr : list string) (x : string) : bool :=
  existsb (String.eqb x) arr.

(** [s.charAt(0) + s.slice(1).toLowerCase()]. *)
Definition capitalised (s : string) : string :=
  match s with
  | EmptyString => EmptyString
  | String c r => String c (toLowerCase r)
  end.

(** [a || b] on strings: the empty string is falsy. *)
Definition orElse (a b : string) : string :=
  if String.eqb a "" then b else a.

(** [arr[i] || ""]: an index past the end gives [undefined]. *)
Definition lineAt (lines : list string) (i : nat) : string :=
  match lines !! i with
  | Some l => l
  | None => ""
  end.

(** *** Further primitives: keys of objects, words, slices *)

(** The names every object inherits from [Object.prototype]. *)
Definition inheritedKeys : list string :=
  [ "constructor"; "__proto__"; "hasOwnProperty"; "isPrototypeOf";
    "propertyIsEnumerable"; "toLocaleString"; "toString"; "valueOf";
    "__defineGetter__"; "__defineSetter__"; "__lookupGetter__"; "__lookupSetter__" ].

Definition allDigits (s : string) : bool :=
  forallb isDigit (list_ascii_of_string s).

(** A key for which a plain object behaves as a map that keeps the order
    of insertion: it is no name of [Object.prototype] and no integer
    index (the keys that are all digits are left out). *)
Definition plainKey (s : string) : bool :=
  negb (arrayIncludes inheritedKeys s) &&
  negb (allDigits s && negb (String.eqb s "")).


(** [s.replace(/\./g, "")] *)
Fixpoint withoutDots (s : string) : string :=
  match s with
  | EmptyString => EmptyString
  | String c r => if Ascii.eqb c "." then withoutDots r else String c (withoutDots r)
  end.


(** [s.replace(/\s+/g, "_")]: every run of white space becomes one
    underscore. *)
Fixpoint spacesToUnderscore (s : string) : string :=
  match s with
  | EmptyString => EmptyString
  | String c r =>
      if isSpace c then
        match r with
        | String d _ => if isSpace d then spacesToUnderscore r
                        else String "_" (spacesToUnderscore r)
        | EmptyString => String "_" EmptyString
        end
      else String c (spacesToUnderscore r)
  end.

(** [s.slice(0, -1)] and [s.slice(-1)]. *)
Fixpoint sliceInit (s : string) : string :=
  match s with
  | EmptyString => EmptyString
  | String c EmptyString => EmptyString
  | String c r => String c (sliceInit r)
  end.

Fixpoint sliceLast (s : string) : string :=
  match s with
  | EmptyString => EmptyString
  | String c EmptyString => String c EmptyString
  | String _ r => sliceLast r
  end.

(** [s.startsWith(t)] and [s.endsWith(t)]. *)
Definition startsWith (s t : string) : bool := String.prefix t s.

Definition endsWith (s t : string) : bool :=
  (String.length t <=? String.length s) &&
  String.eqb (substringFrom (String.length s - String.length t) s) t.

End Js.

(* ===================================================================== *)
(** ** Regular expressions *)
(* ===================================================================== *)

Module Regex.

(** The fragment of the JavaScript syntax the sources use.  A quantifier
    is applied to a character class ([Rep]) or makes a group optional
    ([Opt]); both are greedy. *)
Inductive re : Type :=
| Chr (c : ascii)                                    (* a literal character *)
| Cls (p : ascii -> bool)                            (* a character class *)
| Rep (p : ascii -> bool) (lo : nat) (hi : option nat) (* p{lo,hi}, p*, p+, p? *)
| Seq (r1 r2 : re)
| Alt (r1 r2 : re)
| Opt (r : re)                                       (* (?:r)? *)
| Grp (i : nat) (r : re)                             (* capture group i *)
| Bol                                                (* ^ *)
| Eol                                                (* $ *)
| Wb.                                                (* \b *)

(** Where the matcher stands: the index, the character before it and the
    text from it on. *)
Record cursor : Type := Cursor {
  pos : nat;
  before : option ascii;
  rest : list ascii
}.

Definition captures : Type := list (nat * string).

Record found : Type := Found {
  index : nat;          (* match.index *)
  stop : nat;           (* index + match[0].length *)
  groups : captures
}.

Definition advance (c : ascii) (cu : cursor) (r : list ascii) : cursor :=
  {| pos := S (pos cu); before := Some c; rest := r |}.

Definition wordAt (o : option ascii) : bool :=
  match o with
  | Some c => Js.isWord c
  | None => false
  end.

(** [p{lo,hi}], greedy: one more character is tried before stopping. *)
Fixpoint rep {R : Type} (p : ascii -> bool) (lo : nat) (hi : option nat)
    (l : list ascii) (cu : cursor) (k : cursor -> option R) : option R :=
  let halt := match lo with O => k cu | S _ => None end in
  let more := match hi with Some O => false | _ => true end in
  match l with
  | c :: l' =>
      if p c && more then
        match rep p (Nat.pred lo) (option_map Nat.pred hi) l' (advance c cu l') k with
        | Some res => Some res
        | None => halt
        end
      else halt
  | [] => halt
  end.

(** The backtracking matcher, in continuation-passing style: [k] is the
    rest of the pattern, and the first way to match that makes [k] succeed
    is the answer. *)
Fixpoint run {R : Type} (r : re) (cu : cursor) (caps : captures)
    (k : cursor -> captures -> option R) : option R :=
  match r with
  | Chr c =>
      match rest cu with
      | d :: l' => if Ascii.eqb c d then k (advance d cu l') caps else None
      | [] => None
      end
  | Cls p =>
      match rest cu with
      | d :: l' => if p d then k (advance d cu l') caps else None
      | [] => None
      end
  | Rep p lo hi => rep p lo hi (rest cu) cu (fun cu' => k cu' caps)
  | Seq r1 r2 => run r1 cu caps (fun cu' caps' => run r2 cu' caps' k)
  | Alt r1 r2 =>
      match run r1 cu caps k with
      | Some res => Some res
      | None => run r2 cu caps k
      end
  | Opt r1 =>
      match run r1 cu caps k with
      | Some res => Some res
      | None => k cu caps
      end
  | Grp i r1 =>
      run r1 cu caps (fun cu' caps' =>
        k cu' ((i, string_of_list_ascii (take (pos cu' - pos cu) (rest cu))) :: caps'))
  | Bol => if pos cu =? 0 then k cu caps else None
  | Eol => match rest cu with [] => k cu caps | _ => None end
  | Wb =>
      if xorb (wordAt (before cu)) (wordAt (head (rest cu)))
      then k cu caps else None
  end.

(** A match that starts exactly at the cursor. *)
Definition matchHere (r : re) (cu : cursor) : option found :=
  run r cu [] (fun cu' caps =>
    Some {| index := pos cu; stop := pos cu'; groups := caps |}).

(** The leftmost match at or after the cursor. *)
Fixpoint search (r : re) (l : list ascii) (cu : cursor) : option found :=
  match matchHere r cu with
  | Some f => Some f
  | None =>
      match l with
      | c :: l' => search r l' (advance c cu l')
      | [] => None
      end
  end.

Definition origin (s : string) : cursor :=
  {| pos := 0; before := None; rest := list_ascii_of_string s |}.

(** [re.exec(s)] for a pattern without the [g] flag, and [s.match(re)]. *)
Definition exec (r : re) (s : string) : option found :=
  search r (list_ascii_of_string s) (origin s).

(** The matches the loop [while ((m = re.exec(s)) !== null)] visits for a
    pattern with the [g] flag whose [lastIndex] is 0 when the loop starts:
    each search resumes where the last match stopped.  [skip] counts the
    characters still inside the last match.  The patterns of the sources
    never match the empty text; an empty match is stepped over. *)
Fixpoint scan (r : re) (skip : nat) (l : list ascii) (cu : cursor) : list found :=
  match skip with
  | S n =>
      match l with
      | c :: l' => scan r n l' (advance c cu l')
      | [] => []
      end
  | O =>
      match matchHere r cu with
      | Some f =>
          f :: match l with
               | c :: l' => scan r (stop f - index f - 1) l' (advance c cu l')
               | [] => []
               end
      | None =>
          match l with
          | c :: l' => scan r 0 l' (advance c cu l')
          | [] => []
          end
      end
  end.

Definition execAll (r : re) (s : string) : list found :=
  scan r 0 (list_ascii_of_string s) (origin s).

(** [match[i]] of a group that took part in the match. *)
Definition group (i : nat) (f : found) : string :=
  match find (fun c => fst c =? i) (groups f) with
  | Some c => snd c
  | None => ""
  end.

(** A literal word, as in [/Course/]. *)
Fixpoint lit (s : string) : re :=
  match s with
  | EmptyString => Rep (fun _ => false) 0 (Some 0)
  | String c EmptyString => Chr c
  | String c r => Seq (Chr c) (lit r)
  end.

Definition exactly (n : nat) (p : ascii -> bool) : re := Rep p n (Some n).
Definition range (lo hi : nat) (p : ascii -> bool) : re := Rep p lo (Some hi).
Definition star (p : ascii -> bool) : re := Rep p 0 None.
Definition plus (p : ascii -> bool) : re := Rep p 1 None.
Definition maybe (p : ascii -> bool) : re := Rep p 0 (Some 1).
Definition only (c : ascii) : ascii -> bool := Ascii.eqb c.

End Regex.

Declare Scope re_scope.
Delimit Scope re_scope with re.
Bind Scope re_scope with Regex.re.
Infix "·" := Regex.Seq (at level 41, right associativity) : re_scope.
Infix "∣" := Regex.Alt (at level 42, right associativity) : re_scope.

(* ===================================================================== *)
(** ** The data model (interfaces of pdf-parser-v3.ts) *)
(* ===================================================================== *)

Record ClassSchedule : Type := {
  day : string;
  timeStart : string;
  timeEnd : string;
  courseCode : string;
  courseName : string;
  batch : string;
  section : string;
  room : string;
  teacher : string;
  batchSection : string
}.

Record ScheduleStats : Type := {
  totalClasses : nat;
  busiestDay : string;
  lightestDay : string;
  busiestDayCount : nat;
  lightestDayCount : nat
}.

Record ParsedSchedule : Type := {
  classes : list ClassSchedule;
  stats : ScheduleStats;
  faculty : list string
}.

(** A column of the routine table: [{ start, end, columnStart, columnEnd }]. *)
Record TimeSlot : Type := {
  slotStart : string;
  slotEnd : string;
  columnStart : nat;
  columnEnd : nat
}.

Definition DAYS : list string :=
  ["SATURDAY"; "SUNDAY"; "MONDAY"; "TUESDAY"; "WEDNESDAY"; "THURSDAY"; "FRIDAY"].

#[global] Instance ClassSchedule_eq_dec : EqDecision ClassSchedule.
Proof. solve_decision. Defined.

#[global] Instance TimeSlot_eq_dec : EqDecision TimeSlot.
Proof. solve_decision. Defined.

#[global] Instance ScheduleStats_eq_dec : EqDecision ScheduleStats.
Proof. solve_decision. Defined.

(** The patterns that both parsers share. *)
Module Patterns.
Import Regex.

(** [/([A-Z]{3}\d{3})\((\d{2,3})_([A-Z]\d?)\)/g] *)
Definition coursePattern : re :=
  (Grp 1 (exactly 3 Js.isUpper · exactly 3 Js.isDigit) · Chr "(" ·
   Grp 2 (range 2 3 Js.isDigit) · Chr "_" ·
   Grp 3 (Cls Js.isUpper · maybe Js.isDigit) · Chr ")")%re.

(** [/(\d{2}:\d{2})-(\d{2}:\d{2})/g] *)
Definition timePattern : re :=
  (Grp 1 (exactly 2 Js.isDigit · Chr ":" · exactly 2 Js.isDigit) · Chr "-" ·
   Grp 2 (exactly 2 Js.isDigit · Chr ":" · exactly 2 Js.isDigit))%re.

(** [/Course/g] *)
Definition courseHeaderPattern : re := lit "Course".

(** The time ranges of the line under a day header. *)
Definition timesOf (timeLine : string) : list (string * string) :=
  map (fun m => (group 1 m, group 2 m)) (execAll timePattern timeLine).

(** The offsets of the column headers. *)
Definition columnPositionsOf (headerLine : string) : list nat :=
  map index (execAll courseHeaderPattern headerLine).

End Patterns.

(* ===================================================================== *)
(** ** PDFParserV3 (pdf-parser-v3.ts) *)
(* ===================================================================== *)

Module V3.
Import Regex Patterns.

(** The course titles of the file, [COURSE_NAMES]. *)
Definition COURSE_NAMES : list (string * string) :=
  [ ("ENG101", "Basic Functional English and English Spoken");
    ("ENG102", "Writing and Comprehension");
    ("MAT101", "Mathematics - I");
    ("MAT102", "Mathematics-II: Calculus, Complex Variables and Linear Algebra");
    ("CSE112", "Computer Fundamentals");
    ("CSE113", "Programming and Problem Solving");
    ("CSE114", "Programming and Problem Solving Lab");
    ("CSE115", "Introduction to Biology and Chemistry for Computation");
    ("CSE121", "Electrical Circuits");
    ("CSE122", "Electrical Circuits Lab");
    ("CSE123", "Data Structure");
    ("CSE124", "Data Structure Lab");
    ("PHY101", "Physics-I");
    ("PHY102", "Physics - II");
    ("PHY103", "Physics - II Lab");
    ("MAT211", "Engineering Mathematics");
    ("CSE212", "Discrete Mathematics");
    ("CSE213", "Algorithms");
    ("CSE214", "Algorithms Lab");
    ("CSE215", "Electronic Devices and Circuits");
    ("CSE216", "Electronic Devices and Circuits Lab");
    ("CSE221", "Object Oriented Programming");
    ("CSE222", "Object Oriented Programming Lab");
    ("CSE223", "Digital Logic Design");
    ("CSE224", "Digital Logic Design Lab");
    ("CSE225", "Data Communication");
    ("CSE226", "Numerical Methods");
    ("CSE227", "Systems Analysis and Design");
    ("CSE228", "Theory of Computation");
    ("BNS101", "Bangladesh Studies (History of Independence and Contemporary Issues)");
    ("STA101", "Statistics and Probability");
    ("AOL101", "Art of Living");
    ("CSE311", "Database Management System");
    ("CSE312", "Database Management System Lab");
    ("CSE313", "Compiler Design");
    ("CSE314", "Compiler Design Lab");
    ("CSE315", "Software Engineering");
    ("CSE316", "Artificial Intelligence");
    ("CSE317", "Microprocessor and Microcontrollers");
    ("CSE321", "Computer Networks");
    ("CSE322", "Computer Networks Lab");
    ("CSE323", "Operating Systems");
    ("CSE324", "Operating Systems Lab");
    ("CSE325", "Instrumentation and Control");
    ("CSE326", "Social and Professional Issues in Computing");
    ("ACT327", "Financial and Managerial Accounting");
    ("ECO426", "Engineering Economics");
    ("CSE411", "Computer Graphics");
    ("CSE412", "Computer Graphics Lab");
    ("CSE413", "Computer Architecture and Organization");
    ("CSE498", "Capstone Project (Phase I)");
    ("CSE499", "Capstone Project (Phase II)") ].

(** [COURSE_NAMES[courseCode] || courseCode] *)
Definition courseNameOf (courseCode : string) : string :=
  match find (fun kv => String.eqb (fst kv) courseCode) COURSE_NAMES with
  | Some kv => Js.orElse (snd kv) courseCode
  | None => courseCode
  end.

(** [/([A-Z]{1,2}-\d{2,3}(?:\([A-Z]\))?|G\d-\d{3})\s*$/] *)
Definition roomPattern : re :=
  (Grp 1 ((range 1 2 Js.isUpper · Chr "-" · range 2 3 Js.isDigit ·
           Opt (Chr "(" · Cls Js.isUpper · Chr ")"))
          ∣ (Chr "G" · Cls Js.isDigit · Chr "-" · exactly 3 Js.isDigit)) ·
   star Js.isSpace · Eol)%re.

(** [/^\s*([A-Z]{2,4}(?:_\d+)?)/] *)
Definition teacherPattern : re :=
  (Bol · star Js.isSpace ·
   Grp 1 (range 2 4 Js.isUpper · Opt (Chr "_" · plus Js.isDigit)))%re.

(** The state of the loop of [extractClasses]. *)
Record Extraction : Type := {
  out : list ClassSchedule;       (* classes *)
  seen : gset string;
  currentDay : string;
  timeSlots : list TimeSlot;
  inComLabSection : bool
}.

Definition start : Extraction :=
  {| out := []; seen := ∅; currentDay := ""; timeSlots := [];
     inComLabSection := false |}.

(** The column of the [j]-th time range: from the midpoint with the
    header before it (0 for the first) to the midpoint with the header
    after it (300 when there is none, or when it is falsy). *)
Definition slotAt (columnPositions : list nat) (j : nat) (time : string * string)
    : TimeSlot :=
  let currentPos := default 0 (columnPositions !! j) in
  {| slotStart := fst time;
     slotEnd := snd time;
     columnStart :=
       match j with
       | O => 0
       | S j' => (default 0 (columnPositions !! j') + currentPos) / 2
       end;
     columnEnd :=
       match columnPositions !! (S j) with
       | Some (S n) => (currentPos + S n) / 2
       | _ => 300
       end |}.

(** The guarded loop that builds [timeSlots]: nothing is built unless
    there are as many time ranges as column headers. *)
Definition buildTimeSlots (times : list (string * string)) (columnPositions : list nat)
    : list TimeSlot :=
  if length times =? length columnPositions
  then imap (slotAt columnPositions) times
  else [].

(** The column a match offset falls in; the first column when it falls in
    none. *)
Definition slotOf (timeSlots : list TimeSlot) (matchPosition : nat) : option TimeSlot :=
  match find (fun slot => (columnStart slot <=? matchPosition)
                          && (matchPosition <? columnEnd slot)) timeSlots with
  | Some slot => Some slot
  | None => head timeSlots
  end.

Definition roomOf (line : string) (matchPosition : nat) : string :=
  let beforeCourse := Js.substring (matchPosition - 50) matchPosition line in
  match exec roomPattern beforeCourse with
  | Some m => group 1 m
  | None => "TBA"
  end.

Definition teacherOf (line : string) (matchEnd : nat) : string :=
  let afterCourse := Js.substring matchEnd (matchEnd + 30) line in
  match exec teacherPattern afterCourse with
  | Some m => group 1 m
  | None => "TBA"
  end.

(** The entry built from one match of [coursePattern] in [line]. *)
Definition entryOf (st : Extraction) (timeSlot : TimeSlot) (line : string) (m : found)
    : ClassSchedule :=
  let courseCode := group 1 m in
  let batch := group 2 m in
  let section := group 3 m in
  let room := roomOf line (index m) in
  {| day := currentDay st;
     timeStart := slotStart timeSlot;
     timeEnd := slotEnd timeSlot;
     courseCode := courseCode;
     courseName := courseNameOf courseCode;
     batch := batch;
     section := section;
     room := if inComLabSection st then room +:+ " (LAB)" else room;
     teacher := teacherOf line (stop m);
     batchSection := batch +:+ "_" +:+ section |}.

(** [`${currentDay}|${timeSlot.start}|${courseCode}|${batchSection}`] *)
Definition uniqueKey (c : ClassSchedule) : string :=
  day c +:+ "|" +:+ timeStart c +:+ "|" +:+ courseCode c +:+ "|" +:+ batchSection c.

(** The body of the [while] loop over the matches of a line. *)
Definition addMatch (line : string) (st : Extraction) (m : found) : Extraction :=
  match slotOf (timeSlots st) (index m) with
  | None => st
  | Some timeSlot =>
      let classEntry := entryOf st timeSlot line m in
      let key := uniqueKey classEntry in
      if bool_decide (key ∈ seen st) then st
      else {| out := out st ++ [classEntry];
              seen := {[key]} ∪ seen st;
              currentDay := currentDay st;
              timeSlots := timeSlots st;
              inComLabSection := inComLabSection st |}
  end.

(** The body of the [for] loop, at line [i]. *)
Definition step (lines : list string) (st : Extraction) (i : nat) : Extraction :=
  let line := Js.lineAt lines i in
  let dayUpper := Js.toUpperCase (Js.trim line) in
  if Js.arrayIncludes DAYS dayUpper then
    let times := timesOf (Js.lineAt lines (i + 1)) in
    let columnPositions := columnPositionsOf (Js.lineAt lines (i + 2)) in
    {| out := out st; seen := seen st;
       currentDay := dayUpper;
       timeSlots := buildTimeSlots times columnPositions;
       inComLabSection := false |}
  else if Js.includes line "(COM LAB)" || Js.includes line "COM LAB" then
    {| out := out st; seen := seen st;
       currentDay := currentDay st;
       timeSlots := timeSlots st;
       inComLabSection := true |}
  else if String.eqb (currentDay st) "" || (length (timeSlots st) =? 0) then st
  else fold_left (addMatch line) (execAll coursePattern line) st.

Definition extractFrom (lines : list string) : Extraction :=
  fold_left (step lines) (seq 0 (length lines)) start.

Definition extractClasses (text : string) : list ClassSchedule :=
  out (extractFrom (Js.splitOn Js.newline text)).

(** *** calculateStats *)

Definition countOn (classes : list ClassSchedule) (d : string) : nat :=
  length (filter (fun c => day c = d) classes).

(** [dayCounts], filled by the first [DAYS.forEach]. *)
Definition dayCounts (classes : list ClassSchedule) : gmap string nat :=
  foldl (fun m d => <[d := countOn classes d]> m) ∅ DAYS.

(** The four variables of the second loop; [None] is [Infinity]. *)
Record Tally : Type := {
  tBusiestDay : string;
  tBusiestCount : nat;
  tLightestDay : string;
  tLightestCount : option nat
}.

Definition tallyStart : Tally :=
  {| tBusiestDay := Js.lineAt DAYS 0; tBusiestCount := 0;
     tLightestDay := Js.lineAt DAYS 0; tLightestCount := None |}.

Definition belowLightest (count : nat) (l : option nat) : bool :=
  match l with
  | None => true
  | Some n => count <? n
  end.

(** The body of the second [DAYS.forEach]. *)
Definition tallyDay (counts : gmap string nat) (t : Tally) (d : string) : Tally :=
  let count := default 0 (counts !! d) in
  let t1 :=
    if tBusiestCount t <? count
    then {| tBusiestDay := d; tBusiestCount := count;
            tLightestDay := tLightestDay t; tLightestCount := tLightestCount t |}
    else t in
  if belowLightest count (tLightestCount t1) && (0 <? count)
  then {| tBusiestDay := tBusiestDay t1; tBusiestCount := tBusiestCount t1;
          tLightestDay := d; tLightestCount := Some count |}
  else t1.

Definition tally (classes : list ClassSchedule) : Tally :=
  foldl (tallyDay (dayCounts classes)) tallyStart DAYS.

Definition statsOfTally (classes : list ClassSchedule) (t : Tally) : ScheduleStats :=
  {| totalClasses := length classes;
     busiestDay := Js.capitalised (tBusiestDay t);
     lightestDay := Js.capitalised (tLightestDay t);
     busiestDayCount := tBusiestCount t;
     lightestDayCount := default 0 (tLightestCount t) |}.

Definition calculateStats (classes : list ClassSchedule) : ScheduleStats :=
  statsOfTally classes (tally classes).

(** *** The filters and groupByDay *)

Definition filterByBatchSection (classes : list ClassSchedule) (bs : string)
    : list ClassSchedule :=
  filter (fun c => batchSection c = bs) classes.

Definition filterByTeacher (classes : list ClassSchedule) (t : string)
    : list ClassSchedule :=
  filter (fun c => Js.toUpperCase (teacher c) = Js.toUpperCase t) classes.

Definition filterByRoom (classes : list ClassSchedule) (q : string)
    : list ClassSchedule :=
  filter (fun c => Is_true (Js.includes (room c) (Js.toUpperCase q))) classes.

(** A JavaScript object with string keys, in the order the keys were
    first assigned: [o[k] = v] replaces the value of a key that is there
    and appends a key that is not. *)
Fixpoint assign {V : Type} (o : list (string * V)) (k : string) (v : V)
    : list (string * V) :=
  match o with
  | [] => [(k, v)]
  | (k', v') :: o' =>
      if String.eqb k' k then (k', v) :: o' else (k', v') :: assign o' k v
  end.

Definition groupByDay (classes : list ClassSchedule)
    : list (string * list ClassSchedule) :=
  foldl (fun grouped d =>
           assign grouped (Js.capitalised d) (filter (fun c => day c = d) classes))
        [] DAYS.

(** [Object.keys] and [Object.values]. *)
Definition keys {V : Type} (o : list (string * V)) : list string := map fst o.
Definition values {V : Type} (o : list (string * V)) : list V := map snd o.

End V3.

(* ===================================================================== *)
(** ** PDFParserV2: calculateStats *)
(* ===================================================================== *)

Module V2.

(** The guard for no classes, then the two loops, which are the text of
    PDFParserV3's. *)
Definition calculateStats (classes : list ClassSchedule) : ScheduleStats :=
  if length classes =? 0 then
    {| totalClasses := 0; busiestDay := "N/A"; lightestDay := "N/A";
       busiestDayCount := 0; lightestDayCount := 0 |}
  else V3.statsOfTally classes (V3.tally classes).

End V2.

(* ===================================================================== *)
(** ** PDFParserOptimized (pdf-parser-optimized.ts) *)
(* ===================================================================== *)

Module Optimized.
Import Regex Patterns.

Definition COURSE_NAMES : list (string * string) :=
  [ ("CSE112", "Computer Fundamentals");
    ("CSE113", "Programming and Problem Solving");
    ("CSE114", "Programming and Problem Solving Lab");
    ("CSE123", "Data Structure");
    ("CSE124", "Data Structure Lab");
    ("CSE213", "Algorithms");
    ("CSE214", "Algorithms Lab");
    ("CSE221", "Object Oriented Programming");
    ("CSE222", "Object Oriented Programming Lab");
    ("CSE223", "Digital Logic Design");
    ("CSE224", "Digital Logic Design Lab");
    ("CSE225", "Data Communication");
    ("CSE311", "Database Management System");
    ("CSE312", "Database Management System Lab");
    ("CSE313", "Compiler Design");
    ("CSE314", "Compiler Design Lab");
    ("CSE315", "Software Engineering");
    ("CSE316", "Artificial Intelligence");
    ("CSE321", "Computer Networks");
    ("CSE322", "Computer Networks Lab");
    ("CSE323", "Operating Systems");
    ("CSE324", "Operating Systems Lab");
    ("CSE411", "Computer Graphics");
    ("CSE412", "Computer Graphics Lab");
    ("CSE413", "Computer Architecture and Organization");
    ("CSE498", "Capstone Project (Phase I)");
    ("CSE499", "Capstone Project (Phase II)");
    ("MAT101", "Mathematics - I");
    ("MAT102", "Mathematics-II");
    ("ENG101", "Basic Functional English");
    ("ENG102", "Writing and Comprehension");
    ("PHY101", "Physics-I");
    ("PHY102", "Physics - II") ].

Definition courseNameOf (courseCode : string) : string :=
  match find (fun kv => String.eqb (fst kv) courseCode) COURSE_NAMES with
  | Some kv => Js.orElse (snd kv) courseCode
  | None => courseCode
  end.

(** [/^\s*([A-Z]{1,3})\b/] *)
Definition teacherPattern : re :=
  (Bol · star Js.isSpace · Grp 1 (range 1 3 Js.isUpper) · Wb)%re.

(** [/([A-Z]{2,3}\d?-?\d{3})/] *)
Definition roomPattern : re :=
  Grp 1 (range 2 3 Js.isUpper · maybe Js.isDigit · maybe (only "-") ·
         exactly 3 Js.isDigit)%re.

Record Extraction : Type := {
  out : list ClassSchedule;
  seen : gset string;
  currentDay : string;
  timeSlots : list TimeSlot;
  skip : nat                      (* lines the loop variable jumps over *)
}.

Definition start : Extraction :=
  {| out := []; seen := ∅; currentDay := ""; timeSlots := []; skip := 0 |}.

(** [n || d] on numbers: 0 and [undefined] are falsy. *)
Definition orNum (o : option nat) (d : nat) : nat :=
  match o with
  | Some (S n) => S n
  | _ => d
  end.

(** [times.map((time, idx) => ...)]: one column per time range. *)
Definition buildTimeSlots (times : list (string * string)) (columnPositions : list nat)
    : list TimeSlot :=
  imap (fun idx time =>
          {| slotStart := fst time; slotEnd := snd time;
             columnStart := orNum (columnPositions !! idx) 0;
             columnEnd := orNum (columnPositions !! (S idx)) 999 |}) times.

Definition slotOf (timeSlots : list TimeSlot) (matchPosition : nat) : option TimeSlot :=
  find (fun s => (columnStart s <=? matchPosition) && (matchPosition <? columnEnd s))
       timeSlots.

Definition teacherOf (line : string) (matchEnd : nat) : string :=
  match exec teacherPattern (Js.substringFrom matchEnd line) with
  | Some m => group 1 m
  | None => "TBA"
  end.

Definition roomOf (line : string) (slot : TimeSlot) : string :=
  match exec roomPattern (Js.substring (columnStart slot) (columnEnd slot) line) with
  | Some m => group 1 m
  | None => "TBA"
  end.

(** The six fields that make the key of an entry; the day is the
    upper-case one of the header. *)
Record Candidate : Type := {
  cDay : string;
  cSlot : TimeSlot;
  cCourseCode : string;
  cBatch : string;
  cSection : string;
  cTeacher : string;
  cRoom : string
}.

Definition cBatchSection (c : Candidate) : string :=
  cBatch c +:+ "_" +:+ cSection c.

(** [`${currentDay}-${slot.start}-${courseCode}-${batchSection}-${teacher}-${room}`] *)
Definition uniqueKey (c : Candidate) : string :=
  cDay c +:+ "-" +:+ slotStart (cSlot c) +:+ "-" +:+ cCourseCode c +:+ "-" +:+
  cBatchSection c +:+ "-" +:+ cTeacher c +:+ "-" +:+ cRoom c.

Definition entryOf (c : Candidate) : ClassSchedule :=
  {| day := Js.capitalised (cDay c);
     timeStart := slotStart (cSlot c);
     timeEnd := slotEnd (cSlot c);
     courseCode := cCourseCode c;
     courseName := courseNameOf (cCourseCode c);
     batch := cBatch c;
     section := cSection c;
     room := cRoom c;
     teacher := cTeacher c;
     batchSection := cBatchSection c |}.

(** What a match of [coursePattern] in [line] stands for, when its offset
    falls in a column. *)
Definition candidateOf (st : Extraction) (line : string) (m : found) : option Candidate :=
  match slotOf (timeSlots st) (index m) with
  | None => None
  | Some slot =>
      Some {| cDay := currentDay st; cSlot := slot;
              cCourseCode := group 1 m; cBatch := group 2 m; cSection := group 3 m;
              cTeacher := teacherOf line (stop m);
              cRoom := roomOf line slot |}
  end.

(** The body of the [while] loop. *)
Definition addMatch (line : string) (st : Extraction) (m : found) : Extraction :=
  match candidateOf st line m with
  | None => st
  | Some c =>
      if bool_decide (uniqueKey c ∈ seen st) then st
      else {| out := out st ++ [entryOf c];
              seen := {[uniqueKey c]} ∪ seen st;
              currentDay := currentDay st;
              timeSlots := timeSlots st;
              skip := skip st |}
  end.

(** The body of the [for] loop at line [i]; [i += 2] is the [skip]. *)
Definition step (lines : list string) (st : Extraction) (i : nat) : Extraction :=
  match skip st with
  | S n =>
      {| out := out st; seen := seen st; currentDay := currentDay st;
         timeSlots := timeSlots st; skip := n |}
  | O =>
      let line := Js.lineAt lines i in
      let dayUpper := Js.toUpperCase (Js.trim line) in
      if Js.arrayIncludes DAYS dayUpper then
        {| out := out st; seen := seen st;
           currentDay := dayUpper;
           timeSlots := buildTimeSlots (timesOf (Js.lineAt lines (i + 1)))
                          (columnPositionsOf (Js.lineAt lines (i + 2)));
           skip := 2 |}
      else if String.eqb (currentDay st) "" || (length (timeSlots st) =? 0) then st
      else fold_left (addMatch line) (execAll coursePattern line) st
  end.

Definition extractFrom (lines : list string) : Extraction :=
  fold_left (step lines) (seq 0 (length lines)) start.

Definition extractClasses (text : string) : list ClassSchedule :=
  out (extractFrom (Js.splitOn Js.newline text)).

Definition filterByRoom (classes : list ClassSchedule) (q : string)
    : list ClassSchedule :=
  filter (fun c => Is_true (Js.includes (room c) (Js.toUpperCase q))) classes.

(** *** calculateStats

    [dayCount] is a plain object used as a map from the days to their
    counts.  It is modelled for the keys an object keeps in the order of
    their first assignment and does not inherit: see [Js.plainKey]. *)

(** [dayCount[d] = (dayCount[d] || 0) + 1] *)
Definition bump (dayCount : list (string * nat)) (d : string) : list (string * nat) :=
  V3.assign dayCount d
    (match find (fun kv => String.eqb (fst kv) d) dayCount with
     | Some (_, S n) => S n
     | _ => 0
     end + 1).

Definition dayCount (classes : list ClassSchedule) : list (string * nat) :=
  fold_left (fun o c => bump o (day c)) classes [].

(** [(a, b) => (a[1] > b[1] ? a : b)] and [(a, b) => (a[1] < b[1] ? a : b)] *)
Definition busier (a b : string * nat) : string * nat :=
  if snd b <? snd a then a else b.

Definition lighter (a b : string * nat) : string * nat :=
  if snd a <? snd b then a else b.

Definition calculateStats (classes : list ClassSchedule) : ScheduleStats :=
  match dayCount classes with
  | [] =>
      {| totalClasses := 0; busiestDay := "N/A"; lightestDay := "N/A";
         busiestDayCount := 0; lightestDayCount := 0 |}
  | e :: entries =>
      let busiest := fold_left busier entries e in
      let lightest := fold_left lighter entries e in
      {| totalClasses := length classes;
         busiestDay := fst busiest;
         lightestDay := fst lightest;
         busiestDayCount := snd busiest;
         lightestDayCount := snd lightest |}
  end.

(** *** The filters and groupByDay *)

Definition filterByBatchSection (classes : list ClassSchedule) (bs : string)
    : list ClassSchedule :=
  filter (fun c => batchSection c = bs) classes.

Definition filterByTeacher (classes : list ClassSchedule) (t : string)
    : list ClassSchedule :=
  filter (fun c => Js.toUpperCase (teacher c) = Js.toUpperCase t) classes.

Definition groupByDay (classes : list ClassSchedule)
    : list (string * list ClassSchedule) :=
  foldl (fun grouped d =>
           V3.assign grouped (Js.capitalised d)
                     (filter (fun c => Js.toUpperCase (day c) = d) classes))
        [] DAYS.

End Optimized.

(* ===================================================================== *)
(** ** Effects: errors, the clock, the network and the database *)
(* ===================================================================== *)

Module Eff.

(** A thrown [Error]: its [name] and its [message]. *)
Record JsError : Type := { errName : string; errMessage : string }.

#[global] Instance JsError_eq_dec : EqDecision JsError.
Proof. solve_decision. Defined.

(** [new Error(message)] *)
Definition newError (message : string) : JsError :=
  {| errName := "Error"; errMessage := message |}.

(** [`${error}`], that is [Error.prototype.toString]. *)
Definition errorText (e : JsError) : string :=
  if String.eqb (errName e) "" then errMessage e
  else if String.eqb (errMessage e) "" then errName e
  else errName e +:+ ": " +:+ errMessage e.

(** What the parser asks of the outside, in the order it asks. *)
Inductive Event : Type :=
| Download (url : string)          (* axios.get *)
| WriteFile (path : string)        (* fs.writeFile *)
| Pdftotext (path : string)        (* pdftotext -layout *)
| Unlink (path : string).          (* fs.unlink *)

#[global] Instance Event_eq_dec : EqDecision Event.
Proof. solve_decision. Defined.

(** The outside world: what a download gives or throws, where the
    temporary file goes, whether it can be written, and what the text
    extraction of a document gives or throws. *)
Record Outside : Type := {
  httpGet : string -> JsError + string;
  tempPath : Z -> string;
  writeFile : string -> string -> option JsError;
  pdftotext : string -> JsError + string
}.

(** The rows of the two tables (drizzle schema). *)
Module PdfCache.
Record row : Type := {
  id : nat;
  department : string;
  pdfUrl : string;
  version : string;
  parsedAt : Z;
  expiresAt : Z;
  totalClasses : nat
}.
End PdfCache.

Module ClassSchedules.
Record row : Type := {
  id : nat;
  cacheId : nat;
  day : string;
  timeStart : string;
  timeEnd : string;
  courseCode : string;
  courseName : option string;
  batch : string;
  section : string;
  batchSection : string;
  room : string;
  teacher : string;
  department : string;
  createdAt : Z
}.
End ClassSchedules.

(** The database: the two tables in the order of insertion, and the two
    auto-increment counters. *)
Record Db : Type := {
  pdfCache : list PdfCache.row;
  classSchedules : list ClassSchedules.row;
  pdfCacheSeq : nat;
  classSchedulesSeq : nat
}.

Definition emptyDb : Db :=
  {| pdfCache := []; classSchedules := []; pdfCacheSeq := 0; classSchedulesSeq := 0 |}.

(** The world a call runs in: the clock (milliseconds), the database
    ([None] when [getDb()] gives [null]) and the requests made so far. *)
Record World : Type := {
  clock : Z;
  store : option Db;
  trace : list Event
}.

Inductive Outcome (A : Type) : Type :=
| Returned (a : A)
| Threw (e : JsError).
Arguments Returned {A} a.
Arguments Threw {A} e.

(** Computations that read and change the world and may throw. *)
Definition M (A : Type) : Type := World -> Outcome A * World.

Definition ret {A : Type} (a : A) : M A := fun w => (Returned a, w).

Definition throw {A : Type} (e : JsError) : M A := fun w => (Threw e, w).

Definition bind {A B : Type} (m : M A) (k : A -> M B) : M B :=
  fun w =>
    match m w with
    | (Returned a, w') => k a w'
    | (Threw e, w') => (Threw e, w')
    end.

(** [try { m } catch (error) { ... }]: the outcome of [m] as a value. *)
Definition attempt {A : Type} (m : M A) : M (JsError + A) :=
  fun w =>
    match m w with
    | (Returned a, w') => (Returned (inr a), w')
    | (Threw e, w') => (Returned (inl e), w')
    end.

Definition emit (ev : Event) : M unit :=
  fun w => (Returned tt,
            {| clock := clock w; store := store w; trace := trace w ++ [ev] |}).

(** [new Date()] *)
Definition newDate : M Z := fun w => (Returned (clock w), w).

(** Time passing between two calls. *)
Definition wait (dt : Z) : M unit :=
  fun w => (Returned tt,
            {| clock := (clock w + dt)%Z; store := store w; trace := trace w |}).

Definition ofSum {A : Type} (r : JsError + A) : M A :=
  match r with
  | inl e => throw e
  | inr a => ret a
  end.

(** [getDb()], and the check that follows it in every method. *)
Definition getDb : M Db :=
  fun w =>
    match store w with
    | Some d => (Returned d, w)
    | None => (Threw (newError "Database not available"), w)
    end.

Definition modifyDb {A : Type} (f : Db -> A * Db) : M A :=
  fun w =>
    match store w with
    | Some d =>
        let '(a, d') := f d in
        (Returned a, {| clock := clock w; store := Some d'; trace := trace w |})
    | None => (Threw (newError "Database not available"), w)
    end.

End Eff.

(** The notation for sequencing is stdpp's: [x ← m; k] and [m;; k]. *)
#[global] Instance M_ret : MRet Eff.M := @Eff.ret.
#[global] Instance M_bind : MBind Eff.M := fun A B k m => Eff.bind m k.

(** *** PDFParserV3.parsePDFFromURL *)

Module V3Url.
Import Eff.

Section WithOutside.
Variable net : Outside.

(** [new Error(`Failed to parse PDF: ${error}`)] *)
Definition failed (error : JsError) : JsError :=
  newError ("Failed to parse PDF: " +:+ errorText error).

(** Lines 126-137: the classes, their statistics and the teachers. *)
Definition parsedOf (text : string) : ParsedSchedule :=
  let classes := V3.extractClasses text in
  {| classes := classes;
     stats := V3.calculateStats classes;
     faculty := Js.uniqueInOrder (map teacher classes) |}.

Definition axiosGet (url : string) : M string :=
  emit (Download url);; ofSum (httpGet net url).

Definition fsWriteFile (path data : string) : M unit :=
  emit (WriteFile path);;
  match writeFile net path data with
  | Some e => throw e
  | None => ret tt
  end.

Definition execPdftotext (path data : string) : M string :=
  emit (Pdftotext path);; ofSum (pdftotext net data).

Definition fsUnlink (path : string) : M unit := emit (Unlink path).

(** The [try] block up to the first line that sets [tempPdfPath] is the
    download; the [finally] block unlinks the file when the path is
    set, and the [catch] block rethrows every error as [failed]. *)
Definition parsePDFFromURL (url : string) : M ParsedSchedule :=
  response ← attempt (axiosGet url);
  match response with
  | inl error => throw (failed error)
  | inr data =>
      now ← newDate;
      let tempPdfPath := tempPath net now in
      r ← attempt (fsWriteFile tempPdfPath data;;
                   stdout ← execPdftotext tempPdfPath data;
                   ret (parsedOf stdout));
      fsUnlink tempPdfPath;;
      match r with
      | inl error => throw (failed error)
      | inr parsed => ret parsed
      end
  end.

End WithOutside.
End V3Url.

(** *** PDFParser.parsePDFFromUrl (pdf-parser.ts), the first parser

    Its [try] block downloads, reads the text with the pdf-parse library and
    extracts; its [catch] block logs and returns the empty list.  The text
    reader and [extractSchedules] are parameters here: what is modelled is
    how the method treats a failure. *)

Module Legacy.
Import Eff.

Section WithOutside.
Variable net : Outside.
Variable Schedule : Type.
Variable extractSchedules : string -> list Schedule.

Definition parsePDFFromUrl (pdfUrl : string) : M (list Schedule) :=
  r ← attempt (data ← V3Url.axiosGet net pdfUrl;
               text ← ofSum (pdftotext net data);
               ret (extractSchedules text));
  match r with
  | inl error => ret []
  | inr schedules => ret schedules
  end.

End WithOutside.
End Legacy.

(* ===================================================================== *)
(** ** PdfCacheService (pdf-cache-service.ts) *)
(* ===================================================================== *)

Module PdfCacheService.
Import Eff.
Local Open Scope Z_scope.

Definition CACHE_DURATION_DAYS : Z := 30.
Definition msPerDay : Z := 86400000.

(** [d.setDate(d.getDate() + days)], in a zone whose clock does not
    change in between. *)
Definition addDays (d days : Z) : Z := d + days * msPerDay.

(** [new Date(c.expiresAt) > now] *)
Definition valid (now : Z) (c : PdfCache.row) : bool := now <? PdfCache.expiresAt c.

(** [.select().from(pdfCache).where(and(eq(department), eq(version))).limit(1)]:
    the rows come in the order of the table. *)
Definition selectCache (department version : string) (d : Db) : list PdfCache.row :=
  take 1 (filter (fun c => PdfCache.department c = department
                           ∧ PdfCache.version c = version) (pdfCache d)).

(** [.select().from(pdfCache).where(eq(department))] *)
Definition selectDepartment (department : string) (d : Db) : list PdfCache.row :=
  filter (fun c => PdfCache.department c = department) (pdfCache d).

(** [.select().from(classSchedules).where(eq(cacheId))] *)
Definition selectClasses (cacheId : nat) (d : Db) : list ClassSchedules.row :=
  filter (fun r => ClassSchedules.cacheId r = cacheId) (classSchedules d).

(** The object built from a stored row (lines 40-51). *)
Definition ofRow (c : ClassSchedules.row) : ClassSchedule :=
  {| day := ClassSchedules.day c;
     timeStart := ClassSchedules.timeStart c;
     timeEnd := ClassSchedules.timeEnd c;
     courseCode := ClassSchedules.courseCode c;
     courseName := Js.orElse (default "" (ClassSchedules.courseName c))
                             (ClassSchedules.courseCode c);
     batch := ClassSchedules.batch c;
     section := ClassSchedules.section c;
     room := ClassSchedules.room c;
     teacher := ClassSchedules.teacher c;
     batchSection := ClassSchedules.batchSection c |}.

(** The row stored for a class (lines 75-88); the table gives it its
    [id] and its [createdAt]. *)
Definition toRow (id cacheId : nat) (department : string) (now : Z) (c : ClassSchedule)
    : ClassSchedules.row :=
  {| ClassSchedules.id := id;
     ClassSchedules.cacheId := cacheId;
     ClassSchedules.day := day c;
     ClassSchedules.timeStart := timeStart c;
     ClassSchedules.timeEnd := timeEnd c;
     ClassSchedules.courseCode := courseCode c;
     ClassSchedules.courseName := Some (courseName c);
     ClassSchedules.batch := batch c;
     ClassSchedules.section := section c;
     ClassSchedules.batchSection := batchSection c;
     ClassSchedules.room := room c;
     ClassSchedules.teacher := teacher c;
     ClassSchedules.department := department;
     ClassSchedules.createdAt := now |}.

(** [db.insert(pdfCache).values({...})]; the result is [insertId]. *)
Definition insertCache (department pdfUrl version : string) (now expiresAt : Z)
    (total : nat) (d : Db) : nat * Db :=
  let id := S (pdfCacheSeq d) in
  (id,
   {| pdfCache := pdfCache d ++
        [ {| PdfCache.id := id; PdfCache.department := department;
             PdfCache.pdfUrl := pdfUrl; PdfCache.version := version;
             PdfCache.parsedAt := now; PdfCache.expiresAt := expiresAt;
             PdfCache.totalClasses := total |} ];
      classSchedules := classSchedules d;
      pdfCacheSeq := id;
      classSchedulesSeq := classSchedulesSeq d |}).

(** [db.insert(classSchedules).values([...])] *)
Definition insertClasses (cacheId : nat) (department : string) (now : Z)
    (cs : list ClassSchedule) (d : Db) : unit * Db :=
  (tt,
   {| pdfCache := pdfCache d;
      classSchedules := classSchedules d ++
        imap (fun i c => toRow (S (classSchedulesSeq d + i)) cacheId department now c) cs;
      pdfCacheSeq := pdfCacheSeq d;
      classSchedulesSeq := (classSchedulesSeq d + length cs)%nat |}).

(** [db.delete(classSchedules).where(eq(cacheId))] *)
Definition deleteClasses (cacheId : nat) (d : Db) : unit * Db :=
  (tt,
   {| pdfCache := pdfCache d;
      classSchedules := filter (fun r => ClassSchedules.cacheId r ≠ cacheId)
                               (classSchedules d);
      pdfCacheSeq := pdfCacheSeq d;
      classSchedulesSeq := classSchedulesSeq d |}).

(** [db.delete(pdfCache).where(eq(department))] *)
Definition deleteDepartment (department : string) (d : Db) : unit * Db :=
  (tt,
   {| pdfCache := filter (fun c => PdfCache.department c ≠ department) (pdfCache d);
      classSchedules := classSchedules d;
      pdfCacheSeq := pdfCacheSeq d;
      classSchedulesSeq := classSchedulesSeq d |}).

Record CacheStatus : Type := {
  isCached : bool;
  statusParsedAt : option Z;
  statusExpiresAt : option Z;
  statusTotalClasses : option nat
}.

Section WithOutside.
Variable net : Outside.

Definition getOrParsePdf (department pdfUrl version : string)
    : M (list ClassSchedule) :=
  db ← getDb;
  let cache := selectCache department version db in
  now ← newDate;
  match find (valid now) cache with
  | Some validCache =>
      ret (map ofRow (selectClasses (PdfCache.id validCache) db))
  | None =>
      parsed ← V3Url.parsePDFFromURL net pdfUrl;
      today ← newDate;
      let expiresAt := addDays today CACHE_DURATION_DAYS in
      cacheId ← modifyDb (insertCache department pdfUrl version today expiresAt
                                       (length (classes parsed)));
      (if (0 <? length (classes parsed))%nat
       then modifyDb (insertClasses cacheId department today (classes parsed))
       else ret tt);;
      ret (classes parsed)
  end.

Definition clearCache (department : string) : M unit :=
  db ← getDb;
  let caches := selectDepartment department db in
  foldl (fun m cache => m;; modifyDb (deleteClasses (PdfCache.id cache)))
        (ret tt) caches;;
  modifyDb (deleteDepartment department).

Definition getCacheStatus (department : string) : M CacheStatus :=
  db ← getDb;
  let cache := take 1 (selectDepartment department db) in
  match cache with
  | [] => ret {| isCached := false; statusParsedAt := None;
                 statusExpiresAt := None; statusTotalClasses := None |}
  | c :: _ =>
      now ← newDate;
      let isExpired := PdfCache.expiresAt c <=? now in
      ret {| isCached := negb isExpired;
             statusParsedAt := Some (PdfCache.parsedAt c);
             statusExpiresAt := Some (PdfCache.expiresAt c);
             statusTotalClasses := Some (PdfCache.totalClasses c) |}
  end.

End WithOutside.

(** How often the parser was asked for a document: every call of
    [parsePDFFromURL] starts with one download. *)
Definition isDownload (ev : Event) : bool :=
  match ev with
  | Download _ => true
  | _ => false
  end.

Definition parseCount (w : World) : nat :=
  length (filter (fun ev => Is_true (isDownload ev)) (trace w)).

End PdfCacheService.

(* ===================================================================== *)
(** ** PDFParserOptimized.parsePDFFromURL (pdf-parser-optimized.ts) *)
(* ===================================================================== *)

Module OptimizedUrl.
Import Eff.

(** *** parsePDFFromURL and the cache in memory *)

Definition MEMORY_CACHE_TTL : Z := 5 * 60 * 1000.

(** A value of [memoryCache]: [{ data, timestamp }]. *)
Record Cached : Type := { data : ParsedSchedule; timestamp : Z }.

(** The [Map] from URLs to parsed documents, in the order of insertion. *)
Definition MemoryCache : Type := list (string * Cached).

(** [memoryCache.get(url)] *)
Definition mapGet (m : MemoryCache) (url : string) : option Cached :=
  option_map snd (find (fun kv => String.eqb (fst kv) url) m).

(** [memoryCache.delete(url)] *)
Definition mapDelete (m : MemoryCache) (url : string) : MemoryCache :=
  filter (fun kv => fst kv ≠ url) m.

(** [entries.sort((a, b) => a[1].timestamp - b[1].timestamp)]: the sort is
    stable, so an entry goes before the entries that are not older. *)
Fixpoint insertByTimestamp (x : string * Cached) (l : MemoryCache) : MemoryCache :=
  match l with
  | [] => [x]
  | y :: l' =>
      if (timestamp (snd y) <? timestamp (snd x))%Z then y :: insertByTimestamp x l'
      else x :: y :: l'
  end.

Definition sortByTimestamp (m : MemoryCache) : MemoryCache :=
  foldr insertByTimestamp [] m.

(** Lines 137-142: with more than five entries the oldest is deleted. *)
Definition evict (m : MemoryCache) : MemoryCache :=
  if 5 <? length m then
    match sortByTimestamp m with
    | oldest :: _ => mapDelete m (fst oldest)
    | [] => m
    end
  else m.

(** Lines 124-132: the classes, their statistics and the teachers. *)
Definition parsedOf (text : string) : ParsedSchedule :=
  let classes := Optimized.extractClasses text in
  {| classes := classes;
     stats := Optimized.calculateStats classes;
     faculty := Js.uniqueInOrder (map teacher classes) |}.

Section WithOutside.
Variable net : Outside.

(** The [try] block with its [catch] and [finally]: the path of the
    temporary file is set before the download, so the file is unlinked
    whatever happens. *)
Definition download (url : string) (memoryCache : MemoryCache)
    : M (ParsedSchedule * MemoryCache) :=
  now ← newDate;
  let tempPdfPath := tempPath net now in
  r ← attempt (response ← V3Url.axiosGet net url;
               V3Url.fsWriteFile net tempPdfPath response;;
               stdout ← V3Url.execPdftotext net tempPdfPath response;
               let result := parsedOf stdout in
               stamp ← newDate;
               ret (result,
                    evict (V3.assign memoryCache url
                             {| data := result; timestamp := stamp |})));
  V3Url.fsUnlink tempPdfPath;;
  match r with
  | inl error => throw (V3Url.failed error)
  | inr done => ret done
  end.

(** The method, with [memoryCache] passed in and out: a call that throws
    leaves it as it was. *)
Definition parsePDFFromURL (url : string) (memoryCache : MemoryCache) (w : World)
    : Outcome ParsedSchedule * MemoryCache * World :=
  let body : M (ParsedSchedule * MemoryCache) :=
    now ← newDate;
    match mapGet memoryCache url with
    | Some cached =>
        if (now - timestamp cached <? MEMORY_CACHE_TTL)%Z
        then ret (data cached, memoryCache)
        else download url memoryCache
    | None => download url memoryCache
    end in
  match body w with
  | (Returned (result, memoryCache'), w') => (Returned result, memoryCache', w')
  | (Threw e, w') => (Threw e, memoryCache, w')
  end.

End WithOutside.
End OptimizedUrl.

(* ===================================================================== *)
(** ** FacultyScraper.generateInitials (the faculty scraper file) *)
(* ===================================================================== *)

Module FacultyScraper.

Definition titles : list string :=
  [ "md"; "dr"; "prof"; "mr"; "mrs"; "ms"; "engr"; "professor"; "doctor";
    "muhammed"; "mohammed" ].

(** The test of the [filter]: the word is no title and is not empty. *)
Definition counts (word : string) : bool :=
  let lowerWord := Js.withoutDots (Js.toLowerCase word) in
  negb (Js.arrayIncludes titles lowerWord) && (0 <? String.length word).



End FacultyScraper.

(* ===================================================================== *)
(** ** PDFParser (pdf-parser.ts): the filters *)
(* ===================================================================== *)

Module PDFParser.

(** [ClassSchedule] of types/index.ts. *)
Record ClassSchedule : Type := {
  id : string;
  day : string;
  timeStart : string;
  timeEnd : string;
  courseCode : string;
  courseName : string;
  batch : string;
  section : string;
  room : string;
  roomType : option string;
  teacherInitials : string;
  teacherName : option string
}.

Definition filterByBatchSection (schedules : list ClassSchedule) (batchSection : string)
    : list ClassSchedule :=
  let normalized := Js.spacesToUnderscore (Js.toUpperCase batchSection) in
  match Js.splitOn "_" normalized with
  | b :: sec :: _ =>
      filter (fun s => batch s = b /\ section s = sec) schedules
  | _ =>
      let b := Js.sliceInit normalized in
      let sec := Js.sliceLast normalized in
      filter (fun s => batch s = b /\ section s = sec) schedules
  end.

Definition filterByTeacher (schedules : list ClassSchedule) (teacherInitials0 : string)
    : list ClassSchedule :=
  filter (fun s => teacherInitials s = Js.toUpperCase teacherInitials0) schedules.

Definition filterByRoom (schedules : list ClassSchedule) (room0 : string)
    : list ClassSchedule :=
  filter (fun s => room s = Js.toUpperCase room0) schedules.

End PDFParser.

(* ===================================================================== *)
(** ** The noticeboard scraper (noticeboard-scraper.ts) *)
(* ===================================================================== *)

Module Noticeboard.
Import Regex Eff.

Record DepartmentRoutine : Type := {
  department : string;
  title : string;
  pdfUrl : string;
  version : string;
  date : Z                      (* the instant [new Date()] stands for *)
}.

Definition DEPARTMENT_KEYWORDS : list (string * list string) :=
  [ ("cse", ["CSE"; "Computer Science"]);
    ("eee", ["EEE"; "Electrical"]);
    ("swe", ["SWE"; "Software Engineering"]);
    ("ags", ["AGS"; "Agricultural"]);
    ("ce", ["CE"; "Civil Engineering"]);
    ("mct", ["MCT"; "Multimedia"]);
    ("ice", ["ICE"; "Information and Communication"]);
    ("architecture", ["Architecture"]) ].

Definition noticeboard : string := "https://daffodilvarsity.edu.bd/noticeboard".
Definition site : string := "https://daffodilvarsity.edu.bd".

(** An [a] element of a page: its [text()] and its [href] attribute. *)
Record Anchor : Type := { anchorText : string; anchorHref : option string }.

(** The test on the text of a notice: it names a routine or a class
    schedule, and neither advising nor an exam. *)
Definition isRoutineNotice (text : string) : bool :=
  let lowerText := Js.toLowerCase text in
  (Js.includes lowerText "routine" || Js.includes lowerText "class schedule") &&
  negb (Js.includes lowerText "advising") &&
  negb (Js.includes lowerText "exam").

(** [keywords.some((keyword) => text.includes(keyword))] *)
Definition mentions (text : string) (keywords : list string) : bool :=
  existsb (fun keyword => Js.includes text keyword) keywords.

(** The loop over [Object.entries(DEPARTMENT_KEYWORDS)]: the first
    department one of whose keywords the text holds. *)
Definition departmentOf (text : string) : string :=
  match find (fun entry => mentions text (snd entry)) DEPARTMENT_KEYWORDS with
  | Some entry => fst entry
  | None => "unknown"
  end.

(** The pattern of the version: [V] or [v], an optional [ersion], white
    space, and the group: digits, an optional dot, digits. *)
Definition versionPattern : re :=
  (Cls (fun c => Ascii.eqb c "V" || Ascii.eqb c "v") · Opt (lit "ersion") ·
   star Js.isSpace ·
   Grp 1 (plus Js.isDigit · maybe (only ".") · star Js.isDigit))%re.

Definition versionOf (text : string) : string :=
  match exec versionPattern text with
  | Some m => group 1 m
  | None => "1.0"
  end.

(** The body of the first [each]: what one link adds to [routines]. *)
Definition routineOf (now : Z) (a : Anchor) : option DepartmentRoutine :=
  let text := Js.trim (anchorText a) in
  match anchorHref a with
  | None => None
  | Some href =>
      if String.eqb href "" || String.eqb text "" then None
      else if isRoutineNotice text then
        let department := departmentOf text in
        if String.eqb department "unknown" then None
        else Some {| department := department; title := text; pdfUrl := "";
                     version := versionOf text; date := now |}
      else None
  end.

(** [href.startsWith("http") ? href : `https://daffodilvarsity.edu.bd${href}`] *)
Definition absolute (href : string) : string :=
  if Js.startsWith href "http" then href else site +:+ href.

(** The body of the [each] of getNoticePdfUrl. *)
Definition pdfLinkOf (a : Anchor) : option string :=
  match anchorHref a with
  | None => None
  | Some href =>
      if negb (String.eqb href "") && Js.endsWith (Js.toLowerCase href) ".pdf"
      then Some (absolute href) else None
  end.

(** [DEPARTMENT_KEYWORDS[department] || []] *)
Definition keywordsOf (department : string) : list string :=
  match find (fun entry => String.eqb (fst entry) department) DEPARTMENT_KEYWORDS with
  | Some entry => snd entry
  | None => []
  end.

(** The body of the [each] of getLatestRoutinePdfUrl. *)
Definition noticeOf (keywords : list string) (a : Anchor) : option string :=
  let text := Js.trim (anchorText a) in
  match anchorHref a with
  | None => None
  | Some href =>
      if String.eqb href "" || String.eqb text "" then None
      else if isRoutineNotice text && mentions text keywords then Some (absolute href)
      else None
  end.

(** The first element for which the body of an [each] finds something. *)
Definition firstOf {A B : Type} (f : A -> option B) (l : list A) : option B :=
  head (omap f l).

Section WithOutside.
Variable net : Outside.
(** [cheerio.load(html)("a")]: the links of a page, in document order. *)
Variable anchorsOf : string -> list Anchor.

Definition scrapeNoticeboardRoutines : M (list DepartmentRoutine) :=
  r ← attempt (V3Url.axiosGet net noticeboard);
  match r with
  | inl error => ret []
  | inr html => now ← newDate; ret (omap (routineOf now) (anchorsOf html))
  end.

Definition getNoticePdfUrl (noticeUrl : string) : M (option string) :=
  r ← attempt (V3Url.axiosGet net noticeUrl);
  match r with
  | inl error => ret None
  | inr html => ret (firstOf pdfLinkOf (anchorsOf html))
  end.

Definition getLatestRoutinePdfUrl (department : string) : M (option string) :=
  r ← attempt (V3Url.axiosGet net noticeboard);
  match r with
  | inl error => ret None
  | inr html =>
      match firstOf (noticeOf (keywordsOf department)) (anchorsOf html) with
      | None => ret None
      | Some noticeHref => getNoticePdfUrl noticeHref
      end
  end.

End WithOutside.
End Noticeboard.


(* ===================================================================== *)
(** ** The vocabulary of the statements: inputs, predicates, outcomes *)
(* ===================================================================== *)

Import Eff.
Import PdfCacheService.

(** *** Texts and classes *)

(** The newline as a text. *)
Definition nl : string := String Js.newline "".

(** Lines joined by newlines, as the text extraction prints them. *)
Definition unlines (ls : list string) : string :=
  match ls with
  | [] => ""
  | l :: ls' => fold_left (fun acc x => acc +:+ nl +:+ x) ls' l
  end.

(** A class with the fields a statement is about; the rest is fixed. *)
Definition classOn (d r : string) : ClassSchedule :=
  {| day := d; timeStart := "08:30"; timeEnd := "10:00"; courseCode := "CSE112";
     courseName := "Computer Fundamentals"; batch := "71"; section := "I";
     room := r; teacher := "MB"; batchSection := "71_I" |}.

(** [s] contains [t]: [t] stands between some text and some text. *)
Definition contains (s t : string) : Prop :=
  exists pre post, s = pre +:+ t +:+ post.

(** A Sunday class, a Saturday class, and a class whose day is spelt as the
    front end spells it. *)
Definition c4_classes : list ClassSchedule :=
  [ classOn "SUNDAY" "KT-101"; classOn "SATURDAY" "KT-222"; classOn "Saturday" "KT-305" ].

(** The four-line block, with the word [Course] as the column anchor. *)
Definition scenario : string := unlines
  [ "SATURDAY";
    "08:30-10:00  10:00-11:30";
    "Course Course";
    "KT-222CSE112(71_I)MB  KT-223MAT101(71_I)AST" ].

(** The same block with the placeholder of the specification as it is
    printed there. *)
Definition scenarioLiteral : string := unlines
  [ "SATURDAY";
    "08:30-10:00  10:00-11:30";
    "<anchor> <anchor>";
    "KT-222CSE112(71_I)MB  KT-223MAT101(71_I)AST" ].

(** The block as the layout-preserving extraction prints a routine: each
    cell under its header. *)
Definition scenarioAligned : string := unlines
  [ "SATURDAY";
    "08:30-10:00                    10:00-11:30";
    "Room   Course        Teacher   Room   Course        Teacher";
    "KT-222 CSE112(71_I)  MB        KT-223 MAT101(71_I)  AST" ].

(** The fields the scenario names; the weekday is read whatever its case. *)
Definition scenarioFields (c : ClassSchedule)
    : string * string * string * string * string * string * string :=
  (Js.capitalised (day c), timeStart c, courseCode c, batch c, section c,
   room c, teacher c).

(** What the specification expects of the scenario. *)
Definition scenarioExpected
    : list (string * string * string * string * string * string * string) :=
  [ ("Saturday", "08:30", "CSE112", "71", "I", "KT-222", "MB");
    ("Saturday", "10:00", "MAT101", "71", "I", "KT-223", "AST") ].

(** One section, one course, one time, three lines: the same room with two
    teachers, and another room. *)
Definition c1_text : string := unlines
  [ "SATURDAY";
    "08:30-10:00";
    "Room   Course        Teacher";
    "KT-222 CSE112(71_I)  MB";
    "KT-222 CSE112(71_I)  AST";
    "KT-305 CSE112(71_I)  MB" ].

(** The six fields of the composite key of the specification. *)
Definition key6 (c : ClassSchedule)
    : string * string * string * string * string * string :=
  (day c, timeStart c, courseCode c, batchSection c, teacher c, room c).

(** Line [i] is a day header. *)
Definition dayHeader (lines : list string) (i : nat) : bool :=
  Js.arrayIncludes DAYS (Js.toUpperCase (Js.trim (Js.lineAt lines i))).

(** Pairing by index up to the shorter of the two lists. *)
Definition pairedUpToShorter (slots : list TimeSlot)
    (times : list (string * string)) (cols : list nat) : Prop :=
  length slots = Nat.min (length times) (length cols) /\
  forall j slot, slots !! j = Some slot ->
    exists t, times !! j = Some t /\ slotStart slot = fst t /\ slotEnd slot = snd t.

(** A block with two time ranges and one column header. *)
Definition c2_lines : list string :=
  [ "SATURDAY";
    "08:30-10:00                    10:00-11:30";
    "Room   Course        Teacher";
    "KT-222 CSE112(71_I)  MB        KT-223 MAT101(71_I)  AST" ].

(** Its time ranges and the offsets of its column headers. *)
Definition c2_times : list (string * string) :=
  Patterns.timesOf (Js.lineAt c2_lines 1).

Definition c2_cols : list nat :=
  Patterns.columnPositionsOf (Js.lineAt c2_lines 2).

(** *** Worlds and outcomes *)

(** The world with more requests made. *)
Definition logged (w : World) (evs : list Event) : World :=
  {| clock := clock w; store := store w; trace := trace w ++ evs |}.

(** The world with another database. *)
Definition stored (w : World) (d : Db) : World :=
  {| clock := clock w; store := Some d; trace := trace w |}.

(** The four ways a call of parsePDFFromURL ends. *)
Definition parseOutcome (net : Outside) (url : string) (w : World)
    : Outcome ParsedSchedule * World :=
  let path := tempPath net (clock w) in
  match httpGet net url with
  | inl cause => (Threw (V3Url.failed cause), logged w [Download url])
  | inr data =>
      match writeFile net path data with
      | Some cause =>
          (Threw (V3Url.failed cause), logged w [Download url; WriteFile path; Unlink path])
      | None =>
          match pdftotext net data with
          | inl cause =>
              (Threw (V3Url.failed cause),
               logged w [Download url; WriteFile path; Pdftotext path; Unlink path])
          | inr text =>
              (Returned (V3Url.parsedOf text),
               logged w [Download url; WriteFile path; Pdftotext path; Unlink path])
          end
      end
  end.

(** An outside whose download throws [cause]. *)
Definition downloadThrows (cause : JsError) : Outside :=
  {| httpGet := fun _ => inl cause;
     tempPath := fun _ => "/tmp/routine_0.pdf";
     writeFile := fun _ _ => None;
     pdftotext := fun _ => inr "" |}.

(** The same for the text extraction, after a download that succeeds. *)
Definition extractionThrows (cause : JsError) : Outside :=
  {| httpGet := fun _ => inr "%PDF-1.4";
     tempPath := fun _ => "/tmp/routine_0.pdf";
     writeFile := fun _ _ => None;
     pdftotext := fun _ => inl cause |}.

(** An outside whose download and text extraction succeed, the extraction
    with [text]. *)
Definition serves (text : string) : Outside :=
  {| httpGet := fun _ => inr "%PDF-1.4";
     tempPath := fun _ => "/tmp/routine_0.pdf";
     writeFile := fun _ _ => None;
     pdftotext := fun _ => inr text |}.

(** A cause that both a download and a child process can throw. *)
Definition outOfMemory : JsError :=
  {| errName := "Error"; errMessage := "ENOMEM: not enough memory" |}.

(** Time 0, an empty database, nothing requested yet. *)
Definition emptyWorld : World :=
  {| clock := 0; store := Some emptyDb; trace := [] |}.

(** The database after a parse that succeeded at time [today]: one more
    cache row, and the rows of its classes when there are any. *)
Definition dbAfterParse (department pdfUrl version : string) (today : Z)
    (parsed : ParsedSchedule) (db : Db) : Db :=
  let '(cacheId, db1) :=
    insertCache department pdfUrl version today (addDays today CACHE_DURATION_DAYS)
                (length (classes parsed)) db in
  if (0 <? length (classes parsed))%nat
  then snd (insertClasses cacheId department today (classes parsed) db1)
  else db1.

(** The three ways a call of getOrParsePdf goes. *)
Definition getOrParseOutcome (net : Outside) (department pdfUrl version : string)
    (w : World) : Outcome (list ClassSchedule) * World :=
  match store w with
  | None => (Threw (newError "Database not available"), w)
  | Some db =>
      match find (valid (clock w)) (selectCache department version db) with
      | Some validCache =>
          (Returned (map ofRow (selectClasses (PdfCache.id validCache) db)), w)
      | None =>
          match parseOutcome net pdfUrl w with
          | (Threw e, w') => (Threw e, w')
          | (Returned parsed, w') =>
              (Returned (classes parsed),
               stored w' (dbAfterParse department pdfUrl version (clock w) parsed db))
          end
      end
  end.

(** The database after clearCache. *)
Definition cleared (department : string) (db : Db) : Db :=
  snd (deleteDepartment department
         (foldl (fun d cache => snd (deleteClasses (PdfCache.id cache) d)) db
                (selectDepartment department db))).

(** [{ isCached: false }] *)
Definition notCached : CacheStatus :=
  {| isCached := false; statusParsedAt := None; statusExpiresAt := None;
     statusTotalClasses := None |}.

(** The parse fails at world [w] with [cause]: the download throws it, or
    the write of the temporary file does, or the text extraction does. *)
Definition parseFails (net : Outside) (url : string) (w : World) (cause : JsError)
    : Prop :=
  httpGet net url = inl cause \/
  exists data, httpGet net url = inr data /\
    (writeFile net (tempPath net (clock w)) data = Some cause \/
     (writeFile net (tempPath net (clock w)) data = None /\
      pdftotext net data = inl cause)).

(** The world thirty-one days after the routine of department "cse" was
    parsed and cached at time 0: its only record has expired. *)
Definition staleWorld : World :=
  snd ((getOrParsePdf (serves scenarioAligned) "cse" "routine.pdf" "1.0" ;;
        wait (31 * msPerDay)) emptyWorld).

(** The world after the next call. *)
Definition secondCall : World :=
  snd (getOrParsePdf (serves scenarioAligned) "cse" "routine.pdf" "1.0" staleWorld).

(** The world after a third call, one second after the second. *)
Definition thirdCall : World :=
  snd ((wait 1000 ;; getOrParsePdf (serves scenarioAligned) "cse" "routine.pdf" "1.0")
         secondCall).

(** The rows of the cache table of a world. *)
Definition cacheRows (w : World) : list PdfCache.row :=
  match store w with
  | Some db => pdfCache db
  | None => []
  end.

(** *** Invariants of the loops *)

(** The count of a day in the table of counts, 0 when it has none. *)
Definition countIn (counts : gmap string nat) (d : string) : nat :=
  default 0 (counts !! d).

(** What the four variables of the second loop of calculateStats say about
    the days seen so far. *)
Definition tallied (counts : gmap string nat) (days : list string) (t : V3.Tally)
    : Prop :=
  (forall d, d ∈ days -> countIn counts d <= V3.tBusiestCount t) /\
  (V3.tBusiestCount t = 0 \/
   (V3.tBusiestDay t ∈ days /\
    countIn counts (V3.tBusiestDay t) = V3.tBusiestCount t)) /\
  match V3.tLightestCount t with
  | None => forall d, d ∈ days -> countIn counts d = 0
  | Some n =>
      0 < n /\ V3.tLightestDay t ∈ days /\ countIn counts (V3.tLightestDay t) = n /\
      forall d, d ∈ days -> 0 < countIn counts d -> n <= countIn counts d
  end.

(** The key of PDFParserOptimized, read off an entry of its result. *)
Definition entryKey (c : ClassSchedule) : string :=
  Js.toUpperCase (day c) +:+ "-" +:+ timeStart c +:+ "-" +:+ courseCode c +:+ "-" +:+
  batchSection c +:+ "-" +:+ teacher c +:+ "-" +:+ room c.

(** Nothing is kept twice: the keys seen are the keys of the classes kept,
    each once. *)
Definition deduplicated (key : ClassSchedule -> string)
    (out : list ClassSchedule) (seen : gset string) : Prop :=
  (forall k, k ∈ seen <-> k ∈ map key out) /\ NoDup (map key out).

(** The key of PDFParserV3 as a function of the six fields. *)
Definition joinFour (k : string * string * string * string * string * string) : string :=
  let '(d, t, cc, bs, _, _) := k in d +:+ "|" +:+ t +:+ "|" +:+ cc +:+ "|" +:+ bs.

(** The key of PDFParserOptimized as a function of the six fields. *)
Definition joinSix (k : string * string * string * string * string * string) : string :=
  let '(d, t, cc, bs, te, r) := k in
  Js.toUpperCase d +:+ "-" +:+ t +:+ "-" +:+ cc +:+ "-" +:+ bs +:+ "-" +:+ te +:+ "-" +:+ r.

(** What PDFParserOptimized keeps besides: the day is empty or a day of
    the week. *)
Definition optimizedInv (st : Optimized.Extraction) : Prop :=
  (Optimized.currentDay st = "" \/ Optimized.currentDay st ∈ DAYS) /\
  deduplicated entryKey (Optimized.out st) (Optimized.seen st).

(** The class rows of the database point at cache rows that were made. *)
Definition wfDb (db : Db) : Prop :=
  Forall (fun r => ClassSchedules.cacheId r <= pdfCacheSeq db) (classSchedules db).


(** *** The matcher *)

(** Where a pattern first matches a text, and its first three groups. *)
Definition captured (r : Regex.re) (s : string) : option (nat * list string) :=
  match Regex.exec r s with
  | Some f => Some (Regex.index f, map (fun i => Regex.group i f) [1; 2; 3])
  | None => None
  end.

Section MatcherVocabulary.
Import Regex.

(** Every character of [s] satisfies [P]. *)
Definition madeOf (P : ascii -> bool) (s : string) : Prop :=
  Forall (fun c => P c = true) (list_ascii_of_string s).

(** Every character the pattern can consume satisfies [P]. *)
Fixpoint consumes (P : ascii -> bool) (r : re) : Prop :=
  match r with
  | Chr c => P c = true
  | Cls p | Rep p _ _ => forall c, p c = true -> P c = true
  | Seq r1 r2 | Alt r1 r2 => consumes P r1 /\ consumes P r2
  | Opt r1 | Grp _ r1 => consumes P r1
  | Bol | Eol | Wb => True
  end.

(** Every group of the pattern captures characters that satisfy [P]. *)
Fixpoint captures_only (P : ascii -> bool) (r : re) : Prop :=
  match r with
  | Grp _ r1 => consumes P r1 /\ captures_only P r1
  | Seq r1 r2 | Alt r1 r2 => captures_only P r1 /\ captures_only P r2
  | Opt r1 => captures_only P r1
  | _ => True
  end.

(** Every captured text is made of characters that satisfy [P]. *)
Definition capturesOK (P : ascii -> bool) (caps : captures) : Prop :=
  Forall (fun c => madeOf P (snd c)) caps.

(** The matcher went from [cu] to [cu'] over the word [w]. *)
Definition span (cu : cursor) (w : list ascii) (cu' : cursor) : Prop :=
  rest cu = (w ++ rest cu')%list /\ pos cu' = pos cu + length w.

(** The character is no dash; the text holds no dash. *)
Definition notDash (c : ascii) : bool := negb (Ascii.eqb c "-").

Definition dashFree (s : string) : Prop := madeOf notDash s.

(** The fields before the room in a key of PDFParserOptimized hold no
    dash, and the day is a day of the week. *)
Definition candidateFields (c : Optimized.Candidate) : Prop :=
  Optimized.cDay c ∈ DAYS /\
  dashFree (slotStart (Optimized.cSlot c)) /\
  dashFree (Optimized.cCourseCode c) /\
  dashFree (Optimized.cBatchSection c) /\
  dashFree (Optimized.cTeacher c).

(** The same of a class of the result, whose day is capitalised. *)
Definition entryFields (e : ClassSchedule) : Prop :=
  day e ∈ map Js.capitalised DAYS /\
  dashFree (timeStart e) /\
  dashFree (courseCode e) /\
  dashFree (batchSection e) /\
  dashFree (teacher e).

(** The shape PDFParserOptimized keeps: times without a dash in its
    columns, and classes with the fields above. *)
Definition optimizedShape (st : Optimized.Extraction) : Prop :=
  Forall (fun s => dashFree (slotStart s)) (Optimized.timeSlots st) /\
  Forall entryFields (Optimized.out st).

(** The state of PDFParserOptimized before line [n] of [lines]. *)
Definition optimizedAt (lines : list string) (n : nat) : Optimized.Extraction :=
  fold_left (Optimized.step lines) (seq 0 n) Optimized.start.

End MatcherVocabulary.

(* ===================================================================== *)
(** ** Vocabulary of the further properties *)
(* ===================================================================== *)

(** vocabulary *)
Definition key4 (c : ClassSchedule) : string * string * string * string :=
  (day c, timeStart c, courseCode c, batchSection c).

Definition joinKey4 (k : string * string * string * string) : string :=
  let '(d, t, cc, bs) := k in d +:+ "|" +:+ t +:+ "|" +:+ cc +:+ "|" +:+ bs.

(** The state of PDFParserV3 before line [n] of [lines]. *)
Definition v3At (lines : list string) (n : nat) : V3.Extraction :=
  fold_left (V3.step lines) (seq 0 n) V3.start.

(** The day and the time ranges of the block that starts at line [i]. *)
Definition blockDay (lines : list string) (i : nat) : string :=
  Js.toUpperCase (Js.trim (Js.lineAt lines i)).

Definition blockTimes (lines : list string) (i : nat) : list (string * string) :=
  Patterns.timesOf (Js.lineAt lines (i + 1)).

(** [c] is read off a course token of line [j], under the day header of
    line [i]. *)
Definition readFrom (spell : string -> string) (lines : list string) (i j : nat)
    (m : Regex.found) (c : ClassSchedule) : Prop :=
  i < j < length lines /\
  dayHeader lines i = true /\
  day c = spell (blockDay lines i) /\
  (timeStart c, timeEnd c) ∈ blockTimes lines i /\
  m ∈ Regex.execAll Patterns.coursePattern (Js.lineAt lines j) /\
  courseCode c = Regex.group 1 m /\
  batch c = Regex.group 2 m /\
  section c = Regex.group 3 m /\
  batchSection c = batch c +:+ "_" +:+ section c.

(** The name, the teacher and the room as PDFParserV3 reads them at the
    token [m] of line [j]. *)
Definition v3Fields (lines : list string) (j : nat) (m : Regex.found)
    (c : ClassSchedule) : Prop :=
  courseName c = V3.courseNameOf (courseCode c) /\
  teacher c = V3.teacherOf (Js.lineAt lines j) (Regex.stop m) /\
  (room c = V3.roomOf (Js.lineAt lines j) (Regex.index m) \/
   room c = V3.roomOf (Js.lineAt lines j) (Regex.index m) +:+ " (LAB)").

Definition readBefore (lines : list string) (n : nat) (c : ClassSchedule) : Prop :=
  exists i j m, readFrom id lines i j m c /\ v3Fields lines j m c /\ j < n.

Definition v3Sound (lines : list string) (n : nat) (st : V3.Extraction) : Prop :=
  (V3.currentDay st = "" \/
   exists i, i < n /\ dayHeader lines i = true /\
     V3.currentDay st = blockDay lines i /\
     Forall (fun s => (slotStart s, slotEnd s) ∈ blockTimes lines i) (V3.timeSlots st)) /\
  Forall (readBefore lines n) (V3.out st).

(** Optimized *)
(** The same for PDFParserOptimized, whose room is looked for in the
    column the token starts in. *)
Definition optimizedFields (lines : list string) (j : nat) (m : Regex.found)
    (c : ClassSchedule) : Prop :=
  courseName c = Optimized.courseNameOf (courseCode c) /\
  teacher c = Optimized.teacherOf (Js.lineAt lines j) (Regex.stop m) /\
  exists slot, slotStart slot = timeStart c /\ slotEnd slot = timeEnd c /\
    columnStart slot <= Regex.index m < columnEnd slot /\
    room c = Optimized.roomOf (Js.lineAt lines j) slot.

Definition readBeforeOpt (lines : list string) (n : nat) (c : ClassSchedule) : Prop :=
  exists i j m, readFrom Js.capitalised lines i j m c /\ optimizedFields lines j m c /\
                i + 3 <= j /\ j < n.

Definition optSound (lines : list string) (n : nat) (st : Optimized.Extraction) : Prop :=
  (Optimized.currentDay st = "" \/
   exists i, i + 3 <= n + Optimized.skip st /\ dayHeader lines i = true /\
     Optimized.currentDay st = blockDay lines i /\
     Forall (fun s => (slotStart s, slotEnd s) ∈ blockTimes lines i)
            (Optimized.timeSlots st)) /\
  Forall (readBeforeOpt lines n) (Optimized.out st).

(** The boundary before column [j] of [n]. *)
Definition boundary (cols : list nat) (j : nat) : nat :=
  match j with
  | O => 0
  | S j' => if S j' <? length cols
            then (default 0 (cols !! j') + default 0 (cols !! S j')) / 2
            else 300
  end.

(** [d] is the first of [days] whose count satisfies... *)
Definition firstWith (count : string -> nat) (worse : nat -> Prop) (days : list string)
    (d : string) : Prop :=
  exists pre post, days = (pre ++ d :: post)%list /\ forall e, e ∈ pre -> worse (count e).

(** What the second loop of calculateStats says besides about ties: the
    days it holds are the first of their count. *)
Definition talliedFirst (counts : gmap string nat) (days : list string) (t : V3.Tally)
    : Prop :=
  (if V3.tBusiestCount t =? 0 then V3.tBusiestDay t = "SATURDAY"
   else firstWith (countIn counts) (fun n => n < V3.tBusiestCount t) days (V3.tBusiestDay t)) /\
  match V3.tLightestCount t with
  | None => V3.tLightestDay t = "SATURDAY"
  | Some n => firstWith (countIn counts) (fun k => k = 0 \/ n < k) days (V3.tLightestDay t)
  end.

(** A world without a database. *)
Definition offline (w : World) : World :=
  {| clock := clock w; store := None; trace := trace w |}.

(** The tables agree: the ids of the cache rows are distinct and were
    given out by the counter, the class rows point at cache rows that were
    made, and every cache row counts the class rows that point at it. *)
Definition consistent (db : Db) : Prop :=
  NoDup (map PdfCache.id (pdfCache db)) /\
  Forall (fun c => PdfCache.id c <= pdfCacheSeq db) (pdfCache db) /\
  wfDb db /\
  Forall (fun c => length (selectClasses (PdfCache.id c) db) = PdfCache.totalClasses c)
         (pdfCache db).


(** vocabulary *)
(** How often [d] is the day of a class. *)
Definition occurrences (classes : list ClassSchedule) (d : string) : nat :=
  length (filter (fun c => day c = d) classes).

(** What the table of counts holds after the classes [cs]. *)
Definition counted (cs : list ClassSchedule) (o : list (string * nat)) : Prop :=
  NoDup (V3.keys o) /\
  (forall d, find (fun kv => String.eqb (fst kv) d) o =
             if occurrences cs d =? 0 then None else Some (d, occurrences cs d)).

Definition pick (R : nat -> nat -> bool) (a b : string * nat) : string * nat :=
  if R (snd a) (snd b) then a else b.

Definition best (R : nat -> nat -> bool) (l : list (string * nat)) (e : string * nat) : Prop :=
  exists pre post, l = (pre ++ e :: post)%list /\
    (forall x, x ∈ pre -> R (snd x) (snd e) = false) /\
    (forall x, x ∈ post -> R (snd e) (snd x) = true).

(** vocabulary *)
Definition cacheKeys (m : OptimizedUrl.MemoryCache) : list string := map fst m.

(** The cache as the method leaves it: at most five documents, one entry
    for a URL, none from the future. *)
Definition cacheOK (now : Z) (m : OptimizedUrl.MemoryCache) : Prop :=
  length m <= 5 /\ NoDup (cacheKeys m) /\
  Forall (fun kv => (OptimizedUrl.timestamp (snd kv) <= now)%Z) m.

(** The four ways a download of PDFParserOptimized ends. *)
Definition downloadOutcome (net : Outside) (url : string) (m : OptimizedUrl.MemoryCache) (w : World)
    : Outcome (ParsedSchedule * OptimizedUrl.MemoryCache) * World :=
  let path := tempPath net (clock w) in
  match httpGet net url with
  | inl cause => (Threw (V3Url.failed cause), logged w [Download url; Unlink path])
  | inr data =>
      match writeFile net path data with
      | Some cause =>
          (Threw (V3Url.failed cause), logged w [Download url; WriteFile path; Unlink path])
      | None =>
          match pdftotext net data with
          | inl cause =>
              (Threw (V3Url.failed cause),
               logged w [Download url; WriteFile path; Pdftotext path; Unlink path])
          | inr text =>
              (Returned (OptimizedUrl.parsedOf text,
                         OptimizedUrl.evict (V3.assign m url {| OptimizedUrl.data := OptimizedUrl.parsedOf text;
                                                        OptimizedUrl.timestamp := clock w |})),
               logged w [Download url; WriteFile path; Pdftotext path; Unlink path])
          end
      end
  end.

(** The cache misses: no entry for the URL, or one that is five minutes
    old. *)
Definition misses (m : OptimizedUrl.MemoryCache) (url : string) (now : Z) : Prop :=
  match OptimizedUrl.mapGet m url with
  | Some cached => (OptimizedUrl.MEMORY_CACHE_TTL <= now - OptimizedUrl.timestamp cached)%Z
  | None => True
  end.



(** vocabulary *)
Definition isLetter (c : ascii) : bool := Js.isUpper c || Js.isLower c.

(** A text of characters that are neither white space nor underscores. *)
Definition clean (s : string) : Prop :=
  Forall (fun c => Js.isSpace c = false /\ Ascii.eqb c "_" = false) (list_ascii_of_string s).

(** vocabulary *)
Definition departments : list string := map fst Noticeboard.DEPARTMENT_KEYWORDS.

Definition sampleSchedule : PDFParser.ClassSchedule :=
  {| PDFParser.id := "1"; PDFParser.day := "Sunday";
     PDFParser.timeStart := "08:30"; PDFParser.timeEnd := "10:00";
     PDFParser.courseCode := "CSE112"; PDFParser.courseName := "Computer Fundamentals";
     PDFParser.batch := "71"; PDFParser.section := "I";
     PDFParser.room := "KT-201"; PDFParser.roomType := None;
     PDFParser.teacherInitials := "MB"; PDFParser.teacherName := None |}.

(* ===================================================================== *)
(** * Properties *)
(* ===================================================================== *)

(* ===================================================================== *)
(** ** The matcher on the patterns of the sources *)
(* ===================================================================== *)

Section PatternExamples.

Example coursePattern_matches :
  map (captured Patterns.coursePattern)
      [ "CSE112(71_I)"; "CSE112(715_A1)"; "ACSE112(71_I)";
        "CSE112(7_I)"; "CSE112(7155_I)"; "CSE112 (71_I)" ]
  = [ Some (0, ["CSE112"; "71"; "I"]); Some (0, ["CSE112"; "715"; "A1"]);
      Some (1, ["CSE112"; "71"; "I"]); None; None; None ].
Proof. vm_compute. reflexivity. Qed.

Example V3_roomPattern_matches :
  map (captured V3.roomPattern)
      [ "KT-222 "; "G1-026"; "KT-12(A)  "; "KT-222CSE112(71_I)MB  KT-223";
        "AB4-101"; "KT-222 x"; "XKT-2222" ]
  = [ Some (0, ["KT-222"; ""; ""]); Some (0, ["G1-026"; ""; ""]);
      Some (0, ["KT-12(A)"; ""; ""]); Some (22, ["KT-223"; ""; ""]);
      None; None; None ].
Proof. vm_compute. reflexivity. Qed.

Example V3_teacherPattern_matches :
  map (captured V3.teacherPattern)
      [ "  MB  KT"; "ABCDE"; "TAS_12x"; "TAS_x"; "M "; " x" ]
  = [ Some (0, ["MB"; ""; ""]); Some (0, ["ABCD"; ""; ""]);
      Some (0, ["TAS_12"; ""; ""]); Some (0, ["TAS"; ""; ""]); None; None ].
Proof. vm_compute. reflexivity. Qed.

Example Optimized_teacherPattern_matches :
  map (captured Optimized.teacherPattern) [ "MB  "; "  AST"; "M"; "ABCD"; "MB1" ]
  = [ Some (0, ["MB"; ""; ""]); Some (0, ["AST"; ""; ""]); Some (0, ["M"; ""; ""]);
      None; None ].
Proof. vm_compute. reflexivity. Qed.

Example Optimized_roomPattern_matches :
  map (captured Optimized.roomPattern)
      [ "AB1222"; "AB122"; "KT-222C"; "SE112(71_I)MB  KT-223"; "KT-22" ]
  = [ Some (0, ["AB1222"; ""; ""]); Some (0, ["AB122"; ""; ""]);
      Some (0, ["KT-222"; ""; ""]); Some (0, ["SE112"; ""; ""]); None ].
Proof. vm_compute. reflexivity. Qed.

Example header_lines_read :
  Patterns.timesOf "08:30-10:00  10:00-11:30 8:30-9:00"
    = [ ("08:30", "10:00"); ("10:00", "11:30") ] /\
  Patterns.columnPositionsOf "Room Course Teacher Room Course" = [5; 25].
Proof. split; vm_compute; reflexivity. Qed.

End PatternExamples.

(* ===================================================================== *)
(** ** Properties of the string primitives *)
(* ===================================================================== *)

Section StringFacts.

Lemma append_String (c : ascii) (t u : string) :
  String c t +:+ u = String c (t +:+ u).
Proof. reflexivity. Qed.

Lemma append_empty (u : string) : "" +:+ u = u.
Proof. reflexivity. Qed.

Lemma prefix_spec (t s : string) :
  String.prefix t s = true <-> exists post, s = t +:+ post.
Proof.
  revert t. induction s as [|d s IH]; intros [|c t]; simpl.
  - split; [intros _; by exists "" | reflexivity].
  - split; [intros H; discriminate | intros [post H]; discriminate].
  - split; [intros _; by exists (String d s) | reflexivity].
  - destruct (ascii_dec c d) as [->|Hne].
    + rewrite IH. split; intros [post H]; exists post;
        rewrite append_String in *; congruence.
    + split; [intros H; discriminate|].
      intros [post H]. rewrite append_String in H. congruence.
Qed.

Lemma includes_spec (s t : string) :
  Js.includes s t = true <-> contains s t.
Proof.
  unfold contains. induction s as [|c s IH].
  - change (Js.includes "" t) with (String.prefix t "" || false).
    rewrite orb_false_r, prefix_spec. split.
    + intros [post H]. by exists "", post.
    + intros (pre & post & H). destruct pre.
      * by exists post.
      * rewrite append_String in H. discriminate.
  - change (Js.includes (String c s) t)
      with (String.prefix t (String c s) || Js.includes s t).
    rewrite orb_true_iff, prefix_spec, IH. split.
    + intros [[post H] | (pre & post & H)].
      * by exists "", post.
      * exists (String c pre), post. rewrite append_String. congruence.
    + intros (pre & post & H). destruct pre as [|d pre].
      * left. by exists post.
      * right. exists pre, post. rewrite append_String in H. congruence.
Qed.

Lemma includes_Is_true (s t : string) :
  Is_true (Js.includes s t) <-> contains s t.
Proof. rewrite Is_true_true. apply includes_spec. Qed.

End StringFacts.

(* ===================================================================== *)
(** ** filterByRoom *)
(* ===================================================================== *)

Section FilterByRoom.

Lemma filterByRoom_cons_in c cs q :
  contains (room c) (Js.toUpperCase q) ->
  V3.filterByRoom (c :: cs) q = c :: V3.filterByRoom cs q.
Proof.
  intros H. unfold V3.filterByRoom. apply filter_cons_True.
  by apply includes_Is_true.
Qed.

Lemma filterByRoom_cons_out c cs q :
  ~ contains (room c) (Js.toUpperCase q) ->
  V3.filterByRoom (c :: cs) q = V3.filterByRoom cs q.
Proof.
  intros H. unfold V3.filterByRoom. apply filter_cons_False.
  by rewrite includes_Is_true.
Qed.

Lemma filterByRoom_elem cs q c :
  c ∈ V3.filterByRoom cs q <-> c ∈ cs /\ contains (room c) (Js.toUpperCase q).
Proof.
  unfold V3.filterByRoom. rewrite list_elem_of_filter, includes_Is_true. tauto.
Qed.

Lemma filterByRoom_none cs q :
  (forall c, c ∈ cs -> ~ contains (room c) (Js.toUpperCase q)) ->
  V3.filterByRoom cs q = [].
Proof.
  induction cs as [|c cs IH]; intros H; [done|].
  rewrite filterByRoom_cons_out by (apply H; left).
  apply IH. intros c' Hc'. apply H. by right.
Qed.

Lemma optimized_filterByRoom cs q :
  Optimized.filterByRoom cs q = V3.filterByRoom cs q.
Proof. reflexivity. Qed.

(** C10. filterByRoom keeps, in their order and as often as they occur,
    exactly the classes whose room contains the upper-cased query as a
    substring (both parsers; the query alone is upper-cased, the room is
    not), so nothing is kept when no room contains it, as for the room
    "Lab-2" and the query "lab-2", equal but for case. *)
Theorem C10_filterByRoom_substring (cs : list ClassSchedule) (q : string) :
  (forall c, c ∈ V3.filterByRoom cs q <->
             c ∈ cs /\ contains (room c) (Js.toUpperCase q)) /\
  V3.filterByRoom cs q `sublist_of` cs /\
  (forall c, contains (room c) (Js.toUpperCase q) ->
             V3.filterByRoom (c :: cs) q = c :: V3.filterByRoom cs q) /\
  (forall c, ~ contains (room c) (Js.toUpperCase q) ->
             V3.filterByRoom (c :: cs) q = V3.filterByRoom cs q) /\
  V3.filterByRoom [] q = [] /\
  ((forall c, c ∈ cs -> ~ contains (room c) (Js.toUpperCase q)) ->
   V3.filterByRoom cs q = []) /\
  Optimized.filterByRoom cs q = V3.filterByRoom cs q /\
  V3.filterByRoom [classOn "SATURDAY" "Lab-2"] "lab-2" = [] /\
  V3.filterByRoom [classOn "SATURDAY" "KT-222 (LAB)"] "t-22" =
    [classOn "SATURDAY" "KT-222 (LAB)"].
Proof.
  split; [intros c; apply filterByRoom_elem|].
  split; [apply sublist_filter|].
  split; [intros c; apply filterByRoom_cons_in|].
  split; [intros c; apply filterByRoom_cons_out|].
  split; [reflexivity|].
  split; [apply filterByRoom_none|].
  split; [apply optimized_filterByRoom|].
  split; vm_compute; reflexivity.
Qed.

(** The theorem at a query no room of the first class contains: the class
    of room KT-222 is not kept for the query [kt-1]. *)
Lemma C10_filterByRoom_witness :
  V3.filterByRoom [classOn "SATURDAY" "KT-222"; classOn "SUNDAY" "KT-101"] "kt-1" =
    V3.filterByRoom [classOn "SUNDAY" "KT-101"] "kt-1".
Proof.
  refine (proj1 (proj2 (proj2 (proj2
            (C10_filterByRoom_substring [classOn "SUNDAY" "KT-101"] "kt-1")))) _ _).
  intros H. apply includes_spec in H. vm_compute in H. discriminate H.
Defined.

End FilterByRoom.

(* ===================================================================== *)
(** ** groupByDay *)
(* ===================================================================== *)

Section GroupByDay.

Lemma groupByDay_unfold (cs : list ClassSchedule) :
  V3.groupByDay cs =
  [ ("Saturday", filter (fun c => day c = "SATURDAY") cs);
    ("Sunday", filter (fun c => day c = "SUNDAY") cs);
    ("Monday", filter (fun c => day c = "MONDAY") cs);
    ("Tuesday", filter (fun c => day c = "TUESDAY") cs);
    ("Wednesday", filter (fun c => day c = "WEDNESDAY") cs);
    ("Thursday", filter (fun c => day c = "THURSDAY") cs);
    ("Friday", filter (fun c => day c = "FRIDAY") cs) ].
Proof. reflexivity. Qed.

Lemma DAYS_NoDup : NoDup DAYS.
Proof. apply (bool_decide_unpack _). vm_compute. exact I. Qed.

Context {A K : Type} `{EqDecision K} (key : A -> K).

(** One more bucket: the elements of the new key and those of the old
    keys are the elements of all the keys. *)
Lemma bucket_split (d : K) (ds : list K) (l : list A) :
  d ∉ ds ->
  filter (fun c => key c = d) l ++ filter (fun c => key c ∈ ds) l
  ≡ₚ filter (fun c => key c ∈ d :: ds) l.
Proof.
  intros Hd. induction l as [|c l IH]; [done|].
  destruct (decide (key c = d)) as [Heq|Hne].
  - rewrite (filter_cons_True (fun c => key c = d)) by done.
    rewrite (filter_cons_False (fun c => key c ∈ ds)) by (rewrite Heq; done).
    rewrite (filter_cons_True (fun c => key c ∈ d :: ds)) by (rewrite Heq; left).
    simpl. by constructor.
  - rewrite (filter_cons_False (fun c => key c = d)) by done.
    destruct (decide (key c ∈ ds)) as [Hin|Hnin].
    + rewrite (filter_cons_True (fun c => key c ∈ ds)) by done.
      rewrite (filter_cons_True (fun c => key c ∈ d :: ds)) by (by right).
      rewrite <- Permutation_middle. by constructor.
    + rewrite (filter_cons_False (fun c => key c ∈ ds)) by done.
      rewrite (filter_cons_False (fun c => key c ∈ d :: ds)); [done|].
      rewrite elem_of_cons. tauto.
Qed.

Lemma buckets_perm (ds : list K) (l : list A) :
  NoDup ds ->
  concat (map (fun d => filter (fun c => key c = d) l) ds)
  ≡ₚ filter (fun c => key c ∈ ds) l.
Proof.
  induction 1 as [|d ds Hd Hnd IH]; simpl.
  - induction l as [|c l IHl]; [done|].
    rewrite filter_cons_False; [done | apply not_elem_of_nil].
  - rewrite IH. by apply bucket_split.
Qed.

Lemma filter_all (P : A -> Prop) `{!forall x, Decision (P x)} (l : list A) :
  Forall P l -> filter P l = l.
Proof.
  induction 1 as [|x l Hx Hl IH]; [done|].
  rewrite filter_cons_True by done. by rewrite IH.
Qed.

End GroupByDay.

(** C4 as the code has it. groupByDay gives the seven capitalised weekday
    names as keys, in the order of the week; the value of a day is the
    classes whose [day] is the upper-case name of that day, in their order;
    so the seven values together hold, once each, exactly the classes whose
    day is one of the seven upper-case names, a rearrangement of the whole
    list when every class has such a day. *)
Theorem C4_groupByDay_buckets (cs : list ClassSchedule) :
  V3.keys (V3.groupByDay cs) = map Js.capitalised DAYS /\
  length (V3.keys (V3.groupByDay cs)) = 7 /\
  NoDup (V3.keys (V3.groupByDay cs)) /\
  V3.values (V3.groupByDay cs) = map (fun d => filter (fun c => day c = d) cs) DAYS /\
  concat (V3.values (V3.groupByDay cs)) ≡ₚ filter (fun c => day c ∈ DAYS) cs /\
  (Forall (fun c => day c ∈ DAYS) cs -> concat (V3.values (V3.groupByDay cs)) ≡ₚ cs).
Proof.
  assert (Hv : V3.values (V3.groupByDay cs)
               = map (fun d => filter (fun c => day c = d) cs) DAYS) by reflexivity.
  assert (Hp : concat (V3.values (V3.groupByDay cs))
               ≡ₚ filter (fun c => day c ∈ DAYS) cs).
  { rewrite Hv. apply buckets_perm, DAYS_NoDup. }
  split; [reflexivity|]. split; [reflexivity|].
  split; [apply (bool_decide_unpack _); vm_compute; exact I|].
  split; [exact Hv|]. split; [exact Hp|].
  intros Hall. rewrite Hp. by rewrite filter_all.
Qed.

(** The theorem at two classes whose days are upper-case weekday names:
    the values hold both, once each. *)
Lemma C4_groupByDay_witness :
  concat (V3.values (V3.groupByDay [classOn "SUNDAY" "KT-101"; classOn "SATURDAY" "KT-222"]))
    ≡ₚ [classOn "SUNDAY" "KT-101"; classOn "SATURDAY" "KT-222"].
Proof.
  apply (C4_groupByDay_buckets [classOn "SUNDAY" "KT-101"; classOn "SATURDAY" "KT-222"]).
  repeat constructor.
Defined.

(** C4 as stated fails: of a Sunday class, a Saturday class and a class
    whose day is spelt "Saturday", the values hold the Saturday class and
    then the Sunday class; the order is not the input's and the third
    class is in no value. *)
Lemma C4_counterexample :
  length (V3.keys (V3.groupByDay c4_classes)) = 7 /\
  concat (V3.values (V3.groupByDay c4_classes))
    = [ classOn "SATURDAY" "KT-222"; classOn "SUNDAY" "KT-101" ] /\
  concat (V3.values (V3.groupByDay c4_classes)) <> c4_classes /\
  ~ concat (V3.values (V3.groupByDay c4_classes)) ≡ₚ c4_classes.
Proof.
  split; [reflexivity|]. split; [vm_compute; reflexivity|].
  split; [vm_compute; discriminate|].
  intros H. apply Permutation_length in H. vm_compute in H. discriminate.
Qed.

(* ===================================================================== *)
(** ** calculateStats *)
(* ===================================================================== *)

Section Stats.

(** The table of counts holds, for each day of the week, the number of
    classes on it. *)
Lemma counts_kept (f : string -> nat) (ds : list string) (m : gmap string nat) d :
  m !! d = Some (f d) ->
  foldl (fun m d => <[d := f d]> m) m ds !! d = Some (f d).
Proof.
  revert m. induction ds as [|x ds IH]; intros m Hm; simpl; [done|].
  apply IH. destruct (decide (x = d)) as [->|Hne].
  - by rewrite lookup_insert_eq.
  - by rewrite lookup_insert_ne.
Qed.

Lemma counts_filled (f : string -> nat) (ds : list string) (m : gmap string nat) d :
  d ∈ ds ->
  foldl (fun m d => <[d := f d]> m) m ds !! d = Some (f d).
Proof.
  revert m. induction ds as [|x ds IH]; intros m Hd; simpl.
  - by apply elem_of_nil in Hd.
  - apply elem_of_cons in Hd as [->|Hd].
    + apply counts_kept. by rewrite lookup_insert_eq.
    + by apply IH.
Qed.

Lemma dayCounts_lookup (cs : list ClassSchedule) d :
  d ∈ DAYS -> V3.dayCounts cs !! d = Some (V3.countOn cs d).
Proof. intros Hd. unfold V3.dayCounts. by apply counts_filled. Qed.

Variable counts : gmap string nat.

Lemma tallied_start : tallied counts [] V3.tallyStart.
Proof.
  repeat split; simpl; [|by left|]; intros d Hd; by apply elem_of_nil in Hd.
Qed.

Lemma tallied_step days t d :
  tallied counts days t -> tallied counts (days ++ [d])%list (V3.tallyDay counts t d).
Proof.
  intros (Hmax & Hbusy & Hlight). unfold V3.tallyDay.
  change (default 0 (counts !! d)) with (countIn counts d).
  assert (Hin : forall x : string, x ∈ (days ++ [d])%list <-> x ∈ days \/ x = d).
  { intros x. rewrite elem_of_app, list_elem_of_singleton. tauto. }
  unfold tallied. set (count := countIn counts) in *.
  destruct (Nat.ltb_spec (V3.tBusiestCount t) (count d)) as [Hb|Hb];
    cbn [V3.tLightestCount V3.tBusiestCount V3.tBusiestDay V3.tLightestDay];
    destruct (V3.tLightestCount t) as [n|] eqn:Hl; unfold V3.belowLightest;
    try destruct (Nat.ltb_spec (count d) n) as [Hn|Hn];
    destruct (Nat.ltb_spec 0 (count d)) as [Hz|Hz];
    cbn [andb V3.tLightestCount V3.tBusiestCount V3.tBusiestDay V3.tLightestDay];
    rewrite ?Hl.
  all: split; [intros x [Hx | ->]%Hin; [specialize (Hmax x Hx)|]; lia|].
  all: split;
    [first [ right; split; [apply Hin; by right | reflexivity]
           | destruct Hbusy as [Hbusy | [Hbusy1 Hbusy2]];
             [by left | right; split; [apply Hin; by left | done]] ] |].
  all: try destruct Hlight as (Hpos & Hday & Hcnt & Hmin).
  all: first
    [ split; [lia|]; split; [apply Hin; by right|]; split; [done|];
      intros x [Hx | ->]%Hin Hxp; [specialize (Hmin x Hx Hxp)|]; lia
    | split; [lia|]; split; [apply Hin; by left|]; split; [done|];
      intros x [Hx | ->]%Hin Hxp; [specialize (Hmin x Hx Hxp)|]; lia
    | split; [lia|]; split; [apply Hin; by right|]; split; [done|];
      intros x [Hx | ->]%Hin Hxp; [specialize (Hlight x Hx)|]; lia
    | intros x [Hx | ->]%Hin; [by apply Hlight | lia] ].
Qed.

Lemma tallied_fold ds days t :
  tallied counts days t ->
  tallied counts (days ++ ds)%list (foldl (V3.tallyDay counts) t ds).
Proof.
  revert days t. induction ds as [|d ds IH]; intros days t Ht; simpl.
  - by rewrite app_nil_r.
  - rewrite cons_middle, app_assoc. apply IH. by apply tallied_step.
Qed.

End Stats.

Section StatsOfClasses.

Variable cs : list ClassSchedule.

Lemma tally_tallied : tallied (V3.dayCounts cs) DAYS (V3.tally cs).
Proof. apply (tallied_fold _ DAYS [] V3.tallyStart), tallied_start. Qed.

Lemma count_countOn d :
  d ∈ DAYS -> countIn (V3.dayCounts cs) d = V3.countOn cs d.
Proof. intros Hd. unfold countIn. by rewrite dayCounts_lookup. Qed.

(** The busiest count bounds the count of every day of the week. *)
Lemma busiest_bounds d :
  d ∈ DAYS -> V3.countOn cs d <= busiestDayCount (V3.calculateStats cs).
Proof.
  intros Hd. destruct tally_tallied as (Hmax & _ & _).
  rewrite <- count_countOn by done. by apply Hmax.
Qed.

(** When some day of the week has a class, the lightest day is a day of
    the week with the least count above zero, and that count is the one
    reported. *)
Lemma lightest_is_least_positive :
  (exists d, d ∈ DAYS /\ 0 < V3.countOn cs d) ->
  exists d, d ∈ DAYS /\
    lightestDay (V3.calculateStats cs) = Js.capitalised d /\
    lightestDayCount (V3.calculateStats cs) = V3.countOn cs d /\
    0 < V3.countOn cs d /\
    forall d', d' ∈ DAYS -> 0 < V3.countOn cs d' -> V3.countOn cs d <= V3.countOn cs d'.
Proof.
  intros (d0 & Hd0 & Hpos). destruct tally_tallied as (_ & _ & Hlight).
  unfold V3.calculateStats, V3.statsOfTally. simpl.
  destruct (V3.tLightestCount (V3.tally cs)) as [n|].
  - destruct Hlight as (Hn & Hday & Hcnt & Hmin).
    exists (V3.tLightestDay (V3.tally cs)).
    rewrite count_countOn in Hcnt by done.
    split; [done|]. split; [done|]. split; [by simpl|]. split; [lia|].
    intros d' Hd' Hp. rewrite Hcnt, <- (count_countOn d') by done.
    apply Hmin; [done|]. by rewrite count_countOn.
  - specialize (Hlight d0 Hd0). rewrite count_countOn in Hlight by done. lia.
Qed.

(** When no day of the week has a class, the lightest count is 0. *)
Lemma lightest_of_none :
  (forall d, d ∈ DAYS -> V3.countOn cs d = 0) ->
  lightestDayCount (V3.calculateStats cs) = 0 /\
  busiestDayCount (V3.calculateStats cs) = 0.
Proof.
  intros Hnone. destruct tally_tallied as (_ & Hbusy & Hlight).
  unfold V3.calculateStats, V3.statsOfTally. simpl. split.
  - destruct (V3.tLightestCount (V3.tally cs)) as [n|]; [|done].
    destruct Hlight as (Hn & Hday & Hcnt & _).
    rewrite count_countOn, Hnone in Hcnt by done. lia.
  - destruct Hbusy as [H | [Hday Hcnt]]; [done|].
    rewrite count_countOn, Hnone in Hcnt by done. done.
Qed.

(** After its guard, PDFParserV2 computes what PDFParserV3 computes. *)
Lemma V2_calculateStats_nonempty :
  cs <> [] -> V2.calculateStats cs = V3.calculateStats cs.
Proof. destruct cs; [done|]. reflexivity. Qed.

End StatsOfClasses.

(** C3 at the empty list. PDFParserV3.calculateStats has no guard for an
    empty list: both labels are "Saturday", the first day of the week, with
    counts 0; PDFParserV2.calculateStats, the same loops behind a guard,
    answers "N/A". *)
Theorem C3_empty_list_labels :
  V3.calculateStats [] =
    {| totalClasses := 0; busiestDay := "Saturday"; lightestDay := "Saturday";
       busiestDayCount := 0; lightestDayCount := 0 |} /\
  V2.calculateStats [] =
    {| totalClasses := 0; busiestDay := "N/A"; lightestDay := "N/A";
       busiestDayCount := 0; lightestDayCount := 0 |}.
Proof. split; vm_compute; reflexivity. Qed.

(* ===================================================================== *)
(** ** extractClasses: the scenario of the specification *)
(* ===================================================================== *)

(** C7 as the code has it. Of the four-line block with [Course Course] as
    its header line, extractClasses gives two classes, CSE112 (71_I, KT-222,
    MB) and MAT101 (71_I, KT-223, AST), both in the second column, 10:00 to
    11:30: the headers stand at offsets 0 and 7, the columns meet at 3, and
    the two course codes start at offsets 6 and 28.  With the header line
    "<anchor> <anchor>" taken literally no column is found and nothing is
    extracted.  When every cell stands under its header, the first class is
    in the first column, 08:30, and the second in the second, 10:00. *)
Theorem C7_scenario_both_in_second_column :
  V3.extractClasses scenario =
    [ {| day := "SATURDAY"; timeStart := "10:00"; timeEnd := "11:30";
         courseCode := "CSE112"; courseName := "Computer Fundamentals";
         batch := "71"; section := "I"; room := "KT-222"; teacher := "MB";
         batchSection := "71_I" |};
      {| day := "SATURDAY"; timeStart := "10:00"; timeEnd := "11:30";
         courseCode := "MAT101"; courseName := "Mathematics - I";
         batch := "71"; section := "I"; room := "KT-223"; teacher := "AST";
         batchSection := "71_I" |} ] /\
  V3.timeSlots (V3.extractFrom (Js.splitOn Js.newline scenario)) =
    [ {| slotStart := "08:30"; slotEnd := "10:00"; columnStart := 0; columnEnd := 3 |};
      {| slotStart := "10:00"; slotEnd := "11:30"; columnStart := 3; columnEnd := 300 |} ] /\
  map Regex.index (Regex.execAll Patterns.coursePattern
                     "KT-222CSE112(71_I)MB  KT-223MAT101(71_I)AST") = [6; 28] /\
  V3.extractClasses scenarioLiteral = [] /\
  map scenarioFields (V3.extractClasses scenarioAligned) = scenarioExpected.
Proof. repeat split; vm_compute; reflexivity. Qed.

(** C7 as stated fails: the first class of the block is not at 08:30. *)
Lemma C7_counterexample :
  map scenarioFields (V3.extractClasses scenario) <> scenarioExpected /\
  map timeStart (V3.extractClasses scenario) = ["10:00"; "10:00"].
Proof. split; [vm_compute; discriminate | vm_compute; reflexivity]. Qed.

(* ===================================================================== *)
(** ** extractClasses: the key that removes duplicates *)
(* ===================================================================== *)

(** C1 at a failing input. PDFParserV3 builds its key from the day, the
    time, the course and the section alone: of three lines that differ in
    the teacher or in the room it keeps the first only.
    PDFParserOptimized, whose key has the teacher and the room too, keeps
    the line with the other teacher. *)
Theorem C1_v3_key_has_four_fields :
  map key6 (V3.extractClasses c1_text) =
    [ ("SATURDAY", "08:30", "CSE112", "71_I", "MB", "KT-222") ] /\
  map teacher (Optimized.extractClasses c1_text) = ["MB"; "AST"] /\
  V3.uniqueKey (classOn "SATURDAY" "KT-222") = "SATURDAY|08:30|CSE112|71_I".
Proof. repeat split; vm_compute; reflexivity. Qed.

(* ===================================================================== *)
(** ** extractClasses: time ranges and column headers of unequal number *)
(* ===================================================================== *)

Section UnequalCounts.

Variable lines : list string.

Lemma V3_step_header st i :
  dayHeader lines i = true ->
  V3.step lines st i =
    {| V3.out := V3.out st; V3.seen := V3.seen st;
       V3.currentDay := Js.toUpperCase (Js.trim (Js.lineAt lines i));
       V3.timeSlots :=
         V3.buildTimeSlots (Patterns.timesOf (Js.lineAt lines (i + 1)))
                           (Patterns.columnPositionsOf (Js.lineAt lines (i + 2)));
       V3.inComLabSection := false |}.
Proof. unfold dayHeader, V3.step. cbv zeta. by intros ->. Qed.

Lemma V3_step_no_slots st i :
  dayHeader lines i = false ->
  V3.timeSlots st = [] ->
  V3.timeSlots (V3.step lines st i) = [] /\ V3.out (V3.step lines st i) = V3.out st.
Proof.
  unfold dayHeader, V3.step. cbv zeta. intros -> Hslots.
  destruct (Js.includes _ "(COM LAB)" || Js.includes _ "COM LAB"); [done|].
  rewrite Hslots. simpl. by rewrite orb_true_r.
Qed.

Lemma V3_lines_no_slots n i st :
  V3.timeSlots st = [] ->
  (forall j, i <= j < i + n -> dayHeader lines j = false) ->
  V3.timeSlots (fold_left (V3.step lines) (seq i n) st) = [] /\
  V3.out (fold_left (V3.step lines) (seq i n) st) = V3.out st.
Proof.
  revert i st. induction n as [|n IH]; intros i st Hslots Hlines; simpl; [done|].
  destruct (V3_step_no_slots st i) as [Hs Ho]; [apply Hlines; lia | done |].
  destruct (IH (S i) (V3.step lines st i)) as [Hs' Ho']; [done | |].
  - intros j Hj. apply Hlines. lia.
  - split; [done | congruence].
Qed.

End UnequalCounts.

Lemma V3_buildTimeSlots_unequal times cols :
  length times <> length cols -> V3.buildTimeSlots times cols = [].
Proof.
  intros H. unfold V3.buildTimeSlots.
  destruct (Nat.eqb_spec (length times) (length cols)); done.
Qed.

Lemma V3_buildTimeSlots_equal times cols :
  length times = length cols ->
  pairedUpToShorter (V3.buildTimeSlots times cols) times cols.
Proof.
  intros H. unfold V3.buildTimeSlots, pairedUpToShorter.
  rewrite H, Nat.eqb_refl, length_imap. split; [lia|].
  intros j slot Hj. rewrite list_lookup_imap in Hj.
  destruct (times !! j) as [t|]; [|done]. simpl in Hj.
  exists t. by injection Hj as <-.
Qed.

Lemma Optimized_buildTimeSlots_length times cols :
  length (Optimized.buildTimeSlots times cols) = length times.
Proof. unfold Optimized.buildTimeSlots. apply length_imap. Qed.

Lemma Optimized_buildTimeSlots_lookup times cols j t :
  times !! j = Some t ->
  Optimized.buildTimeSlots times cols !! j =
    Some {| slotStart := fst t; slotEnd := snd t;
            columnStart := Optimized.orNum (cols !! j) 0;
            columnEnd := Optimized.orNum (cols !! S j) 999 |}.
Proof.
  intros H. unfold Optimized.buildTimeSlots. by rewrite list_lookup_imap, H.
Qed.

(** C2 as the code has it. In PDFParserV3, a day header under which the
    number of time ranges differs from the number of [Course] headers gets
    no column at all, and no class is extracted from the lines that follow
    it up to the next day header.  PDFParserOptimized builds one column for
    every time range, whatever the number of headers. *)
Theorem C2_unequal_counts_drop_the_block (lines : list string) (st : V3.Extraction)
    (i n : nat) :
  dayHeader lines i = true ->
  length (Patterns.timesOf (Js.lineAt lines (i + 1)))
    <> length (Patterns.columnPositionsOf (Js.lineAt lines (i + 2))) ->
  (forall j, i < j <= i + n -> dayHeader lines j = false) ->
  V3.buildTimeSlots (Patterns.timesOf (Js.lineAt lines (i + 1)))
                    (Patterns.columnPositionsOf (Js.lineAt lines (i + 2))) = [] /\
  V3.timeSlots (fold_left (V3.step lines) (seq i (S n)) st) = [] /\
  V3.out (fold_left (V3.step lines) (seq i (S n)) st) = V3.out st /\
  length (Optimized.buildTimeSlots
            (Patterns.timesOf (Js.lineAt lines (i + 1)))
            (Patterns.columnPositionsOf (Js.lineAt lines (i + 2))))
    = length (Patterns.timesOf (Js.lineAt lines (i + 1))).
Proof.
  intros Hhead Hneq Hrest.
  pose proof (V3_buildTimeSlots_unequal _ _ Hneq) as Hnone.
  split; [done|].
  rewrite Optimized_buildTimeSlots_length.
  cut (V3.timeSlots (fold_left (V3.step lines) (seq i (S n)) st) = [] /\
       V3.out (fold_left (V3.step lines) (seq i (S n)) st) = V3.out st); [tauto|].
  simpl.
  destruct (V3_lines_no_slots lines n (S i) (V3.step lines st i)) as [Hs Ho].
  - by rewrite V3_step_header, Hnone.
  - intros j Hj. apply Hrest. lia.
  - split; [done|]. rewrite Ho. by rewrite V3_step_header.
Qed.

(** The theorem at a block of two time ranges over one header: its four
    lines leave the result empty. *)
Lemma C2_unequal_counts_witness :
  dayHeader c2_lines 0 = true /\
  length c2_times = 2 /\ length c2_cols = 1 /\
  V3.out (fold_left (V3.step c2_lines) (seq 0 4) V3.start) = [].
Proof.
  split; [vm_compute; reflexivity|].
  split; [vm_compute; reflexivity|].
  split; [vm_compute; reflexivity|].
  refine (proj1 (proj2 (proj2
            (C2_unequal_counts_drop_the_block c2_lines V3.start 0 3 _ _ _)))).
  - vm_compute; reflexivity.
  - vm_compute; discriminate.
  - intros j Hj.
    destruct j as [|[|[|[|j]]]]; [lia | vm_compute; reflexivity ..| lia].
Defined.

(** C2 as stated fails: with two time ranges over one [Course] header,
    PDFParserV3 pairs nothing and extracts nothing from the block, and
    PDFParserOptimized builds two columns, not one. *)
Lemma C2_counterexample :
  length c2_times = 2 /\ length c2_cols = 1 /\
  V3.buildTimeSlots c2_times c2_cols = [] /\
  ~ pairedUpToShorter (V3.buildTimeSlots c2_times c2_cols) c2_times c2_cols /\
  V3.extractClasses (unlines c2_lines) = [] /\
  length (Optimized.buildTimeSlots c2_times c2_cols) = 2 /\
  ~ pairedUpToShorter (Optimized.buildTimeSlots c2_times c2_cols) c2_times c2_cols.
Proof.
  split; [vm_compute; reflexivity|].
  split; [vm_compute; reflexivity|].
  split; [vm_compute; reflexivity|].
  split; [intros [H _]; vm_compute in H; discriminate|].
  split; [vm_compute; reflexivity|].
  split; [vm_compute; reflexivity|].
  intros [H _]; vm_compute in H; discriminate.
Qed.

(* ===================================================================== *)
(** ** parsePDFFromURL: what a call does to the world *)
(* ===================================================================== *)

Section ParseOutcome.

Variable net : Outside.

Lemma parsePDFFromURL_outcome url w :
  V3Url.parsePDFFromURL net url w = parseOutcome net url w.
Proof.
  unfold V3Url.parsePDFFromURL, parseOutcome, V3Url.axiosGet, V3Url.fsWriteFile,
    V3Url.execPdftotext, V3Url.fsUnlink, logged.
  unfold mbind, M_bind, mret, M_ret, bind, attempt, emit, ofSum, newDate, throw, ret.
  simpl.
  destruct (httpGet net url) as [cause|data]; simpl; [done|].
  destruct (writeFile net _ data) as [cause|]; simpl.
  - by rewrite <- !app_assoc.
  - destruct (pdftotext net data) as [cause|text]; simpl; by rewrite <- !app_assoc.
Qed.


(** Whatever happens, one download is made. *)
Lemma parsePDFFromURL_one_download url w :
  PdfCacheService.parseCount (snd (V3Url.parsePDFFromURL net url w)) =
  S (PdfCacheService.parseCount w).
Proof.
  rewrite parsePDFFromURL_outcome. unfold parseOutcome, PdfCacheService.parseCount.
  destruct (httpGet net url); [|destruct (writeFile net _ _); [|destruct (pdftotext net _)]];
    simpl; rewrite filter_app, length_app; simpl; lia.
Qed.

End ParseOutcome.

(** C8 as the code has it. A download that throws and a text extraction
    that throws both end PDFParserV3.parsePDFFromURL with an [Error] whose
    message is "Failed to parse PDF: " followed by the text of the cause;
    the one [catch] block makes both.  Neither is tried again: the requests
    made are one download, or one download, one write, one extraction and
    the unlink.  The first parser, PDFParser.parsePDFFromUrl, returns the
    empty list for both. *)
Theorem C8_one_error_for_both_failures (net : Outside) (url : string) (w : World)
    (cause : JsError) :
  (httpGet net url = inl cause ->
   V3Url.parsePDFFromURL net url w =
     (Threw (V3Url.failed cause), logged w [Download url])) /\
  (forall data,
     httpGet net url = inr data ->
     writeFile net (tempPath net (clock w)) data = None ->
     pdftotext net data = inl cause ->
     V3Url.parsePDFFromURL net url w =
       (Threw (V3Url.failed cause),
        logged w [ Download url; WriteFile (tempPath net (clock w));
                   Pdftotext (tempPath net (clock w)); Unlink (tempPath net (clock w)) ])) /\
  errName (V3Url.failed cause) = "Error" /\
  errMessage (V3Url.failed cause) = "Failed to parse PDF: " +:+ errorText cause /\
  (forall (Schedule : Type) (extractSchedules : string -> list Schedule),
     (httpGet net url = inl cause ->
      Legacy.parsePDFFromUrl net Schedule extractSchedules url w =
        (Returned [], logged w [Download url])) /\
     (forall data,
        httpGet net url = inr data ->
        pdftotext net data = inl cause ->
        Legacy.parsePDFFromUrl net Schedule extractSchedules url w =
          (Returned [], logged w [Download url]))).
Proof.
  split; [|split; [|split; [done | split; [done|]]]].
  - intros H. rewrite parsePDFFromURL_outcome. unfold parseOutcome. by rewrite H.
  - intros data Hd Hw Hp. rewrite parsePDFFromURL_outcome. unfold parseOutcome.
    by rewrite Hd, Hw, Hp.
  - intros Schedule extractSchedules.
    unfold Legacy.parsePDFFromUrl, V3Url.axiosGet, logged.
    unfold mbind, M_bind, mret, M_ret, bind, attempt, emit, ofSum, throw, ret.
    split; [intros -> | intros data -> ->]; done.
Qed.

(** The theorem at a download that throws, and at a text extraction that
    throws after a download that succeeds. *)
Lemma C8_one_error_witness :
  fst (V3Url.parsePDFFromURL (downloadThrows outOfMemory) "routine.pdf" emptyWorld) =
    Threw (V3Url.failed outOfMemory) /\
  fst (V3Url.parsePDFFromURL (extractionThrows outOfMemory) "routine.pdf" emptyWorld) =
    Threw (V3Url.failed outOfMemory).
Proof.
  split.
  - rewrite (proj1 (C8_one_error_for_both_failures (downloadThrows outOfMemory)
                      "routine.pdf" emptyWorld outOfMemory) eq_refl).
    reflexivity.
  - rewrite (proj1 (proj2 (C8_one_error_for_both_failures (extractionThrows outOfMemory)
                      "routine.pdf" emptyWorld outOfMemory)) "%PDF-1.4" eq_refl eq_refl eq_refl).
    reflexivity.
Defined.

(** C8 as stated fails: a download that throws and a text extraction that
    throws the same cause give the caller one and the same error. *)
Lemma C8_counterexample :
  fst (V3Url.parsePDFFromURL (downloadThrows outOfMemory) "routine.pdf" emptyWorld) =
    Threw (newError "Failed to parse PDF: Error: ENOMEM: not enough memory") /\
  fst (V3Url.parsePDFFromURL (extractionThrows outOfMemory) "routine.pdf" emptyWorld) =
    Threw (newError "Failed to parse PDF: Error: ENOMEM: not enough memory").
Proof. split; vm_compute; reflexivity. Qed.

(* ===================================================================== *)
(** ** PdfCacheService: what a call does to the world *)
(* ===================================================================== *)

Section CacheOutcome.

Variable net : Outside.

Lemma getOrParsePdf_outcome department pdfUrl version w :
  getOrParsePdf net department pdfUrl version w =
  getOrParseOutcome net department pdfUrl version w.
Proof.
  unfold getOrParsePdf, getOrParseOutcome.
  unfold mbind, M_bind, mret, M_ret, bind, getDb, newDate, ret.
  destruct (store w) as [db|] eqn:Hdb; [|done].
  destruct (find _ _) as [c|]; [done|].
  rewrite parsePDFFromURL_outcome.
  unfold parseOutcome, dbAfterParse, modifyDb, stored, logged, insertCache, insertClasses.
  destruct (httpGet net pdfUrl) as [cause|data]; [done|].
  destruct (writeFile net _ data) as [cause|]; [done|].
  destruct (pdftotext net data) as [cause|text]; [done|].
  simpl. rewrite Hdb.
  destruct (0 <? length (V3.extractClasses text))%nat; simpl; done.
Qed.

Lemma parseFails_outcome url w cause :
  parseFails net url w cause ->
  exists evs, parseOutcome net url w = (Threw (V3Url.failed cause), logged w evs).
Proof.
  unfold parseFails, parseOutcome.
  intros [H | (data & Hd & [Hw | [Hw Hp]])].
  - rewrite H. by eexists.
  - rewrite Hd, Hw. by eexists.
  - rewrite Hd, Hw, Hp. by eexists.
Qed.

(** A call that throws leaves the database as it was. *)
Lemma getOrParsePdf_threw_frame department pdfUrl version w e w' :
  getOrParsePdf net department pdfUrl version w = (Threw e, w') ->
  store w' = store w.
Proof.
  rewrite getOrParsePdf_outcome. unfold getOrParseOutcome, parseOutcome.
  destruct (store w) as [db|] eqn:Hdb; [|by intros [= _ <-]].
  destruct (find _ _) as [c|]; [done|].
  destruct (httpGet net pdfUrl); [by intros [= _ <-]|].
  destruct (writeFile net _ _); [by intros [= _ <-]|].
  destruct (pdftotext net _); [by intros [= _ <-] | done].
Qed.


(** When the record the query gives has expired, or there is none, the
    document is parsed: one more download, whatever rows there are. *)
Lemma getOrParsePdf_miss department pdfUrl version w db :
  store w = Some db ->
  (forall c, c ∈ selectCache department version db ->
             (PdfCache.expiresAt c <= clock w)%Z) ->
  parseCount (snd (getOrParsePdf net department pdfUrl version w)) = S (parseCount w).
Proof.
  intros Hdb Hexp. rewrite getOrParsePdf_outcome. unfold getOrParseOutcome.
  rewrite Hdb.
  destruct (find _ _) as [c|] eqn:Hfind.
  - apply find_some in Hfind as [Hin Hv]. apply list_elem_of_In, Hexp in Hin.
    unfold valid in Hv. apply Z.ltb_lt in Hv. lia.
  - rewrite <- parsePDFFromURL_outcome.
    pose proof (parsePDFFromURL_one_download net pdfUrl w) as Hone.
    destruct (V3Url.parsePDFFromURL net pdfUrl w) as [[parsed|e] w']; done.
Qed.

End CacheOutcome.

(** C6. When the parse fails, by the download, the write of the temporary
    file or the text extraction, getOrParsePdf leaves the database as it
    was, no cache row and no class row written, whether it throws the
    failure, throws for want of a database, or serves a record that is
    still valid without parsing. *)
Theorem C6_failed_parse_writes_nothing (net : Outside)
    (department pdfUrl version : string) (w : World) (cause : JsError) :
  parseFails net pdfUrl w cause ->
  store (snd (getOrParsePdf net department pdfUrl version w)) = store w /\
  (fst (getOrParsePdf net department pdfUrl version w) = Threw (V3Url.failed cause) \/
   fst (getOrParsePdf net department pdfUrl version w) =
     Threw (newError "Database not available") \/
   exists db c,
     store w = Some db /\
     find (valid (clock w)) (selectCache department version db) = Some c /\
     getOrParsePdf net department pdfUrl version w =
       (Returned (map ofRow (selectClasses (PdfCache.id c) db)), w)).
Proof.
  intros Hfail. rewrite getOrParsePdf_outcome. unfold getOrParseOutcome.
  destruct (store w) as [db|] eqn:Hdb; [|split; [done | right; by left]].
  destruct (find _ _) as [c|] eqn:Hfind.
  - split; [done|]. right; right. by exists db, c.
  - destruct (parseFails_outcome net pdfUrl w cause Hfail) as [evs ->].
    split; [done | by left].
Qed.

(** The theorem at a download that throws, on a database whose record has
    expired. *)
Lemma C6_failed_parse_witness :
  parseFails (downloadThrows outOfMemory) "routine.pdf" staleWorld outOfMemory /\
  store (snd (getOrParsePdf (downloadThrows outOfMemory) "cse" "routine.pdf" "1.0"
                staleWorld)) = store staleWorld.
Proof.
  split; [left; reflexivity|].
  refine (proj1 (C6_failed_parse_writes_nothing _ _ _ _ _ outOfMemory _)).
  left; reflexivity.
Defined.

(** C5 at a failing input. The first record of department "cse", version
    "1.0", has expired.  The next call parses and stores a second record,
    valid for thirty days; the call one second later parses again and
    stores a third: the query takes one row, the oldest, and the expired
    row is still in the table. *)
Theorem C5_expired_row_defeats_the_cache :
  map (fun c => (PdfCache.id c, PdfCache.expiresAt c)) (cacheRows staleWorld)
    = [ (1, 2592000000%Z) ] /\
  clock staleWorld = 2678400000%Z /\
  parseCount staleWorld = 1 /\
  parseCount secondCall = 2 /\
  clock thirdCall = 2678401000%Z /\
  parseCount thirdCall = 3 /\
  map (fun c => (PdfCache.id c, PdfCache.expiresAt c)) (cacheRows thirdCall)
    = [ (1, 2592000000%Z); (2, 5270400000%Z); (3, 5270401000%Z) ].
Proof. repeat split; vm_compute; reflexivity. Qed.

(** C9 at a failing input. After the second call the table holds the
    expired record and a valid one of department "cse"; getCacheStatus
    looks at the first row and reports that nothing is cached. *)
Theorem C9_status_reads_the_oldest_row :
  map PdfCache.id (filter (fun c => Is_true (valid (clock secondCall) c))
                          (cacheRows secondCall)) = [2] /\
  map PdfCache.department (cacheRows secondCall) = ["cse"; "cse"] /\
  fst (getCacheStatus "cse" secondCall) =
    Returned {| isCached := false;
                statusParsedAt := Some 0%Z;
                statusExpiresAt := Some 2592000000%Z;
                statusTotalClasses := Some 2 |}.
Proof. repeat split; vm_compute; reflexivity. Qed.

Section StatusAndClear.

Lemma clear_classes_fold caches : forall (m : M unit) w d,
  m w = (Returned tt, stored w d) ->
  foldl (fun m cache => m ;; modifyDb (deleteClasses (PdfCache.id cache))) m caches w =
    (Returned tt,
     stored w (foldl (fun d cache => snd (deleteClasses (PdfCache.id cache) d)) d caches)).
Proof.
  induction caches as [|c caches IH]; intros m w d Hm; simpl; [done|].
  apply IH. unfold mbind, M_bind, bind. by rewrite Hm.
Qed.

Lemma clearCache_outcome department w :
  clearCache department w =
    match store w with
    | Some db => (Returned tt, stored w (cleared department db))
    | None => (Threw (newError "Database not available"), w)
    end.
Proof.
  destruct w as [now [db|] tr]; [|done].
  unfold clearCache, mbind, M_bind, bind, getDb. simpl.
  rewrite (clear_classes_fold _ _ _ db) by done. done.
Qed.

Lemma pdfCache_clear_classes caches db :
  pdfCache (foldl (fun d cache => snd (deleteClasses (PdfCache.id cache) d)) db caches)
  = pdfCache db.
Proof. revert db. induction caches as [|c caches IH]; intros db; simpl; [done|]. by rewrite IH. Qed.

Lemma selectDepartment_cleared department db :
  selectDepartment department (cleared department db) = [].
Proof.
  unfold selectDepartment, cleared. simpl. rewrite pdfCache_clear_classes.
  induction (pdfCache db) as [|c l IH]; [done|].
  destruct (decide (PdfCache.department c = department)) as [Heq|Hne].
  - by rewrite (filter_cons_False (fun c => PdfCache.department c ≠ department)) by tauto.
  - rewrite (filter_cons_True (fun c => PdfCache.department c ≠ department)) by done.
    by rewrite filter_cons_False.
Qed.

(** getCacheStatus reads; it changes nothing and parses nothing. *)
Lemma getCacheStatus_reads department w :
  snd (getCacheStatus department w) = w.
Proof.
  unfold getCacheStatus, mbind, M_bind, bind, getDb, newDate, ret.
  destruct (store w) as [db|]; [|done].
  destruct (take 1 (selectDepartment department db)); done.
Qed.

(** It reports a cached record only when a record of the department is
    valid. *)
Lemma getCacheStatus_cached_sound department w s :
  fst (getCacheStatus department w) = Returned s ->
  isCached s = true ->
  exists c, c ∈ cacheRows w /\ PdfCache.department c = department /\
            (clock w < PdfCache.expiresAt c)%Z.
Proof.
  unfold getCacheStatus, mbind, M_bind, bind, getDb, newDate, ret, cacheRows.
  destruct (store w) as [db|]; [|done].
  destruct (selectDepartment department db) as [|c l] eqn:Hsel; simpl.
  - by intros [= <-].
  - intros [= <-]. simpl. intros Hc. exists c.
    assert (Hin : c ∈ selectDepartment department db) by (rewrite Hsel; left).
    apply list_elem_of_filter in Hin as [Hd Hin].
    split; [done|]. split; [done|].
    apply negb_true_iff, Z.leb_gt in Hc. done.
Qed.

(** X19. After clearCache no record of the department is left, and the
    status says so. *)
Lemma status_after_clearCache department w :
  store w <> None ->
  (clearCache department ;; getCacheStatus department) w =
    (Returned notCached, stored w (cleared department (default emptyDb (store w)))).
Proof.
  intros Hdb. unfold mbind, M_bind, bind. rewrite clearCache_outcome.
  destruct (store w) as [db|] eqn:Hs; [|done]. simpl.
  unfold getCacheStatus, mbind, M_bind, bind, getDb. simpl.
  by rewrite selectDepartment_cleared.
Qed.

End StatusAndClear.


(* ===================================================================== *)
(** ** extractClasses: nothing is kept twice *)
(* ===================================================================== *)

Section Deduplication.

Lemma fold_left_invariant {A B : Type} (P : A -> Prop) (f : A -> B -> A) (l : list B) :
  (forall a b, P a -> P (f a b)) -> forall a, P a -> P (fold_left f l a).
Proof.
  intros Hf. induction l as [|b l IH]; intros a Ha; simpl; [done|].
  apply IH, Hf, Ha.
Qed.

Lemma deduplicated_start key : deduplicated key [] ∅.
Proof. split; [intros k; simpl; set_solver | constructor]. Qed.

Lemma deduplicated_add key out seen c :
  deduplicated key out seen ->
  key c ∉ seen ->
  deduplicated key (out ++ [c]) ({[key c]} ∪ seen).
Proof.
  intros [Hseen Hnd] Hc. split.
  - intros k. rewrite map_app, elem_of_app, elem_of_union, elem_of_singleton, Hseen.
    simpl. rewrite list_elem_of_singleton. tauto.
  - rewrite map_app. simpl. apply NoDup_app. split; [done|]. split.
    + intros k Hk ->%list_elem_of_singleton. by apply Hc, Hseen.
    + apply NoDup_singleton.
Qed.

Lemma V3_addMatch_dedup line st m :
  deduplicated V3.uniqueKey (V3.out st) (V3.seen st) ->
  deduplicated V3.uniqueKey (V3.out (V3.addMatch line st m)) (V3.seen (V3.addMatch line st m)).
Proof.
  intros H. unfold V3.addMatch.
  destruct (V3.slotOf _ _) as [slot|]; [|done].
  case_bool_decide; [done|]. simpl. by apply deduplicated_add.
Qed.

Lemma V3_step_dedup lines st i :
  deduplicated V3.uniqueKey (V3.out st) (V3.seen st) ->
  deduplicated V3.uniqueKey (V3.out (V3.step lines st i)) (V3.seen (V3.step lines st i)).
Proof.
  intros H. unfold V3.step. cbv zeta.
  destruct (Js.arrayIncludes _ _); [done|].
  destruct (_ || _); [done|].
  destruct (_ || _); [done|].
  apply (fold_left_invariant
           (fun st => deduplicated V3.uniqueKey (V3.out st) (V3.seen st))); [|done].
  intros a b. apply V3_addMatch_dedup.
Qed.

Lemma V3_extract_dedup lines :
  deduplicated V3.uniqueKey (V3.out (V3.extractFrom lines)) (V3.seen (V3.extractFrom lines)).
Proof.
  unfold V3.extractFrom.
  apply (fold_left_invariant
           (fun st => deduplicated V3.uniqueKey (V3.out st) (V3.seen st))).
  - intros a b. apply V3_step_dedup.
  - apply deduplicated_start.
Qed.

End Deduplication.

Section SixFields.

Lemma elem_of_map_1 {A B : Type} (f : A -> B) (l : list A) (x : A) :
  x ∈ l -> f x ∈ map f l.
Proof.
  induction 1 as [x l | x y l Hin IH]; simpl; [left | by right].
Qed.

Lemma NoDup_map_source {A B : Type} (f : A -> B) (l : list A) :
  NoDup (map f l) -> NoDup l.
Proof.
  induction l as [|x l IH]; simpl; [constructor|].
  inversion 1 as [|? ? Hx Hl]; subst. constructor; [|by apply IH].
  intros Hin. by apply Hx, elem_of_map_1.
Qed.

Lemma NoDup_map_through {A B C : Type} (g : A -> B) (f : B -> C) (l : list A) :
  NoDup (map (fun x => f (g x)) l) -> NoDup (map g l).
Proof.
  intros H. apply (NoDup_map_source f). by rewrite map_map.
Qed.

Lemma arrayIncludes_elem (arr : list string) (x : string) :
  Js.arrayIncludes arr x = true -> x ∈ arr.
Proof.
  unfold Js.arrayIncludes. intros (y & Hy & Heq)%existsb_exists.
  apply String.eqb_eq in Heq as ->. by apply list_elem_of_In.
Qed.

Lemma upper_capitalised d :
  d ∈ DAYS -> Js.toUpperCase (Js.capitalised d) = d.
Proof.
  unfold DAYS. intros H.
  repeat (apply elem_of_cons in H as [-> | H]; [reflexivity|]).
  by apply elem_of_nil in H.
Qed.

Lemma Optimized_key_of_entry st line m c :
  Optimized.currentDay st ∈ DAYS ->
  Optimized.candidateOf st line m = Some c ->
  entryKey (Optimized.entryOf c) = Optimized.uniqueKey c.
Proof.
  unfold Optimized.candidateOf. intros Hday.
  destruct (Optimized.slotOf _ _) as [slot|]; [|done].
  intros [= <-]. unfold entryKey, Optimized.uniqueKey. simpl.
  by rewrite upper_capitalised.
Qed.

Lemma Optimized_addMatch_inv line st m :
  Optimized.currentDay st ∈ DAYS ->
  optimizedInv st -> optimizedInv (Optimized.addMatch line st m).
Proof.
  intros Hday [Hd Hdedup]. unfold Optimized.addMatch.
  destruct (Optimized.candidateOf st line m) as [c|] eqn:Hc; [|done].
  rewrite <- (Optimized_key_of_entry st line m c) by done.
  case_bool_decide; [done|]. split; [done|]. simpl. by apply deduplicated_add.
Qed.

Lemma Optimized_addMatch_day line st m :
  Optimized.currentDay (Optimized.addMatch line st m) = Optimized.currentDay st.
Proof.
  unfold Optimized.addMatch.
  destruct (Optimized.candidateOf st line m); [|done]. by case_bool_decide.
Qed.

Lemma Optimized_step_inv lines st i :
  optimizedInv st -> optimizedInv (Optimized.step lines st i).
Proof.
  intros [Hd Hdedup]. unfold Optimized.step.
  destruct (Optimized.skip st); [|done]. cbv zeta.
  destruct (Js.arrayIncludes DAYS _) eqn:Hhead.
  - split; [right; by apply arrayIncludes_elem | done].
  - destruct (String.eqb_spec (Optimized.currentDay st) "") as [He|Hne]; [done|].
    destruct (length _ =? 0); [done|]. simpl.
    destruct Hd as [Hd|Hd]; [done|].
    apply (fold_left_invariant
             (fun s => Optimized.currentDay s = Optimized.currentDay st /\ optimizedInv s)
             (Optimized.addMatch (Js.lineAt lines i))).
    + intros a b [Hday Ha]. split.
      * by rewrite Optimized_addMatch_day.
      * apply Optimized_addMatch_inv; [by rewrite Hday | done].
    + split; [done|]. split; [by right | done].
Qed.

Lemma Optimized_extract_inv lines : optimizedInv (Optimized.extractFrom lines).
Proof.
  unfold Optimized.extractFrom. apply fold_left_invariant.
  - intros a b. apply Optimized_step_inv.
  - split; [by left | apply deduplicated_start].
Qed.

Lemma V3_uniqueKey_key6 c : V3.uniqueKey c = joinFour (key6 c).
Proof. reflexivity. Qed.

Lemma entryKey_key6 c : entryKey c = joinSix (key6 c).
Proof. reflexivity. Qed.

(** X2. In the result of either parser no two classes share the six
    fields day, start, course, batch and section, teacher and room. *)
Theorem no_two_classes_share_the_six_fields (text : string) :
  NoDup (map key6 (V3.extractClasses text)) /\
  NoDup (map key6 (Optimized.extractClasses text)).
Proof.
  split.
  - destruct (V3_extract_dedup (Js.splitOn Js.newline text)) as [_ Hnd].
    unfold V3.extractClasses.
    apply (NoDup_map_through key6 joinFour).
    by rewrite (map_ext _ V3.uniqueKey) by (intros c; symmetry; apply V3_uniqueKey_key6).
  - destruct (Optimized_extract_inv (Js.splitOn Js.newline text)) as [_ [_ Hnd]].
    unfold Optimized.extractClasses.
    apply (NoDup_map_through key6 joinSix).
    by rewrite (map_ext _ entryKey) by (intros c; symmetry; apply entryKey_key6).
Qed.

(** In PDFParserOptimized a match that falls in a column is dropped only
    when its key is the key of a class already kept. *)
Lemma Optimized_candidate_kept line st m c :
  Optimized.currentDay st ∈ DAYS ->
  optimizedInv st ->
  Optimized.candidateOf st line m = Some c ->
  exists e, e ∈ Optimized.out (Optimized.addMatch line st m) /\
            entryKey e = Optimized.uniqueKey c.
Proof.
  intros Hday Hinv Hc.
  destruct (Optimized_addMatch_inv line st m Hday Hinv) as [_ [Hseen _]].
  assert (Hin : Optimized.uniqueKey c ∈ Optimized.seen (Optimized.addMatch line st m)).
  { unfold Optimized.addMatch. rewrite Hc. case_bool_decide; [done|]. simpl.
    apply elem_of_union. left. by apply elem_of_singleton. }
  apply Hseen in Hin. apply list_elem_of_In, in_map_iff in Hin as (e & He & Hin).
  exists e. split; [by apply list_elem_of_In | done].
Qed.

End SixFields.

(* ===================================================================== *)
(** ** The matcher, and the six fields in PDFParserOptimized *)
(* ===================================================================== *)

Section Matcher.
Import Regex.

Variable P : ascii -> bool.

Lemma span_refl cu : span cu [] cu.
Proof. split; simpl; [done | lia]. Qed.

Lemma span_trans cu1 w1 cu2 w2 cu3 :
  span cu1 w1 cu2 -> span cu2 w2 cu3 -> span cu1 (w1 ++ w2)%list cu3.
Proof.
  intros [H1 H1'] [H2 H2']. split.
  - by rewrite H1, H2, app_assoc.
  - rewrite H2', H1', length_app. lia.
Qed.

Lemma span_advance c cu l :
  rest cu = c :: l -> span cu [c] (advance c cu l).
Proof. intros H. split; simpl; [done | lia]. Qed.

Lemma rep_span {R : Type} (p : ascii -> bool) l :
  forall lo hi cu (k : cursor -> option R) res,
    rest cu = l ->
    rep p lo hi l cu k = Some res ->
    exists w cu', span cu w cu' /\ k cu' = Some res /\ Forall (fun c => p c = true) w.
Proof.
  induction l as [|c l IH]; intros lo hi cu k res Hrest; simpl.
  - destruct lo; [|done]. intros Hk. exists [], cu. by split; [apply span_refl|].
  - assert (Hhalt : match lo with 0 => k cu | S _ => None end = Some res ->
                    exists w cu', span cu w cu' /\ k cu' = Some res /\
                                  Forall (fun c => p c = true) w).
    { destruct lo; [|done]. intros Hk. exists [], cu. by split; [apply span_refl|]. }
    destruct (p c) eqn:Hp; simpl; [|done].
    destruct (match hi with Some 0 => false | _ => true end); [|done].
    destruct (rep p (Nat.pred lo) (option_map Nat.pred hi) l (advance c cu l) k)
      as [res'|] eqn:Hrep; [|done].
    intros [= <-].
    destruct (IH _ _ (advance c cu l) _ _ eq_refl Hrep) as (w & cu' & Hspan & Hk & Hw).
    exists (c :: w), cu'. split; [|split; [done | by constructor]].
    apply (span_trans cu [c] (advance c cu l) w cu'); [by apply span_advance | done].
Qed.

Lemma run_span (r : re) :
  forall (R : Type) cu caps (k : cursor -> captures -> option R) res,
    run r cu caps k = Some res ->
    exists w cu' caps',
      span cu w cu' /\ k cu' caps' = Some res /\
      (consumes P r -> Forall (fun c => P c = true) w) /\
      (captures_only P r -> capturesOK P caps -> capturesOK P caps').
Proof.
  induction r as [c | p | p lo hi | r1 IH1 r2 IH2 | r1 IH1 r2 IH2 | r1 IH1 | i r1 IH1 | | | ];
    intros R cu caps k res; simpl.
  - destruct (rest cu) as [|d l] eqn:Hrest; [done|].
    destruct (Ascii.eqb_spec c d) as [<-|]; [|done]. intros Hk.
    exists [c], (advance c cu l), caps.
    split; [by apply span_advance|]. split; [done|]. split; [|done].
    intros Hc. by constructor.
  - destruct (rest cu) as [|d l] eqn:Hrest; [done|].
    destruct (p d) eqn:Hp; [|done]. intros Hk.
    exists [d], (advance d cu l), caps.
    split; [by apply span_advance|]. split; [done|]. split; [|done].
    intros Hc. constructor; [by apply Hc | constructor].
  - intros Hrep. apply rep_span in Hrep as (w & cu' & Hspan & Hk & Hw); [|done].
    exists w, cu', caps. split; [done|]. split; [done|]. split; [|done].
    intros Hc. eapply Forall_impl; [exact Hw|]. exact Hc.
  - intros H1. apply IH1 in H1 as (w1 & cu1 & caps1 & Hs1 & H2 & Hc1 & Hg1).
    apply IH2 in H2 as (w2 & cu2 & caps2 & Hs2 & Hk & Hc2 & Hg2).
    exists (w1 ++ w2)%list, cu2, caps2.
    split; [by eapply span_trans|]. split; [done|]. split.
    + intros [Ha Hb]. apply Forall_app. auto.
    + intros [Ha Hb] Hcaps. auto.
  - destruct (run r1 cu caps k) as [res'|] eqn:H1.
    + intros [= <-]. apply IH1 in H1 as (w & cu' & caps' & Hs & Hk & Hc & Hg).
      exists w, cu', caps'. repeat split; [apply Hs | apply Hs | done | |]; tauto.
    + intros H2. apply IH2 in H2 as (w & cu' & caps' & Hs & Hk & Hc & Hg).
      exists w, cu', caps'. repeat split; [apply Hs | apply Hs | done | |]; tauto.
  - destruct (run r1 cu caps k) as [res'|] eqn:H1.
    + intros [= <-]. apply IH1 in H1 as (w & cu' & caps' & Hs & Hk & Hc & Hg).
      by exists w, cu', caps'.
    + intros Hk. exists [], cu, caps. split; [apply span_refl|]. by repeat split.
  - intros H1. apply IH1 in H1 as (w & cu' & caps' & Hs & Hk & Hc & Hg).
    exists w, cu', ((i, string_of_list_ascii (take (pos cu' - pos cu) (rest cu))) :: caps').
    split; [done|]. split; [done|]. split; [done|].
    intros [Ha Hb] Hcaps. constructor; [|by apply Hg].
    destruct Hs as [Hrest Hpos]. simpl. unfold madeOf.
    rewrite list_ascii_of_string_of_list_ascii, Hrest, Hpos.
    replace (pos cu + length w - pos cu) with (length w) by lia.
    rewrite take_app_length. by apply Hc.
  - destruct (pos cu =? 0); [|done]. intros Hk.
    exists [], cu, caps. split; [apply span_refl|]. by repeat split.
  - destruct (rest cu); [|done]. intros Hk.
    exists [], cu, caps. split; [apply span_refl|]. by repeat split.
  - destruct (xorb _ _); [|done]. intros Hk.
    exists [], cu, caps. split; [apply span_refl|]. by repeat split.
Qed.

End Matcher.

Section Groups.
Import Regex.

Variable P : ascii -> bool.
Variable r : re.
Hypothesis Hr : captures_only P r.

Lemma matchHere_groups cu f :
  matchHere r cu = Some f -> capturesOK P (groups f).
Proof.
  unfold matchHere. intros H.
  apply (run_span P) in H as (w & cu' & caps' & _ & Hk & _ & Hg).
  injection Hk as <-. simpl. apply Hg; [done | constructor].
Qed.

Lemma search_groups l cu f :
  search r l cu = Some f -> capturesOK P (groups f).
Proof.
  revert cu. induction l as [|c l IH]; intros cu; simpl;
    destruct (matchHere r cu) as [f'|] eqn:Hm; try done.
  - intros [= <-]. by eapply matchHere_groups.
  - intros [= <-]. by eapply matchHere_groups.
  - apply IH.
Qed.

Lemma scan_groups l :
  forall skip cu, Forall (fun f => capturesOK P (groups f)) (scan r skip l cu).
Proof.
  induction l as [|c l IH]; intros skip cu; simpl.
  - destruct skip; [|constructor].
    destruct (matchHere r cu) as [f|] eqn:Hm; constructor; [|constructor].
    by eapply matchHere_groups.
  - destruct skip; [|apply IH].
    destruct (matchHere r cu) as [f|] eqn:Hm; [|apply IH].
    constructor; [by eapply matchHere_groups | apply IH].
Qed.

Lemma exec_groups s f : exec r s = Some f -> capturesOK P (groups f).
Proof. apply search_groups. Qed.

Lemma execAll_groups s : Forall (fun f => capturesOK P (groups f)) (execAll r s).
Proof. apply scan_groups. Qed.

End Groups.

Lemma group_madeOf P i f :
  capturesOK P (Regex.groups f) -> madeOf P (Regex.group i f).
Proof.
  intros H. unfold Regex.group.
  destruct (find _ _) as [c|] eqn:Hfind; [|constructor].
  apply find_some in Hfind as [Hin _].
  apply list_elem_of_In in Hin. by apply (proj1 (Forall_forall _ _) H) in Hin.
Qed.

Section DashFree.
Import Regex.

Lemma between_notDash lo hi c :
  Js.between lo hi c = true -> 45 < lo \/ hi < 45 -> notDash c = true.
Proof.
  unfold Js.between, notDash. intros Hb Hlohi.
  destruct (Ascii.eqb_spec c "-") as [->|]; [|done].
  apply andb_true_iff in Hb as [H1%Nat.leb_le H2%Nat.leb_le].
  change (Js.code "-") with 45 in *. lia.
Qed.

Lemma upper_notDash c : Js.isUpper c = true -> notDash c = true.
Proof. intros H. apply (between_notDash _ _ _ H). lia. Qed.

Lemma digit_notDash c : Js.isDigit c = true -> notDash c = true.
Proof. intros H. apply (between_notDash _ _ _ H). lia. Qed.

Lemma coursePattern_groups : captures_only notDash Patterns.coursePattern.
Proof.
  unfold Patterns.coursePattern; simpl;
    repeat split; auto using upper_notDash, digit_notDash.
Qed.

Lemma timePattern_groups : captures_only notDash Patterns.timePattern.
Proof.
  unfold Patterns.timePattern; simpl;
    repeat split; auto using upper_notDash, digit_notDash.
Qed.

Lemma teacherPattern_groups : captures_only notDash Optimized.teacherPattern.
Proof.
  unfold Optimized.teacherPattern; simpl;
    repeat split; auto using upper_notDash, digit_notDash.
Qed.

Lemma chars_of_append a b :
  list_ascii_of_string (a +:+ b)
  = (list_ascii_of_string a ++ list_ascii_of_string b)%list.
Proof.
  induction a as [|c a IH]; [done|].
  rewrite append_String. simpl. by rewrite IH.
Qed.

Lemma dashFree_append a b : dashFree a -> dashFree b -> dashFree (a +:+ b).
Proof.
  unfold dashFree, madeOf. rewrite chars_of_append. intros Ha Hb.
  by apply Forall_app.
Qed.

(** A text is cut in one way only at its first dash. *)
Lemma cut_at_dash a1 b1 a2 b2 :
  dashFree a1 -> dashFree a2 ->
  a1 +:+ "-" +:+ b1 = a2 +:+ "-" +:+ b2 ->
  a1 = a2 /\ b1 = b2.
Proof.
  revert a2. induction a1 as [|c a1 IH]; intros [|c' a2] H1 H2 Heq;
    rewrite ?append_String, ?append_empty in Heq.
  - by injection Heq as ->.
  - injection Heq as <- _. inversion H2 as [|? ? Hc _]. done.
  - injection Heq as -> _. inversion H1 as [|? ? Hc _]. done.
  - injection Heq as <- Heq.
    inversion H1 as [|? ? _ H1']. inversion H2 as [|? ? _ H2']. subst.
    destruct (IH a2 H1' H2' Heq) as [-> ->]. done.
Qed.

End DashFree.

Section OptimizedKey.
Import Regex.

Lemma fold_left_invariant_in {A B : Type} (P : A -> Prop) (f : A -> B -> A) (l : list B) :
  (forall a b, b ∈ l -> P a -> P (f a b)) -> forall a, P a -> P (fold_left f l a).
Proof.
  induction l as [|b l IH]; intros Hf a Ha; simpl; [done|].
  apply IH; [|apply Hf; [left | done]].
  intros a' b' Hb'. apply Hf. by right.
Qed.

Lemma dashFree_TBA : dashFree "TBA".
Proof. repeat constructor. Qed.

Lemma dashFree_underscore : dashFree "_".
Proof. repeat constructor. Qed.

Lemma dashFree_day d : d ∈ DAYS -> dashFree d.
Proof.
  unfold DAYS. intros H.
  repeat (apply elem_of_cons in H as [-> | H]; [repeat constructor|]).
  by apply elem_of_nil in H.
Qed.

Lemma dashFree_upper_day d :
  d ∈ map Js.capitalised DAYS -> dashFree (Js.toUpperCase d).
Proof.
  unfold DAYS. simpl. intros H.
  repeat (apply elem_of_cons in H as [-> | H]; [repeat constructor|]).
  by apply elem_of_nil in H.
Qed.

Lemma upper_day_inj d1 d2 :
  d1 ∈ map Js.capitalised DAYS -> d2 ∈ map Js.capitalised DAYS ->
  Js.toUpperCase d1 = Js.toUpperCase d2 -> d1 = d2.
Proof.
  unfold DAYS. simpl. intros H1 H2.
  repeat (apply elem_of_cons in H1 as [-> | H1];
          [repeat (apply elem_of_cons in H2 as [-> | H2];
                   [vm_compute; congruence|]);
           by apply elem_of_nil in H2|]).
  by apply elem_of_nil in H1.
Qed.

Lemma teacherOf_dashFree line e : dashFree (Optimized.teacherOf line e).
Proof.
  unfold Optimized.teacherOf.
  destruct (exec _ _) as [m|] eqn:Hm; [|apply dashFree_TBA].
  apply group_madeOf. eapply exec_groups; [apply teacherPattern_groups | exact Hm].
Qed.

Lemma candidate_fields st line m c :
  Optimized.currentDay st ∈ DAYS ->
  Forall (fun s => dashFree (slotStart s)) (Optimized.timeSlots st) ->
  capturesOK notDash (groups m) ->
  Optimized.candidateOf st line m = Some c ->
  candidateFields c.
Proof.
  intros Hday Hslots Hm. unfold Optimized.candidateOf, Optimized.slotOf.
  destruct (find _ _) as [slot|] eqn:Hfind; [|done]. intros [= <-].
  apply find_some in Hfind as [Hin _]. apply list_elem_of_In in Hin.
  unfold candidateFields, Optimized.cBatchSection. simpl.
  split; [done|]. split; [by apply (proj1 (Forall_forall _ _) Hslots)|].
  split; [by apply group_madeOf|].
  split; [|apply teacherOf_dashFree].
  repeat apply dashFree_append; try apply dashFree_underscore; by apply group_madeOf.
Qed.

Lemma entry_fields c : candidateFields c -> entryFields (Optimized.entryOf c).
Proof.
  intros (Hd & Ht & Hc & Hb & Hte).
  split; [exact (elem_of_map_1 Js.capitalised DAYS _ Hd) | done].
Qed.

(** Two classes of that shape with one key have the same six fields. *)
Lemma entryKey_inj e1 e2 :
  entryFields e1 -> entryFields e2 -> entryKey e1 = entryKey e2 -> key6 e1 = key6 e2.
Proof.
  intros (Hd1 & Ht1 & Hc1 & Hb1 & Hte1) (Hd2 & Ht2 & Hc2 & Hb2 & Hte2).
  unfold entryKey, key6. intros H.
  apply cut_at_dash in H as [Hday H]; [|by apply dashFree_upper_day..].
  apply cut_at_dash in H as [-> H]; [|done..].
  apply cut_at_dash in H as [-> H]; [|done..].
  apply cut_at_dash in H as [-> H]; [|done..].
  apply cut_at_dash in H as [-> ->]; [|done..].
  by rewrite (upper_day_inj _ _ Hd1 Hd2 Hday).
Qed.

End OptimizedKey.

Section OptimizedRetention.
Import Regex.

Lemma timeSlots_dashFree times cols :
  Forall (fun t => dashFree (fst t)) times ->
  Forall (fun s => dashFree (slotStart s)) (Optimized.buildTimeSlots times cols).
Proof.
  intros H. unfold Optimized.buildTimeSlots. apply Forall_forall.
  intros s (j & t & -> & Hj)%elem_of_lookup_imap_1. simpl.
  apply (proj1 (Forall_forall _ _) H). by eapply list_elem_of_lookup_2.
Qed.

Lemma timesOf_dashFree line :
  Forall (fun t => dashFree (fst t)) (Patterns.timesOf line).
Proof.
  unfold Patterns.timesOf. apply Forall_forall.
  intros t (f & <- & Hf)%list_elem_of_In%in_map_iff. simpl.
  apply group_madeOf.
  apply (proj1 (Forall_forall _ _) (execAll_groups notDash _ timePattern_groups line)).
  by apply list_elem_of_In.
Qed.

Lemma Optimized_addMatch_frame line st m :
  Optimized.currentDay (Optimized.addMatch line st m) = Optimized.currentDay st /\
  Optimized.timeSlots (Optimized.addMatch line st m) = Optimized.timeSlots st /\
  forall e, e ∈ Optimized.out st -> e ∈ Optimized.out (Optimized.addMatch line st m).
Proof.
  unfold Optimized.addMatch.
  destruct (Optimized.candidateOf st line m); [|done].
  case_bool_decide; [done|]. simpl. repeat split; [].
  intros e He. apply elem_of_app. by left.
Qed.

Lemma Optimized_addMatch_shape line st m :
  Optimized.currentDay st ∈ DAYS ->
  capturesOK notDash (groups m) ->
  optimizedShape st -> optimizedShape (Optimized.addMatch line st m).
Proof.
  intros Hday Hm [Hslots Hout]. unfold Optimized.addMatch.
  destruct (Optimized.candidateOf st line m) as [c|] eqn:Hc; [|done].
  case_bool_decide; [done|]. split; [done|]. simpl.
  apply Forall_app. split; [done|]. constructor; [|constructor].
  by eapply entry_fields, candidate_fields.
Qed.

(** While the matches of a line are gone through, the day, the columns and
    the two invariants stay. *)
Lemma Optimized_matches_inv line ms st :
  Optimized.currentDay st ∈ DAYS ->
  Forall (fun m => capturesOK notDash (groups m)) ms ->
  optimizedInv st -> optimizedShape st ->
  let st' := fold_left (Optimized.addMatch line) ms st in
  Optimized.currentDay st' = Optimized.currentDay st /\
  Optimized.timeSlots st' = Optimized.timeSlots st /\
  optimizedInv st' /\ optimizedShape st' /\
  forall e, e ∈ Optimized.out st -> e ∈ Optimized.out st'.
Proof.
  intros Hday Hms. revert st Hday. induction Hms as [|m ms Hm Hms IH];
    intros st Hday Hinv Hshape; simpl; [done|].
  destruct (Optimized_addMatch_frame line st m) as (Hd & Hs & Hmono).
  destruct (IH (Optimized.addMatch line st m)) as (Hd' & Hs' & Hinv' & Hshape' & Hmono').
  - by rewrite Hd.
  - by apply Optimized_addMatch_inv.
  - by apply Optimized_addMatch_shape.
  - split; [congruence|]. split; [congruence|]. split; [done|]. split; [done|]. auto.
Qed.

Lemma Optimized_step_shape lines st i :
  optimizedInv st -> optimizedShape st ->
  optimizedShape (Optimized.step lines st i) /\
  forall e, e ∈ Optimized.out st -> e ∈ Optimized.out (Optimized.step lines st i).
Proof.
  intros Hinv [Hslots Hout]. unfold Optimized.step.
  destruct (Optimized.skip st); [|done]. cbv zeta.
  destruct (Js.arrayIncludes DAYS _) eqn:Hhead.
  - split; [|done]. split; [|done]. simpl.
    apply timeSlots_dashFree, timesOf_dashFree.
  - destruct (String.eqb_spec (Optimized.currentDay st) "") as [He|Hne]; [done|].
    destruct (length _ =? 0); [done|]. simpl.
    destruct Hinv as [[Hd|Hd] Hdedup]; [done|].
    destruct (Optimized_matches_inv (Js.lineAt lines i)
                (execAll Patterns.coursePattern (Js.lineAt lines i)) st)
      as (_ & _ & _ & Hshape & Hmono); try done.
    + apply execAll_groups, coursePattern_groups.
    + by split; [right|].
Qed.

Lemma Optimized_steps_inv lines (idx : list nat) st :
  optimizedInv st -> optimizedShape st ->
  let st' := fold_left (Optimized.step lines) idx st in
  optimizedInv st' /\ optimizedShape st' /\
  forall e, e ∈ Optimized.out st -> e ∈ Optimized.out st'.
Proof.
  revert st. induction idx as [|i idx IH]; intros st Hinv Hshape; simpl; [done|].
  destruct (Optimized_step_shape lines st i Hinv Hshape) as [Hshape1 Hmono1].
  destruct (IH (Optimized.step lines st i)) as (Hinv' & Hshape' & Hmono');
    [by apply Optimized_step_inv | done |].
  split; [done|]. split; [done|]. auto.
Qed.

Lemma optimizedAt_inv lines n :
  optimizedInv (optimizedAt lines n) /\ optimizedShape (optimizedAt lines n).
Proof.
  destruct (Optimized_steps_inv lines (seq 0 n) Optimized.start) as (Hi & Hs & _).
  - split; [by left | apply deduplicated_start].
  - split; constructor.
  - done.
Qed.

End OptimizedRetention.

Section OptimizedKeeps.
Import Regex.

Lemma candidateOf_frame st st' line m :
  Optimized.currentDay st' = Optimized.currentDay st ->
  Optimized.timeSlots st' = Optimized.timeSlots st ->
  Optimized.candidateOf st' line m = Optimized.candidateOf st line m.
Proof. unfold Optimized.candidateOf. by intros -> ->. Qed.

(** A match that falls in a column leaves a class with its six fields in
    the list, whether it is added or dropped as a duplicate. *)
Lemma Optimized_addMatch_keeps line st m c :
  Optimized.currentDay st ∈ DAYS ->
  capturesOK notDash (groups m) ->
  optimizedInv st -> optimizedShape st ->
  Optimized.candidateOf st line m = Some c ->
  exists e, e ∈ Optimized.out (Optimized.addMatch line st m) /\
            key6 e = key6 (Optimized.entryOf c).
Proof.
  intros Hday Hm Hinv Hshape Hc.
  destruct (Optimized_candidate_kept line st m c Hday Hinv Hc) as (e & He & Hkey).
  exists e. split; [done|].
  destruct (Optimized_addMatch_shape line st m Hday Hm Hshape) as [_ Hout].
  apply entryKey_inj.
  - by apply (proj1 (Forall_forall _ _) Hout).
  - destruct Hshape as [Hslots _]. by eapply entry_fields, candidate_fields.
  - rewrite Hkey. symmetry. by eapply Optimized_key_of_entry.
Qed.

Lemma Optimized_matches_keep line ms st m c :
  Optimized.currentDay st ∈ DAYS ->
  Forall (fun m => capturesOK notDash (groups m)) ms ->
  optimizedInv st -> optimizedShape st ->
  m ∈ ms ->
  Optimized.candidateOf st line m = Some c ->
  exists e, e ∈ Optimized.out (fold_left (Optimized.addMatch line) ms st) /\
            key6 e = key6 (Optimized.entryOf c).
Proof.
  intros Hday Hms Hinv Hshape Hin Hc.
  apply list_elem_of_split in Hin as (l1 & l2 & ->).
  apply Forall_app in Hms as [H1 H2]. apply Forall_cons in H2 as [Hm H2].
  rewrite fold_left_app. simpl.
  destruct (Optimized_matches_inv line l1 st Hday H1 Hinv Hshape)
    as (Hd1 & Hs1 & Hinv1 & Hshape1 & _).
  set (st1 := fold_left (Optimized.addMatch line) l1 st) in *.
  assert (Hday1 : Optimized.currentDay st1 ∈ DAYS) by (by rewrite Hd1).
  destruct (Optimized_addMatch_keeps line st1 m c) as (e & He & Hkey); try done.
  { by rewrite (candidateOf_frame st). }
  exists e. split; [|done].
  destruct (Optimized_addMatch_frame line st1 m) as (Hd2 & _ & _).
  destruct (Optimized_matches_inv line l2 (Optimized.addMatch line st1 m))
    as (_ & _ & _ & _ & Hmono); try done.
  - by rewrite Hd2.
  - by apply Optimized_addMatch_inv.
  - by apply Optimized_addMatch_shape.
  - by apply Hmono.
Qed.

(** X3. PDFParserOptimized keeps the six fields of every match it meets
    in a column: the result has a class with them. *)
Theorem Optimized_keeps_every_six_fields (text : string) (i : nat) (m : found)
    (c : Optimized.Candidate) :
  i < length (Js.splitOn Js.newline text) ->
  Optimized.skip (optimizedAt (Js.splitOn Js.newline text) i) = 0 ->
  dayHeader (Js.splitOn Js.newline text) i = false ->
  Optimized.currentDay (optimizedAt (Js.splitOn Js.newline text) i) <> "" ->
  m ∈ execAll Patterns.coursePattern (Js.lineAt (Js.splitOn Js.newline text) i) ->
  Optimized.candidateOf (optimizedAt (Js.splitOn Js.newline text) i)
                        (Js.lineAt (Js.splitOn Js.newline text) i) m = Some c ->
  exists e, e ∈ Optimized.extractClasses text /\ key6 e = key6 (Optimized.entryOf c).
Proof.
  set (lines := Js.splitOn Js.newline text). intros Hi Hskip Hhead Hday Hm Hc.
  destruct (optimizedAt_inv lines i) as [Hinv Hshape].
  set (st := optimizedAt lines i) in *.
  assert (Hd : Optimized.currentDay st ∈ DAYS) by (by destruct Hinv as [[?|?] _]).
  assert (Hstep : Optimized.step lines st i =
                  fold_left (Optimized.addMatch (Js.lineAt lines i))
                            (execAll Patterns.coursePattern (Js.lineAt lines i)) st).
  { unfold Optimized.step. rewrite Hskip. cbv zeta.
    unfold dayHeader in Hhead. rewrite Hhead.
    destruct (String.eqb_spec (Optimized.currentDay st) ""); [done|].
    unfold Optimized.candidateOf, Optimized.slotOf in Hc.
    destruct (Optimized.timeSlots st); [done | done]. }
  destruct (Optimized_matches_keep (Js.lineAt lines i)
              (execAll Patterns.coursePattern (Js.lineAt lines i)) st m c)
    as (e & He & Hkey); try done.
  { apply execAll_groups, coursePattern_groups. }
  exists e. split; [|done].
  unfold Optimized.extractClasses, Optimized.extractFrom. fold lines.
  replace (length lines) with (i + S (length lines - S i)) by lia.
  rewrite seq_app, fold_left_app. simpl. fold (optimizedAt lines i). fold st.
  rewrite Hstep.
  destruct (Optimized_steps_inv lines (seq (S i) (length lines - S i))
              (fold_left (Optimized.addMatch (Js.lineAt lines i))
                 (execAll Patterns.coursePattern (Js.lineAt lines i)) st))
    as (_ & _ & Hmono).
  - rewrite <- Hstep. by apply Optimized_step_inv.
  - rewrite <- Hstep. by apply Optimized_step_shape.
  - by apply Hmono.
Qed.

End OptimizedKeeps.


(* ===================================================================== *)
(** ** PdfCacheService: a record that is served *)
(* ===================================================================== *)

Section WellFormed.

Lemma wfDb_empty : wfDb emptyDb.
Proof. constructor. Qed.




End WellFormed.

Section CacheHit.







Variable net : Outside.


End CacheHit.

(* ===================================================================== *)
(** * Further properties of the code *)
(* ===================================================================== *)

(* ===================================================================== *)
(** ** PDFParserV3 and PDFParserOptimized: where a class comes from *)
(* ===================================================================== *)

Lemma v3At_S lines n : v3At lines (S n) = V3.step lines (v3At lines n) n.
Proof. unfold v3At. by rewrite seq_S, fold_left_app. Qed.

Lemma V3_buildTimeSlots_times times cols :
  Forall (fun s => (slotStart s, slotEnd s) ∈ times) (V3.buildTimeSlots times cols).
Proof.
  unfold V3.buildTimeSlots. destruct (_ =? _); [|constructor].
  apply Forall_forall. intros s (j & t & -> & Hj)%elem_of_lookup_imap_1. simpl.
  destruct t. by eapply list_elem_of_lookup_2.
Qed.

Lemma V3_slotOf_elem slots p s : V3.slotOf slots p = Some s -> s ∈ slots.
Proof.
  unfold V3.slotOf. destruct (find _ _) eqn:Hf.
  - intros [= <-]. apply find_some in Hf as [Hin _]. by apply list_elem_of_In.
  - destruct slots; [done|]. simpl. intros [= <-]. left.
Qed.

Lemma readBefore_mono lines n n' c : n <= n' -> readBefore lines n c -> readBefore lines n' c.
Proof. intros Hn (i & j & m & H & Hf & Hj). exists i, j, m. split; [done|]. split; [done | lia]. Qed.

Lemma V3_addMatch_sound lines i j st m :
  i < j < length lines ->
  dayHeader lines i = true ->
  V3.currentDay st = blockDay lines i ->
  Forall (fun s => (slotStart s, slotEnd s) ∈ blockTimes lines i) (V3.timeSlots st) ->
  m ∈ Regex.execAll Patterns.coursePattern (Js.lineAt lines j) ->
  Forall (readBefore lines (S j)) (V3.out st) ->
  V3.currentDay (V3.addMatch (Js.lineAt lines j) st m) = V3.currentDay st /\
  V3.timeSlots (V3.addMatch (Js.lineAt lines j) st m) = V3.timeSlots st /\
  Forall (readBefore lines (S j)) (V3.out (V3.addMatch (Js.lineAt lines j) st m)).
Proof.
  intros Hij Hhead Hday Hslots Hm Hout. unfold V3.addMatch.
  destruct (V3.slotOf _ _) as [slot|] eqn:Hslot; [|done].
  case_bool_decide; [done|]. simpl. split; [done|]. split; [done|].
  apply Forall_app. split; [done|]. constructor; [|constructor].
  exists i, j, m. split; [|split; [|lia]].
  - apply V3_slotOf_elem in Hslot.
    repeat split; try done; try lia.
    simpl. by apply (proj1 (Forall_forall _ _) Hslots).
  - split; [done|]. split; [done|]. simpl.
    destruct (V3.inComLabSection st); [by right | by left].
Qed.

Lemma V3_step_sound lines n st :
  n < length lines ->
  v3Sound lines n st -> v3Sound lines (S n) (V3.step lines st n).
Proof.
  intros Hn [Hday Hout].
  assert (Hout' : Forall (readBefore lines (S n)) (V3.out st)).
  { eapply Forall_impl; [exact Hout|]. intros c. apply readBefore_mono. lia. }
  unfold V3.step. cbv zeta.
  destruct (Js.arrayIncludes DAYS _) eqn:Hhead.
  - split; [|done]. right. exists n. split; [lia|]. split; [done|]. split; [done|].
    simpl. apply V3_buildTimeSlots_times.
  - assert (Hday' : V3.currentDay st = "" \/
       exists i, i < S n /\ dayHeader lines i = true /\
         V3.currentDay st = blockDay lines i /\
         Forall (fun s => (slotStart s, slotEnd s) ∈ blockTimes lines i) (V3.timeSlots st)).
    { destruct Hday as [?|(i & Hi & ?)]; [by left|]. right. exists i. split; [lia | done]. }
    destruct (_ || _); [done|].
    destruct (String.eqb_spec (V3.currentDay st) "") as [He|Hne]; [done|].
    destruct (length _ =? 0); [done|]. simpl.
    destruct Hday as [?|(i & Hi & Hh & Hd & Hs)]; [done|].
    assert (H : let st' := fold_left (V3.addMatch (Js.lineAt lines n))
                    (Regex.execAll Patterns.coursePattern (Js.lineAt lines n)) st in
                V3.currentDay st' = V3.currentDay st /\
                V3.timeSlots st' = V3.timeSlots st /\
                Forall (readBefore lines (S n)) (V3.out st')).
    { apply (fold_left_invariant_in
               (fun st' => V3.currentDay st' = V3.currentDay st /\
                           V3.timeSlots st' = V3.timeSlots st /\
                           Forall (readBefore lines (S n)) (V3.out st'))); [|done].
      intros a m Hm (Ha1 & Ha2 & Ha3).
      destruct (V3_addMatch_sound lines i n a m) as (H1 & H2 & H3);
        [lia | done | congruence | by rewrite Ha2 | done | done |].
      split; [congruence|]. split; [congruence | done]. }
    destruct H as (H1 & H2 & H3). split; [|done].
    right. exists i. split; [lia|]. split; [done|]. split; [congruence|]. by rewrite H2.
Qed.

Lemma v3At_sound lines n : n <= length lines -> v3Sound lines n (v3At lines n).
Proof.
  induction n as [|n IH]; intros Hn.
  - split; [by left | constructor].
  - rewrite v3At_S. apply V3_step_sound; [lia|]. apply IH. lia.
Qed.

Lemma blockDay_DAYS lines i : dayHeader lines i = true -> blockDay lines i ∈ DAYS.
Proof. apply arrayIncludes_elem. Qed.

Lemma V3_classes_read (text : string) (c : ClassSchedule) :
  c ∈ V3.extractClasses text ->
  exists i j m, readFrom id (Js.splitOn Js.newline text) i j m c /\
                v3Fields (Js.splitOn Js.newline text) j m c.
Proof.
  intros Hc. unfold V3.extractClasses, V3.extractFrom in Hc.
  destruct (v3At_sound (Js.splitOn Js.newline text) (length (Js.splitOn Js.newline text)))
    as [_ Hout]; [done|].
  apply (proj1 (Forall_forall _ _) Hout) in Hc as (i & j & m & H & Hf & _).
  by exists i, j, m.
Qed.

Lemma V3_classes_days text : Forall (fun c => day c ∈ DAYS) (V3.extractClasses text).
Proof.
  apply Forall_forall. intros c (i & j & m & H & _)%V3_classes_read.
  destruct H as (_ & Hh & -> & _). by apply blockDay_DAYS.
Qed.

(** X1. No two classes in the result of PDFParserV3.extractClasses have
    the same day, start time, course code and batch-section: the four
    fields of its key. *)
Theorem V3_no_two_classes_share_the_four_fields (text : string) :
  NoDup (map key4 (V3.extractClasses text)).
Proof.
  destruct (V3_extract_dedup (Js.splitOn Js.newline text)) as [_ Hnd].
  unfold V3.extractClasses.
  apply (NoDup_map_through key4 joinKey4).
  by rewrite (map_ext _ V3.uniqueKey) by done.
Qed.

Lemma optimizedAt_S lines n :
  optimizedAt lines (S n) = Optimized.step lines (optimizedAt lines n) n.
Proof. unfold optimizedAt. by rewrite seq_S, fold_left_app. Qed.

Lemma Optimized_buildTimeSlots_times times cols :
  Forall (fun s => (slotStart s, slotEnd s) ∈ times) (Optimized.buildTimeSlots times cols).
Proof.
  unfold Optimized.buildTimeSlots.
  apply Forall_forall. intros s (j & t & -> & Hj)%elem_of_lookup_imap_1. simpl.
  destruct t. by eapply list_elem_of_lookup_2.
Qed.

Lemma readBeforeOpt_mono lines n n' c :
  n <= n' -> readBeforeOpt lines n c -> readBeforeOpt lines n' c.
Proof.
  intros Hn (i & j & m & H & Hf & Hi & Hj). exists i, j, m.
  split; [done|]. split; [done | lia].
Qed.

Lemma Optimized_addMatch_sound lines i j st m :
  i + 3 <= j -> j < length lines ->
  dayHeader lines i = true ->
  Optimized.currentDay st = blockDay lines i ->
  Forall (fun s => (slotStart s, slotEnd s) ∈ blockTimes lines i) (Optimized.timeSlots st) ->
  m ∈ Regex.execAll Patterns.coursePattern (Js.lineAt lines j) ->
  Forall (readBeforeOpt lines (S j)) (Optimized.out st) ->
  Optimized.currentDay (Optimized.addMatch (Js.lineAt lines j) st m) = Optimized.currentDay st /\
  Optimized.timeSlots (Optimized.addMatch (Js.lineAt lines j) st m) = Optimized.timeSlots st /\
  Optimized.skip (Optimized.addMatch (Js.lineAt lines j) st m) = Optimized.skip st /\
  Forall (readBeforeOpt lines (S j)) (Optimized.out (Optimized.addMatch (Js.lineAt lines j) st m)).
Proof.
  intros Hij Hj Hhead Hday Hslots Hm Hout. unfold Optimized.addMatch, Optimized.candidateOf.
  destruct (Optimized.slotOf _ _) as [slot|] eqn:Hslot; [|done].
  case_bool_decide; [done|]. simpl. split; [done|]. split; [done|]. split; [done|].
  apply Forall_app. split; [done|]. constructor; [|constructor].
  exists i, j, m. split; [|split; [|lia]].
  - apply find_some in Hslot as [Hin _]. apply list_elem_of_In in Hin.
    repeat split; try done; try lia.
    + simpl. by rewrite Hday.
    + simpl. by apply (proj1 (Forall_forall _ _) Hslots).
  - split; [done|]. split; [done|]. exists slot. simpl.
    apply find_some in Hslot as [_ [?%Nat.leb_le ?%Nat.ltb_lt]%andb_prop]. done.
Qed.

Lemma Optimized_step_sound lines n st :
  n < length lines ->
  optSound lines n st -> optSound lines (S n) (Optimized.step lines st n).
Proof.
  intros Hn [Hday Hout].
  assert (Hout' : Forall (readBeforeOpt lines (S n)) (Optimized.out st)).
  { eapply Forall_impl; [exact Hout|]. intros c. apply readBeforeOpt_mono. lia. }
  unfold Optimized.step.
  destruct (Optimized.skip st) as [|k] eqn:Hskip.
  2:{ split; [|done]. simpl. destruct Hday as [?|(i & Hi & ?)]; [by left|].
      right. exists i. split; [lia | done]. }
  cbv zeta.
  destruct (Js.arrayIncludes DAYS _) eqn:Hhead.
  - split; [|done]. right. exists n. simpl. split; [lia|]. split; [done|]. split; [done|].
    apply Optimized_buildTimeSlots_times.
  - destruct (String.eqb_spec (Optimized.currentDay st) "") as [He|Hne].
    { simpl. split; [by left | done]. }
    destruct (length _ =? 0).
    { simpl. split; [|done]. destruct Hday as [?|(i & Hi & ?)]; [by left|].
      right. exists i. split; [lia | done]. }
    simpl.
    destruct Hday as [?|(i & Hi & Hh & Hd & Hs)]; [done|].
    assert (H : let st' := fold_left (Optimized.addMatch (Js.lineAt lines n))
                    (Regex.execAll Patterns.coursePattern (Js.lineAt lines n)) st in
                Optimized.currentDay st' = Optimized.currentDay st /\
                Optimized.timeSlots st' = Optimized.timeSlots st /\
                Optimized.skip st' = Optimized.skip st /\
                Forall (readBeforeOpt lines (S n)) (Optimized.out st')).
    { apply (fold_left_invariant_in
               (fun st' => Optimized.currentDay st' = Optimized.currentDay st /\
                           Optimized.timeSlots st' = Optimized.timeSlots st /\
                           Optimized.skip st' = Optimized.skip st /\
                           Forall (readBeforeOpt lines (S n)) (Optimized.out st'))); [|done].
      intros a m Hm (Ha1 & Ha2 & Ha3 & Ha4).
      destruct (Optimized_addMatch_sound lines i n a m) as (H1 & H2 & H3 & H4);
        [lia | done | done | congruence | by rewrite Ha2 | done | done |].
      split; [congruence|]. split; [congruence|]. split; [congruence | done]. }
    destruct H as (H1 & H2 & H3 & H4). split; [|done].
    right. exists i. split; [lia|]. split; [done|]. split; [congruence|]. by rewrite H2.
Qed.

Lemma optimizedAt_sound lines n : n <= length lines -> optSound lines n (optimizedAt lines n).
Proof.
  induction n as [|n IH]; intros Hn.
  - split; [by left | constructor].
  - rewrite optimizedAt_S. apply Optimized_step_sound; [lia|]. apply IH. lia.
Qed.

Lemma Optimized_classes_read (text : string) (c : ClassSchedule) :
  c ∈ Optimized.extractClasses text ->
  exists i j m, readFrom Js.capitalised (Js.splitOn Js.newline text) i j m c /\
                optimizedFields (Js.splitOn Js.newline text) j m c /\ i + 3 <= j.
Proof.
  intros Hc. unfold Optimized.extractClasses, Optimized.extractFrom in Hc.
  destruct (optimizedAt_sound (Js.splitOn Js.newline text)
              (length (Js.splitOn Js.newline text))) as [_ Hout]; [done|].
  apply (proj1 (Forall_forall _ _) Hout) in Hc as (i & j & m & H & Hf & Hi & _).
  by exists i, j, m.
Qed.

(* ===================================================================== *)
(** ** PDFParserV3: the columns of a day *)
(* ===================================================================== *)

Section ScanOrder.
Import Regex.

Lemma matchHere_index r cu f : matchHere r cu = Some f -> index f = pos cu.
Proof.
  unfold matchHere. intros H.
  apply (run_span (fun _ => true)) in H as (w & cu' & caps' & _ & Hk & _).
  by injection Hk as <-.
Qed.

Lemma scan_indices r l :
  forall skip cu,
    Forall (fun f => pos cu + skip <= index f) (scan r skip l cu) /\
    StronglySorted lt (map index (scan r skip l cu)).
Proof.
  induction l as [|c l IH]; intros skip cu; simpl.
  - destruct skip; [|split; constructor].
    destruct (matchHere r cu) as [f|] eqn:Hm; [|split; constructor].
    apply matchHere_index in Hm. split; simpl; repeat constructor. lia.
  - destruct skip as [|n].
    + destruct (matchHere r cu) as [f|] eqn:Hm.
      * apply matchHere_index in Hm.
        destruct (IH (stop f - index f - 1) (advance c cu l)) as [Hge Hs].
        simpl in Hge. split; simpl.
        -- constructor; [lia|]. eapply Forall_impl; [exact Hge|]. simpl. intros; lia.
        -- constructor; [done|]. apply Forall_map.
           eapply Forall_impl; [exact Hge|]. simpl. intros; lia.
      * destruct (IH 0 (advance c cu l)) as [Hge Hs]. simpl in Hge. split; [|done].
        eapply Forall_impl; [exact Hge|]. simpl. intros; lia.
    + destruct (IH n (advance c cu l)) as [Hge Hs]. simpl in Hge. split; [|done].
      eapply Forall_impl; [exact Hge|]. simpl. intros; lia.
Qed.

Lemma columnPositionsOf_sorted headerLine :
  StronglySorted lt (Patterns.columnPositionsOf headerLine).
Proof. apply scan_indices. Qed.

End ScanOrder.

Lemma sorted_lookup_lt (l : list nat) i j x y :
  StronglySorted lt l -> i < j -> l !! i = Some x -> l !! j = Some y -> x < y.
Proof.
  intros Hs. revert i j. induction Hs as [|a l Hs IH Ha]; intros i j Hij Hi Hj; [done|].
  destruct j as [|j]; [lia|]. destruct i as [|i]; simpl in *.
  - injection Hi as <-. apply (proj1 (Forall_forall _ _) Ha). by eapply list_elem_of_lookup_2.
  - apply (IH i j); [lia | done | done].
Qed.

Lemma V3_slotAt_bounds cols j t :
  StronglySorted lt cols -> j < length cols ->
  columnStart (V3.slotAt cols j t) = boundary cols j /\
  columnEnd (V3.slotAt cols j t) = boundary cols (S j).
Proof.
  intros Hs Hj. split.
  - destruct j as [|j]; [done|]. simpl. apply Nat.ltb_lt in Hj. by rewrite Hj.
  - simpl. destruct (Nat.ltb_spec (S j) (length cols)) as [Hlt|Hge].
    + destruct (lookup_lt_is_Some_2 cols (S j) Hlt) as [y Hy].
      destruct (lookup_lt_is_Some_2 cols j Hj) as [x Hx].
      pose proof (sorted_lookup_lt cols j (S j) x y Hs ltac:(lia) Hx Hy).
      rewrite Hy, Hx. simpl. destruct y; [lia | done].
    + by rewrite (lookup_ge_None_2 cols (S j)) by lia.
Qed.

Lemma boundary_cover cols p k :
  p < 300 -> k < length cols -> boundary cols k <= p ->
  exists j, j < length cols /\ boundary cols j <= p < boundary cols (S j).
Proof.
  intros Hp. remember (length cols - k) as d eqn:Hd. revert k Hd.
  induction d as [|d IH]; intros k Hd Hk Hb; [lia|].
  destruct (Nat.lt_ge_cases p (boundary cols (S k))) as [Hlt|Hge].
  - exists k. lia.
  - assert (S k < length cols).
    { destruct (Nat.lt_ge_cases (S k) (length cols)) as [?|Hlen]; [done|].
      unfold boundary in Hge. apply Nat.ltb_ge in Hlen. rewrite Hlen in Hge. lia. }
    apply (IH (S k)); [lia | done | done].
Qed.

Lemma find_exists {A} (f : A -> bool) (l : list A) x :
  x ∈ l -> f x = true -> exists y, find f l = Some y /\ f y = true.
Proof.
  induction 1 as [x l|x z l Hin IH]; intros Hx; simpl.
  - rewrite Hx. by exists x.
  - destruct (f z) eqn:Hz; [by exists z | by apply IH].
Qed.

(** X7. When PDFParserV3 has built columns for a day, they cover the
    offsets below 300: a token there is given the column it starts in.
    A token at offset 300 or beyond, when every [Course] header stands
    below 300, falls in no column and is given the first one. *)
Theorem V3_columns_cover_the_line (timeLine headerLine : string) (p : nat) :
  let slots := V3.buildTimeSlots (Patterns.timesOf timeLine)
                                 (Patterns.columnPositionsOf headerLine) in
  slots <> [] ->
  (p < 300 ->
   exists slot, V3.slotOf slots p = Some slot /\ slot ∈ slots /\
                columnStart slot <= p < columnEnd slot) /\
  (300 <= p -> Forall (fun c => c < 300) (Patterns.columnPositionsOf headerLine) ->
   V3.slotOf slots p = head slots).
Proof.
  intros slots Hne. subst slots. unfold V3.buildTimeSlots in *.
  set (times := Patterns.timesOf timeLine) in *.
  set (cols := Patterns.columnPositionsOf headerLine) in *.
  pose proof (columnPositionsOf_sorted headerLine) as Hs. fold cols in Hs.
  destruct (Nat.eqb_spec (length times) (length cols)) as [Hlen|]; [|done].
  assert (Hpos : 0 < length cols).
  { destruct times; [done|]. simpl in Hlen. lia. }
  split.
  - intros Hp.
    destruct (boundary_cover cols p 0 Hp Hpos ltac:(simpl; lia)) as (j & Hj & Hb).
    destruct (lookup_lt_is_Some_2 times j ltac:(lia)) as [t Ht].
    destruct (V3_slotAt_bounds cols j t Hs Hj) as [H1 H2].
    destruct (find_exists (fun slot => (columnStart slot <=? p) && (p <? columnEnd slot))
                (imap (V3.slotAt cols) times) (V3.slotAt cols j t)) as (y & Hy & Hin).
    { apply (list_elem_of_lookup_2 _ j). by rewrite list_lookup_imap, Ht. }
    { rewrite H1, H2. apply andb_true_intro. split; [apply Nat.leb_le | apply Nat.ltb_lt]; lia. }
    exists y. unfold V3.slotOf. rewrite Hy. split; [done|].
    apply find_some in Hy as [Hy _]. apply list_elem_of_In in Hy.
    apply andb_prop in Hin as [?%Nat.leb_le ?%Nat.ltb_lt]. done.
  - intros Hp Hall. unfold V3.slotOf.
    destruct (find _ _) as [y|] eqn:Hy; [|done]. exfalso.
    apply find_some in Hy as [Hin Hy]. apply list_elem_of_In in Hin.
    apply elem_of_lookup_imap_1 in Hin as (j & t & -> & Hj).
    assert (Hjl : j < length cols) by (rewrite <- Hlen; by eapply lookup_lt_Some).
    destruct (V3_slotAt_bounds cols j t Hs Hjl) as [H1 H2].
    rewrite H1, H2 in Hy. apply andb_prop in Hy as [_ Hy%Nat.ltb_lt].
    unfold boundary in Hy.
    destruct (Nat.ltb_spec (S j) (length cols)) as [Hlt|Hge]; [|lia].
    destruct (lookup_lt_is_Some_2 cols (S j) Hlt) as [y Hy'].
    destruct (lookup_lt_is_Some_2 cols j Hjl) as [x Hx].
    rewrite Hx, Hy' in Hy. cbn [default] in Hy.
    assert (x < 300) by (apply (proj1 (Forall_forall _ _) Hall); by eapply list_elem_of_lookup_2).
    assert (y < 300) by (apply (proj1 (Forall_forall _ _) Hall); by eapply list_elem_of_lookup_2).
    assert ((x + y) / 2 < 300) by (apply Nat.Div0.div_lt_upper_bound; lia).
    unfold id in Hy. lia.
Qed.

(* ===================================================================== *)
(** ** PDFParserV3: statistics, filters and groups *)
(* ===================================================================== *)

Section Ties.
Variable counts : gmap string nat.

Lemma firstWith_later count worse days d x :
  firstWith count worse days d -> firstWith count worse (days ++ [x])%list d.
Proof.
  intros (pre & post & -> & H). exists pre, (post ++ [x])%list.
  split; [by rewrite <- app_assoc | done].
Qed.

Lemma firstWith_last count (worse : nat -> Prop) days d :
  (forall e, e ∈ days -> worse (count e)) -> firstWith count worse (days ++ [d])%list d.
Proof. intros H. by exists days, []. Qed.

Lemma talliedFirst_step days t d :
  tallied counts days t -> talliedFirst counts days t ->
  talliedFirst counts (days ++ [d])%list (V3.tallyDay counts t d).
Proof.
  intros (Hmax & Hbusy & Hlight) [Hb Hl]. unfold V3.tallyDay.
  change (default 0 (counts !! d)) with (countIn counts d).
  unfold talliedFirst. set (count := countIn counts) in *.
  destruct (Nat.ltb_spec (V3.tBusiestCount t) (count d)) as [Hlt|Hge];
    cbn [V3.tLightestCount V3.tBusiestCount V3.tBusiestDay V3.tLightestDay];
    destruct (V3.tLightestCount t) as [n|] eqn:Hln; unfold V3.belowLightest;
    try destruct (Nat.ltb_spec (count d) n) as [Hn|Hn];
    destruct (Nat.ltb_spec 0 (count d)) as [Hz|Hz];
    cbn [andb V3.tLightestCount V3.tBusiestCount V3.tBusiestDay V3.tLightestDay];
    rewrite ?Hln.
  all: split.
  all: try (destruct (Nat.eqb_spec (count d) 0) as [?|_]; [lia|];
            apply firstWith_last; intros e He; specialize (Hmax e He); lia).
  all: try (destruct (V3.tBusiestCount t =? 0); [done | by apply firstWith_later]).
  all: try (by apply firstWith_later).
  all: try done.
  all: try (apply firstWith_last; intros e He;
            destruct Hlight as (Hpos & Hday & Hcnt & Hmin);
            destruct (Nat.eq_dec (count e) 0) as [?|Hne]; [by left|];
            right; specialize (Hmin e He); lia).
  all: try (apply firstWith_last; intros e He; left; by apply Hlight).
  all: lia.
Qed.

Lemma talliedFirst_fold ds days t :
  tallied counts days t -> talliedFirst counts days t ->
  tallied counts (days ++ ds)%list (foldl (V3.tallyDay counts) t ds) /\
  talliedFirst counts (days ++ ds)%list (foldl (V3.tallyDay counts) t ds).
Proof.
  revert days t. induction ds as [|d ds IH]; intros days t Ht Hf; simpl.
  - by rewrite app_nil_r.
  - rewrite cons_middle, app_assoc. apply IH; [by apply tallied_step|].
    by apply talliedFirst_step.
Qed.

End Ties.

Lemma tally_first cs : talliedFirst (V3.dayCounts cs) DAYS (V3.tally cs).
Proof.
  apply (talliedFirst_fold _ DAYS [] V3.tallyStart); [apply tallied_start|].
  split; reflexivity.
Qed.

(** X8. PDFParserV3.calculateStats: the total is the length of the
    list; the busiest count bounds the count of every weekday and is the
    count of the busiest day, which is the first weekday of that count;
    the lightest day is the first weekday of the least count above zero.
    Without a class on a weekday both days are Saturday with count 0. *)
Theorem V3_calculateStats_extremes (cs : list ClassSchedule) :
  let s := V3.calculateStats cs in
  totalClasses s = length cs /\
  (forall d, d ∈ DAYS -> V3.countOn cs d <= busiestDayCount s) /\
  (busiestDayCount s = 0 -> busiestDay s = "Saturday") /\
  (0 < busiestDayCount s ->
   exists pre d post, DAYS = (pre ++ d :: post)%list /\
     busiestDay s = Js.capitalised d /\
     V3.countOn cs d = busiestDayCount s /\
     forall e, e ∈ pre -> V3.countOn cs e < busiestDayCount s) /\
  (lightestDayCount s = 0 ->
   lightestDay s = "Saturday" /\ forall d, d ∈ DAYS -> V3.countOn cs d = 0) /\
  (0 < lightestDayCount s ->
   exists pre d post, DAYS = (pre ++ d :: post)%list /\
     lightestDay s = Js.capitalised d /\
     V3.countOn cs d = lightestDayCount s /\
     (forall e, e ∈ DAYS -> 0 < V3.countOn cs e -> lightestDayCount s <= V3.countOn cs e) /\
     forall e, e ∈ pre -> V3.countOn cs e = 0 \/ lightestDayCount s < V3.countOn cs e).
Proof.
  cbv zeta. unfold V3.calculateStats, V3.statsOfTally. simpl.
  destruct (tally_tallied cs) as (Hmax & Hbusy & Hlight).
  destruct (tally_first cs) as [Hb Hl].
  assert (Hpre : forall pre d post, DAYS = (pre ++ d :: post)%list ->
                 d ∈ DAYS /\ forall e, e ∈ pre -> e ∈ DAYS).
  { intros pre d post ->. split; [|intros e He]; apply elem_of_app; [right; left | by left]. }
  split; [done|]. split.
  { intros d Hd. rewrite <- count_countOn by done. by apply Hmax. }
  split.
  { intros H0. rewrite H0 in Hb. simpl in Hb. by rewrite Hb. }
  split.
  { intros Hpos. destruct (Nat.eqb_spec (V3.tBusiestCount (V3.tally cs)) 0) as [?|_]; [lia|].
    destruct Hb as (pre & post & Heq & Hb). destruct (Hpre _ _ _ Heq) as [Hd Hin].
    exists pre, (V3.tBusiestDay (V3.tally cs)), post. split; [done|]. split; [done|].
    destruct Hbusy as [?|[_ Hcnt]]; [lia|]. rewrite count_countOn in Hcnt by done.
    split; [done|]. intros e He. rewrite <- count_countOn by auto. by apply Hb. }
  destruct (V3.tLightestCount (V3.tally cs)) as [n|]; simpl.
  - destruct Hlight as (Hn & Hday & Hcnt & Hmin). split; [lia|]. intros _.
    destruct Hl as (pre & post & Heq & Hl). destruct (Hpre _ _ _ Heq) as [Hd Hin].
    exists pre, (V3.tLightestDay (V3.tally cs)), post. split; [done|]. split; [done|].
    rewrite count_countOn in Hcnt by done. split; [done|]. split.
    + intros e He Hp. rewrite <- (count_countOn cs e) by done. apply Hmin; [done|].
      by rewrite count_countOn.
    + intros e He. rewrite <- count_countOn by auto. by apply Hl.
  - split; [|lia]. intros _. split; [by rewrite Hl|].
    intros d Hd. rewrite <- count_countOn by done. by apply Hlight.
Qed.

Lemma upperChar_idem c : Js.upperChar (Js.upperChar c) = Js.upperChar c.
Proof.
  unfold Js.upperChar. destruct (Js.isLower c) eqn:Hl; [|by rewrite Hl].
  destruct c as [[] [] [] [] [] [] [] []]; vm_compute in Hl; try discriminate; reflexivity.
Qed.

Lemma upper_lowerChar c : Js.upperChar (Js.lowerChar c) = Js.upperChar c.
Proof.
  destruct c as [[] [] [] [] [] [] [] []]; reflexivity.
Qed.

Lemma toUpperCase_idem s : Js.toUpperCase (Js.toUpperCase s) = Js.toUpperCase s.
Proof.
  unfold Js.toUpperCase. induction s as [|c s IH]; simpl; [done|].
  by rewrite upperChar_idem, IH.
Qed.

Lemma toUpperCase_lower s : Js.toUpperCase (Js.toLowerCase s) = Js.toUpperCase s.
Proof.
  unfold Js.toUpperCase, Js.toLowerCase. induction s as [|c s IH]; simpl; [done|].
  by rewrite upper_lowerChar, IH.
Qed.

Lemma filter_comm {A} (P Q : A -> Prop) `{!forall x, Decision (P x)} `{!forall x, Decision (Q x)}
    (l : list A) :
  filter P (filter Q l) = filter Q (filter P l).
Proof.
  induction l as [|x l IH]; [done|].
  rewrite !filter_cons. destruct (decide (Q x)), (decide (P x));
    rewrite ?filter_cons; repeat case_decide; try done; by rewrite IH.
Qed.

Lemma filter_idem {A} (P : A -> Prop) `{!forall x, Decision (P x)} (l : list A) :
  filter P (filter P l) = filter P l.
Proof.
  induction l as [|x l IH]; [done|].
  rewrite filter_cons. destruct (decide (P x)); [|done].
  rewrite filter_cons. case_decide; [|done]. by rewrite IH.
Qed.

Lemma V3_values_groupByDay cs :
  V3.values (V3.groupByDay cs) = map (fun d => filter (fun c => day c = d) cs) DAYS.
Proof. reflexivity. Qed.

(** X9. The three filters of PDFParserV3 commute and are idempotent;
    the teacher is compared without regard to case, and so is the room
    query; filtering before groupByDay or every group after it gives the
    same groups. *)
Theorem V3_filters_compose (cs : list ClassSchedule) (bs t r : string) :
  V3.filterByTeacher (V3.filterByBatchSection cs bs) t =
    V3.filterByBatchSection (V3.filterByTeacher cs t) bs /\
  V3.filterByRoom (V3.filterByBatchSection cs bs) r =
    V3.filterByBatchSection (V3.filterByRoom cs r) bs /\
  V3.filterByRoom (V3.filterByTeacher cs t) r =
    V3.filterByTeacher (V3.filterByRoom cs r) t /\
  V3.filterByBatchSection (V3.filterByBatchSection cs bs) bs = V3.filterByBatchSection cs bs /\
  V3.filterByTeacher (V3.filterByTeacher cs t) t = V3.filterByTeacher cs t /\
  V3.filterByRoom (V3.filterByRoom cs r) r = V3.filterByRoom cs r /\
  V3.filterByTeacher cs (Js.toLowerCase t) = V3.filterByTeacher cs t /\
  V3.filterByTeacher cs (Js.toUpperCase t) = V3.filterByTeacher cs t /\
  V3.filterByRoom cs (Js.toLowerCase r) = V3.filterByRoom cs r /\
  (forall c, c ∈ V3.filterByTeacher cs t <->
             c ∈ cs /\ Js.toUpperCase (teacher c) = Js.toUpperCase t) /\
  (forall c, c ∈ V3.filterByBatchSection cs bs <-> c ∈ cs /\ batchSection c = bs) /\
  V3.values (V3.groupByDay (V3.filterByBatchSection cs bs)) =
    map (fun g => V3.filterByBatchSection g bs) (V3.values (V3.groupByDay cs)) /\
  V3.values (V3.groupByDay (V3.filterByTeacher cs t)) =
    map (fun g => V3.filterByTeacher g t) (V3.values (V3.groupByDay cs)) /\
  V3.values (V3.groupByDay (V3.filterByRoom cs r)) =
    map (fun g => V3.filterByRoom g r) (V3.values (V3.groupByDay cs)).
Proof.
  rewrite !V3_values_groupByDay.
  unfold V3.filterByTeacher, V3.filterByBatchSection, V3.filterByRoom.
  split; [apply filter_comm|]. split; [apply filter_comm|]. split; [apply filter_comm|].
  split; [apply filter_idem|]. split; [apply filter_idem|]. split; [apply filter_idem|].
  split; [by rewrite toUpperCase_lower|]. split; [by rewrite toUpperCase_idem|].
  split; [by rewrite toUpperCase_lower|].
  split; [intros c; rewrite list_elem_of_filter; tauto|].
  split; [intros c; rewrite list_elem_of_filter; tauto|].
  repeat split; rewrite map_map; apply map_ext; intros d; apply filter_comm.
Qed.

Lemma max_list_bound (l : list nat) n :
  (forall x, x ∈ l -> x <= n) -> (n = 0 \/ n ∈ l) -> max_list l = n.
Proof.
  intros Hle Hin. apply Nat.le_antisymm.
  - clear Hin. induction l as [|x l IH]; simpl; [lia|].
    apply Nat.max_lub; [apply Hle; left | apply IH]. intros y Hy. apply Hle. by right.
  - destruct Hin as [->|Hin]; [lia|]. by apply max_list_elem_of_le.
Qed.

(** X10. calculateStats and groupByDay agree: the busiest count is the
    size of the largest group, and when every class has a weekday in
    upper case the total is the sum of the sizes of the groups. *)
Theorem V3_stats_of_groups (cs : list ClassSchedule) :
  busiestDayCount (V3.calculateStats cs) =
    max_list (map length (V3.values (V3.groupByDay cs))) /\
  (Forall (fun c => day c ∈ DAYS) cs ->
   totalClasses (V3.calculateStats cs) =
     sum_list (map length (V3.values (V3.groupByDay cs)))).
Proof.
  split.
  - symmetry. apply max_list_bound.
    + intros x. rewrite V3_values_groupByDay, map_map.
      intros (d & Hx & Hd)%list_elem_of_In%in_map_iff. apply list_elem_of_In in Hd.
      rewrite <- Hx. by apply busiest_bounds.
    + destruct (tally_tallied cs) as (_ & Hbusy & _).
      rewrite V3_values_groupByDay, map_map.
      unfold V3.calculateStats, V3.statsOfTally. cbn [busiestDayCount].
      destruct Hbusy as [?|[Hd Hcnt]]; [by left|]. right.
      rewrite count_countOn in Hcnt by done. rewrite <- Hcnt.
      exact (elem_of_map_1 (fun d => length (filter (fun c => day c = d) cs)) DAYS _ Hd).
  - intros Hall. rewrite V3_values_groupByDay.
    unfold V3.calculateStats, V3.statsOfTally. cbn [totalClasses].
    rewrite <- (filter_all (fun c => day c ∈ DAYS) cs) at 1 by done.
    rewrite <- (buckets_perm day DAYS cs DAYS_NoDup).
    rewrite length_concat. by rewrite map_map.
Qed.

(* ===================================================================== *)
(** ** PdfCacheService and parsePDFFromURL *)
(* ===================================================================== *)

Section Unavailable.
Variable net : Outside.

(** X14. Without a database the three methods of PdfCacheService throw
    [Database not available] and do nothing: no download is made. *)
Theorem no_database_no_service (department pdfUrl version : string) (w : World) :
  store w = None ->
  getOrParsePdf net department pdfUrl version w =
    (Threw (newError "Database not available"), w) /\
  clearCache department w = (Threw (newError "Database not available"), w) /\
  getCacheStatus department w = (Threw (newError "Database not available"), w).
Proof.
  intros H. rewrite getOrParsePdf_outcome, clearCache_outcome.
  unfold getOrParseOutcome, getCacheStatus, mbind, M_bind, bind, getDb. by rewrite H.
Qed.

End Unavailable.

(** The theorem at a world without a database. *)
Lemma no_database_witness :
  getOrParsePdf (serves scenarioAligned) "cse" "routine.pdf" "1.0" (offline emptyWorld) =
    (Threw (newError "Database not available"), offline emptyWorld) /\
  clearCache "cse" (offline emptyWorld) =
    (Threw (newError "Database not available"), offline emptyWorld) /\
  getCacheStatus "cse" (offline emptyWorld) =
    (Threw (newError "Database not available"), offline emptyWorld).
Proof.
  apply (no_database_no_service (serves scenarioAligned) "cse" "routine.pdf" "1.0"
           (offline emptyWorld)).
  reflexivity.
Defined.

Section Consistency.


Lemma consistent_empty : consistent emptyDb.
Proof. repeat split; constructor. Qed.


(** The class rows after the loop of clearCache. *)
Lemma classes_after_deletes caches db :
  classSchedules (foldl (fun d cache => snd (deleteClasses (PdfCache.id cache) d)) db caches)
  = filter (fun r => ClassSchedules.cacheId r ∉ map PdfCache.id caches) (classSchedules db).
Proof.
  revert db. induction caches as [|c caches IH]; intros db; simpl.
  - symmetry. apply filter_all. apply Forall_forall. intros r _. apply not_elem_of_nil.
  - rewrite IH. simpl. rewrite list_filter_filter. apply list_filter_iff.
    intros r. rewrite not_elem_of_cons. tauto.
Qed.

Lemma seq_after_deletes caches db :
  pdfCacheSeq (foldl (fun d cache => snd (deleteClasses (PdfCache.id cache) d)) db caches)
  = pdfCacheSeq db /\
  classSchedulesSeq (foldl (fun d cache => snd (deleteClasses (PdfCache.id cache) d)) db caches)
  = classSchedulesSeq db.
Proof. revert db. induction caches as [|c caches IH]; intros db; simpl; [done|]. by rewrite !(proj1 (IH _)), !(proj2 (IH _)). Qed.

Lemma cleared_tables department db :
  pdfCache (cleared department db) =
    filter (fun c => PdfCache.department c ≠ department) (pdfCache db) /\
  classSchedules (cleared department db) =
    filter (fun r => ClassSchedules.cacheId r ∉
                     map PdfCache.id (selectDepartment department db)) (classSchedules db) /\
  pdfCacheSeq (cleared department db) = pdfCacheSeq db /\
  classSchedulesSeq (cleared department db) = classSchedulesSeq db.
Proof.
  unfold cleared. simpl. rewrite pdfCache_clear_classes, classes_after_deletes.
  destruct (seq_after_deletes (selectDepartment department db) db) as [H1 H2]. done.
Qed.

Lemma id_of_other_department department db c :
  NoDup (map PdfCache.id (pdfCache db)) ->
  c ∈ pdfCache db -> PdfCache.department c ≠ department ->
  PdfCache.id c ∉ map PdfCache.id (selectDepartment department db).
Proof.
  unfold selectDepartment. induction (pdfCache db) as [|x l IH]; intros Hnd Hc Hne.
  - by apply elem_of_nil in Hc.
  - simpl in Hnd. apply NoDup_cons in Hnd as [Hx Hnd].
    apply elem_of_cons in Hc as [->|Hc].
    + rewrite filter_cons_False by done.
      intros (y & Hy & Hin)%list_elem_of_In%in_map_iff. apply Hx.
      rewrite <- Hy. apply elem_of_map_1. apply list_elem_of_In in Hin.
      by apply list_elem_of_filter in Hin as [_ ?].
    + destruct (decide (PdfCache.department x = department)) as [Hd|Hd].
      * rewrite filter_cons_True by done. simpl. apply not_elem_of_cons. split; [|by apply IH].
        intros Heq. apply Hx. rewrite <- Heq. by apply elem_of_map_1.
      * rewrite filter_cons_False by done. by apply IH.
Qed.

Lemma selectClasses_cleared department db c :
  NoDup (map PdfCache.id (pdfCache db)) ->
  c ∈ pdfCache db -> PdfCache.department c ≠ department ->
  selectClasses (PdfCache.id c) (cleared department db) = selectClasses (PdfCache.id c) db.
Proof.
  intros Hnd Hc Hne. unfold selectClasses.
  rewrite (proj1 (proj2 (cleared_tables department db))).
  rewrite list_filter_filter. apply list_filter_iff. intros r. split; [tauto|].
  intros Hr. split; [done|]. rewrite Hr. by apply id_of_other_department.
Qed.


End Consistency.

Section ConsistencyOfCalls.
Variable net : Outside.


End ConsistencyOfCalls.

Section ClearCache.

Lemma filter_none {A} (P : A -> Prop) `{!forall x, Decision (P x)} (l : list A) :
  (forall x, x ∈ l -> ~ P x) -> filter P l = [].
Proof.
  induction l as [|x l IH]; intros Hall; [done|].
  rewrite filter_cons_False by (apply Hall; left). apply IH. intros y Hy. apply Hall. by right.
Qed.

Lemma Db_ext (a b : Db) :
  pdfCache a = pdfCache b -> classSchedules a = classSchedules b ->
  pdfCacheSeq a = pdfCacheSeq b -> classSchedulesSeq a = classSchedulesSeq b -> a = b.
Proof. destruct a, b. simpl. congruence. Qed.

(** X18. clearCache removes the records of its department with their
    class rows and nothing else: the records of the other departments and
    their class rows stay, the counter of ids is not reset, and a second
    clearCache changes nothing. *)
Theorem clearCache_spares_other_departments (department : string) (w : World) (db : Db) :
  store w = Some db ->
  NoDup (map PdfCache.id (pdfCache db)) ->
  clearCache department w = (Returned tt, stored w (cleared department db)) /\
  (forall c, c ∈ pdfCache (cleared department db) <->
             c ∈ pdfCache db /\ PdfCache.department c <> department) /\
  (forall c, c ∈ pdfCache db -> PdfCache.department c <> department ->
     selectClasses (PdfCache.id c) (cleared department db) =
     selectClasses (PdfCache.id c) db) /\
  (forall c, c ∈ pdfCache db -> PdfCache.department c = department ->
     selectClasses (PdfCache.id c) (cleared department db) = []) /\
  pdfCacheSeq (cleared department db) = pdfCacheSeq db /\
  cleared department (cleared department db) = cleared department db.
Proof.
  intros Hdb Hnd.
  destruct (cleared_tables department db) as (Hc & Hr & Hs1 & Hs2).
  split; [by rewrite clearCache_outcome, Hdb|].
  split; [intros c; rewrite Hc, list_elem_of_filter; tauto|].
  split; [intros c; by apply selectClasses_cleared|].
  split; [|split; [done|]].
  - intros c Hin Hd. unfold selectClasses. rewrite Hr, list_filter_filter.
    apply filter_none. intros r _ [Heq Hnot]. apply Hnot. rewrite Heq.
    apply elem_of_map_1. by apply list_elem_of_filter.
  - destruct (cleared_tables department (cleared department db)) as (Hc' & Hr' & Hs1' & Hs2').
    apply Db_ext; [| |congruence..].
    + rewrite Hc', Hc. apply filter_idem.
    + rewrite Hr'. rewrite selectDepartment_cleared. apply filter_all.
      apply Forall_forall. intros r _. apply not_elem_of_nil.
Qed.

End ClearCache.

Section Status.

(** X20. getCacheStatus changes nothing; it reports no record when the
    department has none, a cached one only when a record of the department
    has not expired, and with one record exactly whether that record has
    expired, with its dates and its count. *)
Theorem getCacheStatus_report (department : string) (w : World) (db : Db) :
  store w = Some db ->
  snd (getCacheStatus department w) = w /\
  (selectDepartment department db = [] ->
   fst (getCacheStatus department w) = Returned notCached) /\
  (forall s, fst (getCacheStatus department w) = Returned s -> isCached s = true ->
     exists c, c ∈ pdfCache db /\ PdfCache.department c = department /\
               (clock w < PdfCache.expiresAt c)%Z) /\
  (forall c, selectDepartment department db = [c] ->
     fst (getCacheStatus department w) =
       Returned {| isCached := bool_decide (clock w < PdfCache.expiresAt c)%Z;
                   statusParsedAt := Some (PdfCache.parsedAt c);
                   statusExpiresAt := Some (PdfCache.expiresAt c);
                   statusTotalClasses := Some (PdfCache.totalClasses c) |}).
Proof.
  intros Hdb. split; [apply getCacheStatus_reads|].
  unfold getCacheStatus, mbind, M_bind, bind, getDb, newDate, ret. rewrite Hdb.
  split; [by intros ->|]. split.
  - destruct (selectDepartment department db) as [|c l] eqn:Hsel; simpl.
    + by intros s [= <-].
    + intros s [= <-]. simpl. intros Hc. exists c.
      assert (Hin : c ∈ selectDepartment department db) by (rewrite Hsel; left).
      apply list_elem_of_filter in Hin as [Hd Hin].
      split; [done|]. split; [done|]. apply negb_true_iff, Z.leb_gt in Hc. done.
  - intros c ->. simpl. do 2 f_equal.
    destruct (Z.leb_spec (PdfCache.expiresAt c) (clock w)); simpl; symmetry.
    + apply bool_decide_eq_false. lia.
    + by apply bool_decide_eq_true.
Qed.

End Status.

Section MissStores.
Variable net : Outside.


End MissStores.

Section Cleanup.
Variable net : Outside.

(** X12. PDFParserV3.parsePDFFromURL makes one download, touches
    neither the clock nor the database, and whenever it wrote the temporary
    file the last thing it does is to unlink it; when the download throws
    it does nothing else. *)
Theorem parsePDFFromURL_cleans_up (url : string) (w : World) :
  let w' := snd (V3Url.parsePDFFromURL net url w) in
  clock w' = clock w /\ store w' = store w /\
  exists evs, trace w' = (trace w ++ Download url :: evs)%list /\
    Forall (fun ev => isDownload ev = false) evs /\
    (forall path, WriteFile path ∈ evs -> last evs = Some (Unlink path)) /\
    (forall path, Pdftotext path ∈ evs -> WriteFile path ∈ evs) /\
    (evs = [] <-> exists cause, httpGet net url = inl cause).
Proof.
  cbv zeta. rewrite parsePDFFromURL_outcome. unfold parseOutcome.
  destruct (httpGet net url) as [cause|data].
  - split; [done|]. split; [done|]. exists []. split; [done|]. split; [constructor|].
    split; [intros p Hp; by apply elem_of_nil in Hp|].
    split; [intros p Hp; by apply elem_of_nil in Hp|]. split; [by exists cause | done].
  - assert (Hno : forall evs : list Event, evs <> [] ->
              (evs = [] <-> exists cause : JsError, @inr JsError string data = inl cause)).
    { intros evs Hne. split; [done | by intros [? ?]]. }
    destruct (writeFile net _ data) as [cause|];
      [|destruct (pdftotext net data) as [cause|text]];
      (split; [done|]); (split; [done|]); eexists; (split; [reflexivity|]);
      (split; [repeat constructor|]); (split; [|split; [|by apply Hno]]);
      intros p Hp; repeat (apply elem_of_cons in Hp as [Hp|Hp]; try discriminate Hp);
      try (by apply elem_of_nil in Hp); try (injection Hp as ->); try done;
      repeat constructor.
Qed.

End Cleanup.

Section Faculty.

Lemma uniqueInOrder_fold (arr acc : list string) :
  NoDup acc ->
  let r := fold_left (fun acc x => if existsb (String.eqb x) acc then acc
                                   else (acc ++ [x])%list) arr acc in
  NoDup r /\ (forall x, x ∈ r <-> x ∈ acc \/ x ∈ arr) /\ exists new, r = (acc ++ new)%list.
Proof.
  revert acc. induction arr as [|a arr IH]; intros acc Hnd; simpl.
  - split; [done|]. split; [|exists []; by rewrite app_nil_r].
    intros x. rewrite elem_of_nil. tauto.
  - destruct (existsb (String.eqb a) acc) eqn:Ha.
    + destruct (IH acc Hnd) as (H1 & H2 & H3). split; [done|]. split; [|done].
      intros x. rewrite H2, elem_of_cons.
      apply existsb_exists in Ha as (y & Hy & ->%String.eqb_eq). apply list_elem_of_In in Hy.
      split; [tauto|]. intros [?|[->|?]]; tauto.
    + assert (Hnot : a ∉ acc).
      { intros Hin. apply list_elem_of_In in Hin.
        assert (existsb (String.eqb a) acc = true); [|congruence].
        apply existsb_exists. exists a. split; [done | apply String.eqb_refl]. }
      destruct (IH (acc ++ [a])%list) as (H1 & H2 & new & H3).
      { apply NoDup_app. split; [done|]. split; [|apply NoDup_singleton].
        intros x Hx ->%list_elem_of_singleton. done. }
      split; [done|]. split.
      * intros x. rewrite H2, elem_of_app, list_elem_of_singleton, elem_of_cons. tauto.
      * exists (a :: new). by rewrite H3, <- app_assoc.
Qed.

Lemma uniqueInOrder_spec (arr : list string) :
  NoDup (Js.uniqueInOrder arr) /\ forall x, x ∈ Js.uniqueInOrder arr <-> x ∈ arr.
Proof.
  destruct (uniqueInOrder_fold arr [] (NoDup_nil_2)) as (H1 & H2 & _).
  split; [done|]. intros x. rewrite (H2 x), elem_of_nil. tauto.
Qed.

(** X13. What parsePDFFromURL returns hangs together: the classes are
    those of the extracted text, the statistics are theirs, and [faculty]
    lists the teachers of the classes, each once. *)
Theorem parsed_schedule_is_coherent (net : Outside) (url : string) (w : World)
    (p : ParsedSchedule) :
  fst (V3Url.parsePDFFromURL net url w) = Returned p ->
  (exists data text, httpGet net url = inr data /\ pdftotext net data = inr text /\
                     classes p = V3.extractClasses text) /\
  stats p = V3.calculateStats (classes p) /\
  totalClasses (stats p) = length (classes p) /\
  NoDup (faculty p) /\
  (forall t, t ∈ faculty p <-> exists c, c ∈ classes p /\ teacher c = t).
Proof.
  rewrite parsePDFFromURL_outcome. unfold parseOutcome.
  destruct (httpGet net url) as [cause|data]; [done|].
  destruct (writeFile net _ data) as [cause|]; [done|].
  destruct (pdftotext net data) as [cause|text] eqn:Ht; [done|].
  intros [= <-]. simpl. split; [by exists data, text|]. split; [done|]. split; [done|].
  destruct (uniqueInOrder_spec (map teacher (V3.extractClasses text))) as [Hnd Hin].
  split; [done|]. intros t. rewrite Hin. split.
  - intros (c & <- & Hc)%list_elem_of_In%in_map_iff. exists c.
    split; [by apply list_elem_of_In | done].
  - intros (c & Hc & <-). by apply elem_of_map_1.
Qed.

End Faculty.

(* ===================================================================== *)
(** ** The parsers on a whole text *)
(* ===================================================================== *)





(** X11. groupByDay loses no class that extractClasses returns: the
    groups together are the classes, each once. *)
Theorem V3_groupByDay_keeps_every_parsed_class (text : string) :
  concat (V3.values (V3.groupByDay (V3.extractClasses text))) ≡ₚ V3.extractClasses text /\
  sum_list (map length (V3.values (V3.groupByDay (V3.extractClasses text)))) =
    length (V3.extractClasses text).
Proof.
  pose proof (V3_classes_days text) as Hdays.
  assert (Hperm : concat (V3.values (V3.groupByDay (V3.extractClasses text)))
                  ≡ₚ V3.extractClasses text).
  { rewrite V3_values_groupByDay, (buckets_perm day DAYS _ DAYS_NoDup).
    by rewrite filter_all. }
  split; [done|]. rewrite <- Hperm at 2. by rewrite length_concat.
Qed.

(** The theorem at a block of two columns, at offset 20. *)
Lemma V3_columns_cover_witness :
  exists slot,
    V3.slotOf (V3.buildTimeSlots
                 (Patterns.timesOf "08:30-10:00                    10:00-11:30")
                 (Patterns.columnPositionsOf
                    "Room   Course        Teacher   Room   Course        Teacher")) 20
      = Some slot /\
    slot ∈ V3.buildTimeSlots
             (Patterns.timesOf "08:30-10:00                    10:00-11:30")
             (Patterns.columnPositionsOf
                "Room   Course        Teacher   Room   Course        Teacher") /\
    columnStart slot <= 20 < columnEnd slot.
Proof.
  refine (proj1 (V3_columns_cover_the_line
                   "08:30-10:00                    10:00-11:30"
                   "Room   Course        Teacher   Room   Course        Teacher" 20 _) _).
  - vm_compute. discriminate.
  - lia.
Defined.

Lemma Optimized_keeps_witness :
  exists e, e ∈ Optimized.extractClasses scenarioAligned /\
    key6 e = ("Saturday", "08:30", "CSE112", "71_I", "MB", "CSE112").
Proof.
  refine (Optimized_keeps_every_six_fields scenarioAligned 3
            {| Regex.index := 7; Regex.stop := 19;
               Regex.groups := [(3, "I"); (2, "71"); (1, "CSE112")] |}
            {| Optimized.cDay := "SATURDAY";
               Optimized.cSlot := {| slotStart := "08:30"; slotEnd := "10:00";
                                     columnStart := 7; columnEnd := 38 |};
               Optimized.cCourseCode := "CSE112"; Optimized.cBatch := "71";
               Optimized.cSection := "I"; Optimized.cTeacher := "MB";
               Optimized.cRoom := "CSE112" |} _ _ _ _ _ _).
  - vm_compute. lia.
  - reflexivity.
  - reflexivity.
  - vm_compute. discriminate.
  - vm_compute. left.
  - reflexivity.
Defined.


(** The theorem at the world with two records of department cse. *)
Lemma clearCache_spares_witness :
  clearCache "eee" secondCall =
    (Returned tt, stored secondCall (cleared "eee" (default emptyDb (store secondCall)))) /\
  map PdfCache.id (pdfCache (cleared "eee" (default emptyDb (store secondCall)))) = [1; 2] /\
  map PdfCache.id (pdfCache (cleared "cse" (default emptyDb (store secondCall)))) = [].
Proof.
  split; [|split; vm_compute; reflexivity].
  refine (proj1 (clearCache_spares_other_departments "eee" secondCall
                   (default emptyDb (store secondCall)) _ _)).
  - vm_compute. reflexivity.
  - vm_compute. repeat constructor; intros H;
      repeat (apply elem_of_cons in H as [H|H]; [discriminate|]); by apply elem_of_nil in H.
Defined.

(** The theorem at the world whose only record has expired. *)
Lemma getCacheStatus_report_witness :
  fst (getCacheStatus "cse" staleWorld) =
    Returned {| isCached := false; statusParsedAt := Some 0%Z;
                statusExpiresAt := Some 2592000000%Z; statusTotalClasses := Some 2 |}.
Proof.
  refine (proj2 (proj2 (proj2 (getCacheStatus_report "cse" staleWorld
            (default emptyDb (store staleWorld)) _)))
          {| PdfCache.id := 1; PdfCache.department := "cse"; PdfCache.pdfUrl := "routine.pdf";
             PdfCache.version := "1.0"; PdfCache.parsedAt := 0%Z;
             PdfCache.expiresAt := 2592000000%Z; PdfCache.totalClasses := 2 |} _).
  - vm_compute. reflexivity.
  - vm_compute. reflexivity.
Defined.

Lemma status_after_clearCache_witness :
  fst ((clearCache "cse" ;; getCacheStatus "cse") secondCall) = Returned notCached.
Proof.
  rewrite (status_after_clearCache "cse" secondCall); [reflexivity|].
  vm_compute. discriminate.
Defined.



(** The theorem at the aligned scenario. *)
Lemma parsed_schedule_witness :
  NoDup (faculty (V3Url.parsedOf scenarioAligned)) /\
  totalClasses (stats (V3Url.parsedOf scenarioAligned)) =
    length (classes (V3Url.parsedOf scenarioAligned)).
Proof.
  destruct (parsed_schedule_is_coherent (serves scenarioAligned) "routine.pdf" emptyWorld
              (V3Url.parsedOf scenarioAligned)) as (_ & _ & Ht & Hnd & _).
  - reflexivity.
  - split; [exact Hnd | exact Ht].
Defined.

(* ===================================================================== *)
(** ** PDFParserOptimized: statistics and groups *)
(* ===================================================================== *)

Section DayCount.

Lemma assign_keys {V} (o : list (string * V)) k v :
  V3.keys (V3.assign o k v) =
    if bool_decide (k ∈ V3.keys o) then V3.keys o else (V3.keys o ++ [k])%list.
Proof.
  unfold V3.keys. induction o as [|[k' v'] o IH].
  - cbn [V3.assign map fst app]. by rewrite bool_decide_eq_false_2 by apply not_elem_of_nil.
  - cbn [V3.assign map fst app]. destruct (String.eqb_spec k' k) as [->|Hne]; cbn [map fst].
    + by rewrite bool_decide_eq_true_2 by apply list_elem_of_here.
    + rewrite IH. destruct (decide (k ∈ map fst o)) as [Hin|Hin].
      * rewrite !bool_decide_eq_true_2; [done | by apply list_elem_of_further | done].
      * rewrite !bool_decide_eq_false_2; [done | | done].
        intros [?|?]%elem_of_cons; [congruence | done].
Qed.

Lemma assign_lookup {V} (o : list (string * V)) k v k' :
  NoDup (V3.keys o) ->
  find (fun kv => String.eqb (fst kv) k') (V3.assign o k v) =
    if String.eqb k k' then Some (k, v)
    else find (fun kv => String.eqb (fst kv) k') o.
Proof.
  unfold V3.keys. induction o as [|[k0 v0] o IH]; intros Hnd; simpl.
  - destruct (String.eqb_spec k k'); done.
  - apply NoDup_cons in Hnd as [Hk0 Hnd].
    destruct (String.eqb_spec k0 k) as [->|Hne]; simpl.
    + destruct (String.eqb_spec k k'); done.
    + rewrite IH by done. destruct (String.eqb_spec k0 k') as [->|Hne'].
      * destruct (String.eqb_spec k k'); [congruence | done].
      * done.
Qed.

Lemma assign_NoDup {V} (o : list (string * V)) k v :
  NoDup (V3.keys o) -> NoDup (V3.keys (V3.assign o k v)).
Proof.
  intros Hnd. rewrite assign_keys. case_bool_decide; [done|].
  apply NoDup_app. split; [done|]. split; [|apply NoDup_singleton].
  intros x Hx ->%list_elem_of_singleton. done.
Qed.

Lemma occurrences_snoc cs c d :
  occurrences (cs ++ [c]) d = occurrences cs d + (if String.eqb (day c) d then 1 else 0).
Proof.
  unfold occurrences. rewrite filter_app, length_app. f_equal.
  destruct (String.eqb_spec (day c) d) as [He|Hne].
  - by rewrite filter_cons_True.
  - by rewrite filter_cons_False.
Qed.

Lemma counted_bump cs o c :
  counted cs o -> counted (cs ++ [c]) (Optimized.bump o (day c)).
Proof.
  intros [Hnd Hfind]. unfold Optimized.bump. split; [by apply assign_NoDup|].
  intros d. rewrite assign_lookup by done. rewrite occurrences_snoc.
  destruct (String.eqb_spec (day c) d) as [<-|Hne].
  - rewrite Hfind. destruct (Nat.eqb_spec (occurrences cs (day c)) 0) as [->|Hpos]; [done|].
    destruct (occurrences cs (day c)) as [|n]; [done|].
    destruct (Nat.eqb_spec (S n + 1) 0); [lia|]. done.
  - rewrite Hfind, Nat.add_0_r. done.
Qed.

Lemma dayCount_counted cs : counted cs (Optimized.dayCount cs).
Proof.
  unfold Optimized.dayCount.
  assert (H : forall cs pre o, counted pre o ->
            counted (pre ++ cs) (fold_left (fun o c => Optimized.bump o (day c)) cs o)).
  { clear cs. induction cs as [|c cs IH]; intros pre o Ho; simpl.
    - by rewrite app_nil_r.
    - rewrite cons_middle, app_assoc. apply IH. by apply counted_bump. }
  apply (H cs [] []). split; [constructor | done].
Qed.

End DayCount.

Section Reduce.
Variable R : nat -> nat -> bool.
Hypothesis R_neg_trans : forall x y z, R x y = false -> R y z = false -> R x z = false.
Hypothesis R_mix : forall r x b, R r x = true -> R r b = false -> R x b = false.

Lemma best_step l r b : best R l r -> best R (l ++ [b]) ((pick R) r b).
Proof.
  intros (pre & post & -> & Hpre & Hpost). unfold pick.
  destruct (R (snd r) (snd b)) eqn:Hrb.
  - exists pre, (post ++ [b])%list. split; [by rewrite <- app_assoc|]. split; [done|].
    intros x [Hx | ->%list_elem_of_singleton]%elem_of_app; [by apply Hpost | done].
  - exists (pre ++ r :: post)%list, []. split; [done|]. split; [|intros x Hx; by apply elem_of_nil in Hx].
    intros x [Hx | [-> | Hx]%elem_of_cons]%elem_of_app.
    + eapply R_neg_trans; [by apply Hpre | done].
    + done.
    + eapply R_mix; [by apply Hpost | done].
Qed.

Lemma best_fold es : forall l r, best R l r -> best R (l ++ es) (fold_left (pick R) es r).
Proof.
  induction es as [|b es IH]; intros l r Hr; simpl.
  - by rewrite app_nil_r.
  - rewrite cons_middle, app_assoc. apply IH. by apply best_step.
Qed.

Lemma best_reduce e es : best R (e :: es) (fold_left (pick R) es e).
Proof.
  apply (best_fold es [e] e). exists [], []. split; [done|].
  split; intros x Hx; by apply elem_of_nil in Hx.
Qed.

End Reduce.

Lemma busier_best e es :
  best (fun x y => y <? x) (e :: es) (fold_left Optimized.busier es e).
Proof.
  apply (best_reduce (fun x y => y <? x)).
  - intros x y z ?%Nat.ltb_ge ?%Nat.ltb_ge. apply Nat.ltb_ge. lia.
  - intros r x b ?%Nat.ltb_lt ?%Nat.ltb_ge. apply Nat.ltb_ge. lia.
Qed.

Lemma lighter_best e es :
  best (fun x y => x <? y) (e :: es) (fold_left Optimized.lighter es e).
Proof.
  apply (best_reduce (fun x y => x <? y)).
  - intros x y z ?%Nat.ltb_ge ?%Nat.ltb_ge. apply Nat.ltb_ge. lia.
  - intros r x b ?%Nat.ltb_lt ?%Nat.ltb_ge. apply Nat.ltb_ge. lia.
Qed.

Lemma counted_entry cs o d n :
  counted cs o -> (d, n) ∈ o -> n = occurrences cs d /\ 0 < n.
Proof.
  intros [Hnd Hfind] Hin. specialize (Hfind d).
  assert (Hf : find (fun kv => String.eqb (fst kv) d) o = Some (d, n)).
  { clear Hfind. unfold V3.keys in Hnd. induction o as [|[k v] o IH]; [by apply elem_of_nil in Hin|].
    simpl in *. apply NoDup_cons in Hnd as [Hk Hnd].
    apply elem_of_cons in Hin as [[= <- <-]|Hin].
    - by rewrite String.eqb_refl.
    - destruct (String.eqb_spec k d) as [->|Hne]; [|by apply IH].
      exfalso. apply Hk. exact (elem_of_map_1 fst o (d, n) Hin). }
  rewrite Hf in Hfind. destruct (Nat.eqb_spec (occurrences cs d) 0); [done|].
  injection Hfind as ->. lia.
Qed.

Lemma counted_nil cs : counted cs [] -> cs = [].
Proof.
  intros [_ Hfind]. destruct cs as [|c cs]; [done|]. specialize (Hfind (day c)).
  simpl in Hfind. unfold occurrences in Hfind. rewrite filter_cons_True in Hfind by done.
  simpl in Hfind. done.
Qed.

Lemma counted_present cs o c :
  counted cs o -> c ∈ cs -> (day c, occurrences cs (day c)) ∈ o.
Proof.
  intros [_ Hfind] Hc. specialize (Hfind (day c)).
  assert (0 < occurrences cs (day c)).
  { unfold occurrences. destruct (filter _ cs) eqn:Hf; [|simpl; lia].
    exfalso. eapply filter_nil_not_elem_of; [exact Hf | | exact Hc]. done. }
  destruct (Nat.eqb_spec (occurrences cs (day c)) 0); [lia|].
  apply find_some in Hfind as [Hin _]. by apply list_elem_of_In.
Qed.

Lemma existsb_elem (x : string) (l : list string) :
  existsb (String.eqb x) l = bool_decide (x ∈ l).
Proof.
  destruct (existsb (String.eqb x) l) eqn:He; symmetry.
  - apply bool_decide_eq_true. apply existsb_exists in He as (y & Hy & ->%String.eqb_eq).
    by apply list_elem_of_In.
  - apply bool_decide_eq_false. intros Hin%list_elem_of_In.
    assert (existsb (String.eqb x) l = true); [|congruence].
    apply existsb_exists. exists x. split; [done | apply String.eqb_refl].
Qed.

Lemma dayCount_keys cs : V3.keys (Optimized.dayCount cs) = Js.uniqueInOrder (map day cs).
Proof.
  unfold Optimized.dayCount, Js.uniqueInOrder.
  assert (H : forall cs o acc, V3.keys o = acc ->
            V3.keys (fold_left (fun o c => Optimized.bump o (day c)) cs o) =
            fold_left (fun acc x => if existsb (String.eqb x) acc then acc
                                    else (acc ++ [x])%list) (map day cs) acc).
  { clear cs. induction cs as [|c cs IH]; intros o acc Ho; simpl; [done|].
    apply IH. unfold Optimized.bump. rewrite assign_keys, existsb_elem, Ho. done. }
  by apply H.
Qed.

Lemma map_fst_split (l : list (string * nat)) pre e post :
  l = (pre ++ e :: post)%list ->
  V3.keys l = (map fst pre ++ fst e :: map fst post)%list.
Proof. intros ->. unfold V3.keys. by rewrite map_app. Qed.

Lemma Optimized_stats_days (cs : list ClassSchedule) :
  cs <> [] ->
  let s := Optimized.calculateStats cs in
  busiestDayCount s = occurrences cs (busiestDay s) /\
  lightestDayCount s = occurrences cs (lightestDay s) /\
  (exists c, c ∈ cs /\ day c = busiestDay s) /\
  (exists c, c ∈ cs /\ day c = lightestDay s).
Proof.
  intros Hne. cbv zeta.
  pose proof (dayCount_counted cs) as Hcnt. unfold Optimized.calculateStats.
  destruct (Optimized.dayCount cs) as [|e es] eqn:Hdc.
  { by apply counted_nil in Hcnt. }
  cbn [totalClasses busiestDay lightestDay busiestDayCount lightestDayCount].
  destruct (busier_best e es) as (pre & post & Heq & _).
  destruct (lighter_best e es) as (pre' & post' & Heq' & _).
  set (b := fold_left Optimized.busier es e) in *. set (l := fold_left Optimized.lighter es e) in *.
  assert (Hb : b ∈ e :: es) by (rewrite Heq; apply elem_of_app; right; left).
  assert (Hl : l ∈ e :: es) by (rewrite Heq'; apply elem_of_app; right; left).
  destruct b as [bd bn], l as [ld ln]. simpl in *.
  destruct (counted_entry cs _ _ _ Hcnt Hb) as [Hbn Hbpos].
  destruct (counted_entry cs _ _ _ Hcnt Hl) as [Hln Hlpos].
  assert (Hday : forall d n, (d, n) ∈ e :: es -> exists c, c ∈ cs /\ day c = d).
  { intros d n Hin. destruct (counted_entry cs _ _ _ Hcnt Hin) as [-> Hpos].
    unfold occurrences in Hpos. destruct (filter _ cs) as [|c f] eqn:Hf; [simpl in Hpos; lia|].
    assert (Hc : c ∈ filter (fun c => day c = d) cs) by (rewrite Hf; left).
    apply list_elem_of_filter in Hc as [? ?]. by exists c. }
  split; [done|]. split; [done|]. split; by eapply Hday.
Qed.

(** X21. PDFParserOptimized.calculateStats, for days that are plain keys
    of an object: the empty list gives the labels N/A; otherwise the counts
    reported are the numbers of classes of the days reported, the lightest
    is at least 1, every day of a class lies between them, and of the days
    of equal count the one that appears last in the list wins. *)
Theorem Optimized_calculateStats_extremes (cs : list ClassSchedule) :
  Forall (fun c => Js.plainKey (day c) = true) cs ->
  let s := Optimized.calculateStats cs in
  (cs = [] -> s = {| totalClasses := 0; busiestDay := "N/A"; lightestDay := "N/A";
                     busiestDayCount := 0; lightestDayCount := 0 |}) /\
  (cs <> [] ->
   totalClasses s = length cs /\
   busiestDayCount s = occurrences cs (busiestDay s) /\
   lightestDayCount s = occurrences cs (lightestDay s) /\
   0 < lightestDayCount s <= busiestDayCount s /\
   (forall c, c ∈ cs ->
      lightestDayCount s <= occurrences cs (day c) <= busiestDayCount s) /\
   (exists c, c ∈ cs /\ day c = busiestDay s) /\
   (exists c, c ∈ cs /\ day c = lightestDay s) /\
   (exists pre post,
      Js.uniqueInOrder (map day cs) = (pre ++ busiestDay s :: post)%list /\
      forall d, d ∈ post -> occurrences cs d < busiestDayCount s) /\
   (exists pre post,
      Js.uniqueInOrder (map day cs) = (pre ++ lightestDay s :: post)%list /\
      forall d, d ∈ post -> lightestDayCount s < occurrences cs d)).
Proof.
  intros _. cbv zeta. split; [by intros ->|]. intros Hne.
  pose proof (dayCount_counted cs) as Hcnt. unfold Optimized.calculateStats.
  destruct (Optimized.dayCount cs) as [|e es] eqn:Hdc.
  { by apply counted_nil in Hcnt. }
  cbn [totalClasses busiestDay lightestDay busiestDayCount lightestDayCount].
  destruct (busier_best e es) as (pre & post & Heq & Hpre & Hpost).
  destruct (lighter_best e es) as (pre' & post' & Heq' & Hpre' & Hpost').
  set (b := fold_left Optimized.busier es e) in *. set (l := fold_left Optimized.lighter es e) in *.
  assert (Hb : b ∈ e :: es) by (rewrite Heq; apply elem_of_app; right; left).
  assert (Hl : l ∈ e :: es) by (rewrite Heq'; apply elem_of_app; right; left).
  destruct b as [bd bn], l as [ld ln]. simpl in *.
  destruct (counted_entry cs _ _ _ Hcnt Hb) as [Hbn Hbpos].
  destruct (counted_entry cs _ _ _ Hcnt Hl) as [Hln Hlpos].
  assert (Hall : forall x, x ∈ e :: es -> ln <= snd x <= bn).
  { intros x Hx. split.
    - rewrite Heq' in Hx. apply elem_of_app in Hx as [Hx | [-> | Hx]%elem_of_cons].
      + apply Hpre', Nat.ltb_ge in Hx. done.
      + simpl. lia.
      + apply Hpost', Nat.ltb_lt in Hx. simpl in Hx. lia.
    - rewrite Heq in Hx. apply elem_of_app in Hx as [Hx | [-> | Hx]%elem_of_cons].
      + apply Hpre, Nat.ltb_ge in Hx. done.
      + simpl. lia.
      + apply Hpost, Nat.ltb_lt in Hx. simpl in Hx. lia. }
  assert (Hday : forall d n, (d, n) ∈ e :: es -> exists c, c ∈ cs /\ day c = d).
  { intros d n Hin. destruct (counted_entry cs _ _ _ Hcnt Hin) as [-> Hpos].
    unfold occurrences in Hpos. destruct (filter _ cs) as [|c f] eqn:Hf; [simpl in Hpos; lia|].
    assert (Hc : c ∈ filter (fun c => day c = d) cs) by (rewrite Hf; left).
    apply list_elem_of_filter in Hc as [? ?]. by exists c. }
  split; [done|]. split; [done|]. split; [done|].
  split; [specialize (Hall _ Hb); simpl in Hall; lia|].
  split; [intros c Hc; apply (Hall (day c, occurrences cs (day c)));
          by apply counted_present|].
  split; [by eapply Hday|]. split; [by eapply Hday|].
  assert (Hpostin : forall post0 pre0 e0 d, e :: es = (pre0 ++ e0 :: post0)%list ->
            d ∈ map fst post0 -> (d, occurrences cs d) ∈ post0).
  { intros post0 pre0 e0 d Hsplit (x & Hx & Hin)%list_elem_of_In%in_map_iff.
    apply list_elem_of_In in Hin. destruct x as [d' n]. simpl in Hx. subst d'.
    destruct (counted_entry cs (e :: es) d n Hcnt) as [-> _]; [|done].
    rewrite Hsplit. apply elem_of_app. right. by right. }
  rewrite <- dayCount_keys, Hdc. split.
  - exists (map fst pre), (map fst post). split; [by apply (map_fst_split _ _ (bd, bn))|].
    intros d Hd. apply (Hpostin _ _ _ _ Heq), Hpost, Nat.ltb_lt in Hd. done.
  - exists (map fst pre'), (map fst post'). split; [by apply (map_fst_split _ _ (ld, ln))|].
    intros d Hd. apply (Hpostin _ _ _ _ Heq'), Hpost', Nat.ltb_lt in Hd. done.
Qed.

Lemma Optimized_values_groupByDay cs :
  V3.values (Optimized.groupByDay cs) =
    map (fun d => filter (fun c => Js.toUpperCase (day c) = d) cs) DAYS.
Proof. reflexivity. Qed.

Lemma Optimized_classes_days text :
  Forall (fun c => day c ∈ map Js.capitalised DAYS) (Optimized.extractClasses text).
Proof.
  apply Forall_forall. intros c Hc.
  destruct (Optimized_classes_read text c Hc) as (i & j & m & H & _).
  destruct H as (_ & Hh & -> & _).
  apply (elem_of_map_1 Js.capitalised DAYS). by apply blockDay_DAYS.
Qed.

Lemma capitalised_day_plain d : d ∈ map Js.capitalised DAYS -> Js.plainKey d = true.
Proof.
  unfold DAYS. simpl. intros H.
  repeat (apply elem_of_cons in H as [-> | H]; [reflexivity|]).
  by apply elem_of_nil in H.
Qed.

Lemma capitalised_day_upper d :
  d ∈ map Js.capitalised DAYS -> Js.toUpperCase d ∈ DAYS /\ Js.capitalised (Js.toUpperCase d) = d.
Proof.
  unfold DAYS. simpl. intros H.
  repeat (apply elem_of_cons in H as [-> | H];
          [split; [vm_compute; set_solver | reflexivity]|]).
  by apply elem_of_nil in H.
Qed.

Lemma filter_ext_in {A} (P Q : A -> Prop) `{!forall x, Decision (P x)}
    `{!forall x, Decision (Q x)} (l : list A) :
  (forall x, x ∈ l -> P x <-> Q x) -> filter P l = filter Q l.
Proof.
  induction l as [|x l IH]; intros Hall; [done|].
  rewrite !filter_cons. rewrite IH by (intros y Hy; apply Hall; by right).
  destruct (decide (P x)) as [Hp|Hp], (decide (Q x)) as [Hq|Hq]; try done.
  - exfalso. apply Hq, Hall; [left | done].
  - exfalso. apply Hp, Hall; [left | done].
Qed.

(** X22. PDFParserOptimized.groupByDay compares the days in upper case:
    its seven groups hold, each once, the classes whose day is a weekday in
    any case. *)
Theorem Optimized_groupByDay_buckets (cs : list ClassSchedule) :
  V3.keys (Optimized.groupByDay cs) = map Js.capitalised DAYS /\
  V3.values (Optimized.groupByDay cs) =
    map (fun d => filter (fun c => Js.toUpperCase (day c) = d) cs) DAYS /\
  concat (V3.values (Optimized.groupByDay cs))
    ≡ₚ filter (fun c => Js.toUpperCase (day c) ∈ DAYS) cs /\
  (Forall (fun c => Js.toUpperCase (day c) ∈ DAYS) cs ->
   concat (V3.values (Optimized.groupByDay cs)) ≡ₚ cs).
Proof.
  split; [reflexivity|]. split; [reflexivity|].
  pose proof (buckets_perm (fun c => Js.toUpperCase (day c)) DAYS cs DAYS_NoDup) as Hperm.
  split; [by rewrite Optimized_values_groupByDay|].
  intros Hall. rewrite Optimized_values_groupByDay, Hperm. by rewrite filter_all.
Qed.

(** X23. On the classes PDFParserOptimized extracts, groupByDay loses
    none, and the busiest and the lightest day of calculateStats are keys
    of groupByDay whose groups have the counts reported. *)
Theorem Optimized_parsed_classes_group_and_count (text : string) :
  let cs := Optimized.extractClasses text in
  let s := Optimized.calculateStats cs in
  Forall (fun c => Js.plainKey (day c) = true) cs /\
  concat (V3.values (Optimized.groupByDay cs)) ≡ₚ cs /\
  (cs <> [] ->
   busiestDay s ∈ V3.keys (Optimized.groupByDay cs) /\
   lightestDay s ∈ V3.keys (Optimized.groupByDay cs) /\
   (busiestDay s, filter (fun c => day c = busiestDay s) cs) ∈ Optimized.groupByDay cs /\
   (lightestDay s, filter (fun c => day c = lightestDay s) cs) ∈ Optimized.groupByDay cs /\
   busiestDayCount s = length (filter (fun c => day c = busiestDay s) cs) /\
   lightestDayCount s = length (filter (fun c => day c = lightestDay s) cs)).
Proof.
  cbv zeta. set (cs := Optimized.extractClasses text).
  pose proof (Optimized_classes_days text) as Hdays. fold cs in Hdays.
  assert (Hplain : Forall (fun c => Js.plainKey (day c) = true) cs).
  { eapply Forall_impl; [exact Hdays|]. intros c. apply capitalised_day_plain. }
  split; [done|]. split.
  { rewrite Optimized_values_groupByDay,
      (buckets_perm (fun c => Js.toUpperCase (day c)) DAYS cs DAYS_NoDup).
    rewrite filter_all; [done|]. eapply Forall_impl; [exact Hdays|].
    intros c Hc. by apply capitalised_day_upper. }
  intros Hne.
  destruct (Optimized_stats_days cs Hne) as (Hb & Hl & (cb & Hcb & Hdb) & (cl & Hcl & Hdl)).
  assert (Hgroup : forall c, c ∈ cs ->
            (day c, filter (fun c' => day c' = day c) cs) ∈ Optimized.groupByDay cs).
  { intros c Hc. pose proof (proj1 (Forall_forall _ _) Hdays c Hc) as Hd.
    destruct (capitalised_day_upper _ Hd) as [Hup Hcap].
    replace (filter (fun c' => day c' = day c) cs)
      with (filter (fun c' => Js.toUpperCase (day c') = Js.toUpperCase (day c)) cs).
    2:{ apply filter_ext_in. intros x Hx. split; [|by intros ->].
        apply upper_day_inj; [|done]. by apply (proj1 (Forall_forall _ _) Hdays). }
    rewrite <- Hcap at 1. revert Hup. generalize (Js.toUpperCase (day c)). intros d Hd'.
    unfold DAYS in Hd'.
    repeat (apply elem_of_cons in Hd' as [-> | Hd'];
            [unfold Optimized.groupByDay; simpl;
             repeat first [apply list_elem_of_here | apply list_elem_of_further]|]).
    by apply elem_of_nil in Hd'. }
  assert (Hkey : forall c, c ∈ cs -> day c ∈ V3.keys (Optimized.groupByDay cs)).
  { intros c Hc. by apply (proj1 (Forall_forall _ _) Hdays). }
  rewrite <- Hdb in Hb |- *. rewrite <- Hdl in Hl |- *.
  split; [by apply Hkey|]. split; [by apply Hkey|].
  split; [by apply Hgroup|]. split; [by apply Hgroup|]. done.
Qed.

(* ===================================================================== *)
(** ** PDFParserOptimized: the cache in memory *)
(* ===================================================================== *)

Section MemoryCacheFacts.
Variable net : Outside.

Lemma download_outcome url m w :
  OptimizedUrl.download net url m w = downloadOutcome net url m w.
Proof.
  unfold OptimizedUrl.download, downloadOutcome, V3Url.axiosGet, V3Url.fsWriteFile,
    V3Url.execPdftotext, V3Url.fsUnlink, logged.
  unfold mbind, M_bind, mret, M_ret, bind, attempt, emit, ofSum, newDate, throw, ret.
  simpl.
  destruct (httpGet net url) as [cause|data]; simpl; [by rewrite <- !app_assoc|].
  destruct (writeFile net _ data) as [cause|]; simpl.
  - by rewrite <- !app_assoc.
  - destruct (pdftotext net data) as [cause|text]; simpl; by rewrite <- !app_assoc.
Qed.

End MemoryCacheFacts.

Section MemoryCacheLemmas.

Lemma mapGet_assign (m : OptimizedUrl.MemoryCache) url v :
  OptimizedUrl.mapGet (V3.assign m url v) url = Some v.
Proof.
  unfold OptimizedUrl.mapGet. induction m as [|[k x] m IH]; simpl.
  - by rewrite String.eqb_refl.
  - destruct (String.eqb_spec k url) as [->|Hne]; simpl.
    + by rewrite String.eqb_refl.
    + destruct (String.eqb_spec k url); [done | exact IH].
Qed.

Lemma mapGet_delete (m : OptimizedUrl.MemoryCache) url k :
  k <> url -> OptimizedUrl.mapGet (OptimizedUrl.mapDelete m k) url = OptimizedUrl.mapGet m url.
Proof.
  intros Hne. unfold OptimizedUrl.mapGet, OptimizedUrl.mapDelete. induction m as [|[k' x] m IH]; [done|].
  destruct (decide (k' = k)) as [->|Hk].
  - rewrite (filter_cons_False (fun kv : string * OptimizedUrl.Cached => fst kv ≠ k)) by (simpl; intros Hkk; by apply Hkk). simpl.
    destruct (String.eqb_spec k url); [done | exact IH].
  - rewrite (filter_cons_True (fun kv : string * OptimizedUrl.Cached => fst kv ≠ k)) by done. simpl.
    destruct (String.eqb_spec k' url); [done | exact IH].
Qed.

Lemma assign_length (m : OptimizedUrl.MemoryCache) url v :
  length (V3.assign m url v) =
    if bool_decide (url ∈ cacheKeys m) then length m else S (length m).
Proof.
  pose proof (assign_keys m url v) as H. apply (f_equal length) in H.
  unfold V3.keys in H. rewrite length_map in H. rewrite H. unfold cacheKeys.
  case_bool_decide; rewrite ?length_app, length_map; simpl; lia.
Qed.

Lemma assign_elem (m : OptimizedUrl.MemoryCache) url v kv :
  kv ∈ V3.assign m url v -> kv ∈ m \/ kv = (url, v).
Proof.
  induction m as [|[k x] m IH]; simpl.
  - intros ->%list_elem_of_singleton. by right.
  - destruct (String.eqb_spec k url) as [->|Hne].
    + intros [->|?]%elem_of_cons; [by right | left; by right].
    + intros [->|Hin]%elem_of_cons; [left; left|].
      destruct (IH Hin); [left; by right | by right].
Qed.

(** The first of the sorted entries is the first of the oldest. *)
Lemma sort_head (m : OptimizedUrl.MemoryCache) :
  match OptimizedUrl.sortByTimestamp m with
  | [] => m = []
  | o :: _ =>
      exists pre post, m = (pre ++ o :: post)%list /\
        (forall x, x ∈ pre -> (OptimizedUrl.timestamp (snd o) < OptimizedUrl.timestamp (snd x))%Z) /\
        (forall x, x ∈ post -> (OptimizedUrl.timestamp (snd o) <= OptimizedUrl.timestamp (snd x))%Z)
  end.
Proof.
  induction m as [|x m IH]; [done|]. simpl.
  destruct (OptimizedUrl.sortByTimestamp m) as [|o s]; simpl.
  - subst m. exists [], []. split; [done|].
    split; intros y Hy; by apply elem_of_nil in Hy.
  - destruct IH as (pre & post & -> & Hpre & Hpost).
    destruct (Z.ltb_spec (OptimizedUrl.timestamp (snd o)) (OptimizedUrl.timestamp (snd x))) as [Hlt|Hge].
    + exists (x :: pre), post. split; [done|]. split; [|done].
      intros y [->|Hy]%elem_of_cons; [done | by apply Hpre].
    + exists [], (pre ++ o :: post)%list. split; [done|].
      split; [intros y Hy; by apply elem_of_nil in Hy|].
      intros y [Hy | [-> | Hy]%elem_of_cons]%elem_of_app.
      * specialize (Hpre y Hy). lia.
      * done.
      * specialize (Hpost y Hy). lia.
Qed.

Lemma delete_length (m : OptimizedUrl.MemoryCache) k :
  NoDup (cacheKeys m) -> k ∈ cacheKeys m -> S (length (OptimizedUrl.mapDelete m k)) = length m.
Proof.
  unfold cacheKeys, OptimizedUrl.mapDelete. induction m as [|[k' x] m IH]; intros Hnd Hin.
  - by apply elem_of_nil in Hin.
  - simpl in Hnd. apply NoDup_cons in Hnd as [Hk Hnd].
    destruct (decide (k' = k)) as [->|Hne].
    + rewrite (filter_cons_False (fun kv : string * OptimizedUrl.Cached => fst kv ≠ k)) by (simpl; intros Hkk; by apply Hkk). simpl. f_equal.
      clear IH Hin. induction m as [|[k2 y] m IH]; [done|].
      simpl in Hk, Hnd. apply not_elem_of_cons in Hk as [Hk1 Hk2].
      apply NoDup_cons in Hnd as [_ Hnd].
      rewrite (filter_cons_True (fun kv : string * OptimizedUrl.Cached => fst kv ≠ k)) by (simpl; congruence). simpl. f_equal. by apply IH.
    + rewrite (filter_cons_True (fun kv : string * OptimizedUrl.Cached => fst kv ≠ k)) by done. simpl. f_equal. apply IH; [done|].
      simpl in Hin. apply elem_of_cons in Hin as [?|?]; [congruence | done].
Qed.

Lemma delete_keys (m : OptimizedUrl.MemoryCache) k :
  cacheKeys (OptimizedUrl.mapDelete m k) = filter (fun x => x ≠ k) (cacheKeys m).
Proof.
  unfold cacheKeys, OptimizedUrl.mapDelete. induction m as [|[k' x] m IH]; [done|].
  cbn [map fst]. destruct (decide (k' = k)) as [->|Hne].
  - rewrite (filter_cons_False (fun kv : string * OptimizedUrl.Cached => fst kv ≠ k))
      by (simpl; intros Hkk; by apply Hkk).
    by rewrite (filter_cons_False (fun x : string => x ≠ k)) by (intros Hkk; by apply Hkk).
  - rewrite (filter_cons_True (fun kv : string * OptimizedUrl.Cached => fst kv ≠ k)) by done.
    rewrite (filter_cons_True (fun x : string => x ≠ k)) by done.
    simpl. f_equal. exact IH.
Qed.

Lemma evict_ok now (m : OptimizedUrl.MemoryCache) :
  length m <= 6 -> NoDup (cacheKeys m) ->
  Forall (fun kv => (OptimizedUrl.timestamp (snd kv) <= now)%Z) m ->
  cacheOK now (OptimizedUrl.evict m).
Proof.
  intros Hlen Hnd Hts. unfold OptimizedUrl.evict.
  destruct (Nat.ltb_spec 5 (length m)) as [Hbig|Hsmall]; [|by split; [lia|]].
  pose proof (sort_head m) as Hhead.
  destruct (OptimizedUrl.sortByTimestamp m) as [|o s]; [by split; [subst m; simpl; lia|]|].
  destruct Hhead as (pre & post & Heq & _).
  assert (Hin : fst o ∈ cacheKeys m).
  { rewrite Heq. unfold cacheKeys. rewrite map_app. apply elem_of_app. right. left. }
  pose proof (delete_length m (fst o) Hnd Hin). split; [lia|]. split.
  - rewrite delete_keys. by apply NoDup_filter.
  - apply Forall_forall. intros kv [_ Hkv]%list_elem_of_filter.
    by apply (proj1 (Forall_forall _ _) Hts).
Qed.

Lemma assign_ok now (m : OptimizedUrl.MemoryCache) url v :
  cacheOK now m -> (OptimizedUrl.timestamp v <= now)%Z ->
  length (V3.assign m url v) <= 6 /\ NoDup (cacheKeys (V3.assign m url v)) /\
  Forall (fun kv => (OptimizedUrl.timestamp (snd kv) <= now)%Z) (V3.assign m url v).
Proof.
  intros (Hlen & Hnd & Hts) Hv. split; [|split].
  - rewrite assign_length. case_bool_decide; lia.
  - by apply (assign_NoDup m url v).
  - apply Forall_forall. intros kv [Hin | ->]%assign_elem; [|done].
    by apply (proj1 (Forall_forall _ _) Hts).
Qed.

(** The entry just stored is not the one deleted. *)
Lemma evict_keeps_new now (m : OptimizedUrl.MemoryCache) url v :
  cacheOK now m -> OptimizedUrl.timestamp v = now ->
  OptimizedUrl.mapGet (OptimizedUrl.evict (V3.assign m url v)) url = Some v.
Proof.
  intros (Hlen & Hnd & Hts) Hv. unfold OptimizedUrl.evict.
  destruct (Nat.ltb_spec 5 (length (V3.assign m url v))) as [Hbig|Hsmall];
    [|apply mapGet_assign].
  rewrite assign_length in Hbig. case_bool_decide as Hin; [lia|].
  assert (Hm : V3.assign m url v = (m ++ [(url, v)])%list).
  { clear -Hin. unfold cacheKeys in Hin. induction m as [|[k x] m IH]; [done|].
    simpl in *. apply not_elem_of_cons in Hin as [Hne Hin].
    destruct (String.eqb_spec k url); [congruence|]. by rewrite IH. }
  pose proof (sort_head (V3.assign m url v)) as Hhead.
  destruct (OptimizedUrl.sortByTimestamp (V3.assign m url v)) as [|o s];
    [apply mapGet_assign|].
  destruct Hhead as (pre & post & Heq & Hpre & Hpost).
  rewrite mapGet_delete; [apply mapGet_assign|].
  intros Ho.
  pose proof (assign_NoDup m url v Hnd) as Hnd'. unfold V3.keys in Hnd'.
  rewrite Heq, map_app in Hnd'. apply NoDup_app in Hnd' as (_ & _ & Hnd').
  simpl in Hnd'. apply NoDup_cons in Hnd' as [Hopost _].
  rewrite Hm in Heq.
  assert (Hpost_nil : post = []).
  { destruct (rev post) as [|z zs] eqn:Hrev.
    - apply (f_equal (@rev _)) in Hrev. by rewrite rev_involutive in Hrev.
    - exfalso. apply Hopost.
      apply (f_equal (@rev _)) in Heq. rewrite !rev_app_distr in Heq. simpl in Heq.
      rewrite Hrev in Heq. simpl in Heq. injection Heq as Hz _.
      rewrite Ho. replace url with (fst z) by (by rewrite <- Hz).
      apply elem_of_map_1. apply list_elem_of_In, in_rev. rewrite Hrev. by left. }
  subst post. apply app_inj_tail in Heq as [-> <-].
  destruct pre as [|e pre]; [simpl in Hbig; lia|].
  assert (Hlt := Hpre e (list_elem_of_here _ _)).
  assert (Hle := proj1 (Forall_forall _ _) Hts e (list_elem_of_here _ _)).
  simpl in Hlt, Hle. lia.
Qed.

End MemoryCacheLemmas.

Section MemoryCacheTheorems.
Variable net : Outside.

Lemma parsePDFFromURL_miss url m w :
  misses m url (clock w) ->
  OptimizedUrl.parsePDFFromURL net url m w =
    match downloadOutcome net url m w with
    | (Returned (result, m'), w') => (Returned result, m', w')
    | (Threw e, w') => (Threw e, m, w')
    end.
Proof.
  unfold misses, OptimizedUrl.parsePDFFromURL. intros Hmiss.
  unfold mbind at 1, M_bind at 1, bind at 1, newDate at 1.
  destruct (OptimizedUrl.mapGet m url) as [cached|]; [|by rewrite download_outcome].
  destruct (Z.ltb_spec (clock w - OptimizedUrl.timestamp cached) OptimizedUrl.MEMORY_CACHE_TTL); [lia|].
  by rewrite download_outcome.
Qed.

Lemma parsePDFFromURL_hit url m w cached :
  OptimizedUrl.mapGet m url = Some cached ->
  (clock w - OptimizedUrl.timestamp cached < OptimizedUrl.MEMORY_CACHE_TTL)%Z ->
  OptimizedUrl.parsePDFFromURL net url m w = (Returned (OptimizedUrl.data cached), m, w).
Proof.
  unfold OptimizedUrl.parsePDFFromURL. intros Hget Hfresh.
  unfold mbind at 1, M_bind at 1, bind at 1, newDate at 1. rewrite Hget.
  destruct (Z.ltb_spec (clock w - OptimizedUrl.timestamp cached) OptimizedUrl.MEMORY_CACHE_TTL); [done | lia].
Qed.

(** X24. PDFParserOptimized.parsePDFFromURL: a call that misses the
    cache in memory and succeeds downloads once and stores the document
    with the time of the call; a call for the same URL within the next five
    minutes returns the same document and asks nothing of the outside. *)
Theorem memory_cache_serves_the_next_call (url : string) (m : OptimizedUrl.MemoryCache) (w : World)
    (data text : string) :
  cacheOK (clock w) m ->
  misses m url (clock w) ->
  httpGet net url = inr data ->
  writeFile net (tempPath net (clock w)) data = None ->
  pdftotext net data = inr text ->
  exists m' w',
    OptimizedUrl.parsePDFFromURL net url m w = (Returned (OptimizedUrl.parsedOf text), m', w') /\
    parseCount w' = S (parseCount w) /\
    cacheOK (clock w') m' /\
    OptimizedUrl.mapGet m' url =
      Some {| OptimizedUrl.data := OptimizedUrl.parsedOf text; OptimizedUrl.timestamp := clock w |} /\
    forall dt, (0 <= dt < OptimizedUrl.MEMORY_CACHE_TTL)%Z ->
      OptimizedUrl.parsePDFFromURL net url m' (snd (wait dt w')) =
        (Returned (OptimizedUrl.parsedOf text), m', snd (wait dt w')).
Proof.
  intros Hok Hmiss Hget Hwrite Htext.
  rewrite parsePDFFromURL_miss by done. unfold downloadOutcome.
  rewrite Hget, Hwrite, Htext.
  set (v := {| OptimizedUrl.data := OptimizedUrl.parsedOf text; OptimizedUrl.timestamp := clock w |}).
  eexists _, _. split; [reflexivity|].
  split; [unfold parseCount; simpl; rewrite filter_app, length_app; simpl; lia|].
  assert (Hv : OptimizedUrl.mapGet (OptimizedUrl.evict (V3.assign m url v)) url = Some v)
    by (by apply (evict_keeps_new (clock w))).
  split; [|split; [done|]].
  - simpl. destruct (assign_ok (clock w) m url v Hok) as (H1 & H2 & H3); [simpl; lia|].
    by apply evict_ok.
  - intros dt Hdt. apply (parsePDFFromURL_hit _ _ _ v); [done|]. simpl. lia.
Qed.

(** X25. The cache in memory never holds more than five documents nor two
    for one URL; a call that throws leaves it as it was, its error is
    [Failed to parse PDF: ...], and the temporary file is unlinked last even
    when the download itself failed. *)
Theorem memory_cache_stays_small (url : string) (m : OptimizedUrl.MemoryCache) (w : World) :
  cacheOK (clock w) m ->
  let '(outcome, m', w') := OptimizedUrl.parsePDFFromURL net url m w in
  cacheOK (clock w') m' /\
  clock w' = clock w /\ store w' = store w /\
  (forall e, outcome = Threw e ->
     m' = m /\ last (trace w') = Some (Unlink (tempPath net (clock w))) /\
     exists cause, e = V3Url.failed cause) /\
  (trace w' = trace w \/
   exists evs, trace w' = (trace w ++ Download url :: evs ++
                                      [Unlink (tempPath net (clock w))])%list).
Proof.
  intros Hok.
  destruct (OptimizedUrl.mapGet m url) as [cached|] eqn:Hget.
  - destruct (Z.ltb_spec (clock w - OptimizedUrl.timestamp cached) OptimizedUrl.MEMORY_CACHE_TTL) as [Hf|Hs].
    + rewrite (parsePDFFromURL_hit url m w cached) by done.
      split; [done|]. split; [done|]. split; [done|]. split; [done | by left].
    + rewrite parsePDFFromURL_miss by (unfold misses; by rewrite Hget).
      unfold downloadOutcome.
      destruct (httpGet net url) as [cause|data];
        [|destruct (writeFile net _ data) as [cause|];
          [|destruct (pdftotext net data) as [cause|text]]].
      all: cbn [clock store trace logged].
      all: split; [first [done | destruct (assign_ok (clock w) m url
             {| OptimizedUrl.data := OptimizedUrl.parsedOf text; OptimizedUrl.timestamp := clock w |} Hok)
             as (H1 & H2 & H3); [simpl; lia | by apply evict_ok]]|].
      all: split; [done|]. all: split; [done|].
      all: split; [intros e [= <-] || (intros e He; discriminate He)|].
      all: try (split; [done|]; split; [by rewrite last_app | by eexists]).
      all: right.
      1: by exists [].
      1: by exists [WriteFile (tempPath net (clock w))].
      1,2: by exists [WriteFile (tempPath net (clock w)); Pdftotext (tempPath net (clock w))].
  - rewrite parsePDFFromURL_miss by (unfold misses; by rewrite Hget).
    unfold downloadOutcome.
    destruct (httpGet net url) as [cause|data];
      [|destruct (writeFile net _ data) as [cause|];
        [|destruct (pdftotext net data) as [cause|text]]].
    all: cbn [clock store trace logged].
    all: split; [first [done | destruct (assign_ok (clock w) m url
           {| OptimizedUrl.data := OptimizedUrl.parsedOf text; OptimizedUrl.timestamp := clock w |} Hok)
           as (H1 & H2 & H3); [simpl; lia | by apply evict_ok]]|].
    all: split; [done|]. all: split; [done|].
    all: split; [intros e [= <-] || (intros e He; discriminate He)|].
    all: try (split; [done|]; split; [by rewrite last_app | by eexists]).
    all: right.
    1: by exists [].
    1: by exists [WriteFile (tempPath net (clock w))].
    1,2: by exists [WriteFile (tempPath net (clock w)); Pdftotext (tempPath net (clock w))].
Qed.

End MemoryCacheTheorems.

(* ===================================================================== *)
(** ** FacultyScraper: generateInitials *)
(* ===================================================================== *)

Section Initials.












Lemma toUpperCase_append s t :
  Js.toUpperCase (s +:+ t) = Js.toUpperCase s +:+ Js.toUpperCase t.
Proof.
  unfold Js.toUpperCase. induction s as [|c s IH]; [done|].
  rewrite append_String. simpl. by rewrite IH, append_String.
Qed.



End Initials.

(* ===================================================================== *)
(** ** PDFParser: filterByBatchSection *)
(* ===================================================================== *)

Section LegacyFilters.

Lemma digits_upper b :
  madeOf Js.isDigit b -> Js.toUpperCase b = b.
Proof.
  unfold madeOf, Js.toUpperCase. induction b as [|c b IH]; intros H; [done|].
  simpl in H. apply Forall_cons in H as [Hc H]. simpl. rewrite IH by done. f_equal.
  unfold Js.upperChar. destruct (Js.isLower c) eqn:Hl; [|done].
  destruct c as [[] [] [] [] [] [] [] []]; vm_compute in Hc, Hl; discriminate.
Qed.

Lemma letter_upper c :
  isLetter c = true ->
  Js.isSpace (Js.upperChar c) = false /\ Ascii.eqb (Js.upperChar c) "_" = false.
Proof.
  destruct c as [[] [] [] [] [] [] [] []]; vm_compute; intros H; try discriminate H; done.
Qed.

Lemma digit_clean c :
  Js.isDigit c = true -> Js.isSpace c = false /\ Ascii.eqb c "_" = false.
Proof.
  destruct c as [[] [] [] [] [] [] [] []]; vm_compute; intros H; try discriminate H; done.
Qed.

Lemma spacesToUnderscore_clean s t :
  clean s -> Js.spacesToUnderscore (s +:+ t) = s +:+ Js.spacesToUnderscore t.
Proof.
  unfold clean. induction s as [|c s IH]; intros H; [by rewrite !append_empty|].
  simpl in H. apply Forall_cons in H as [[Hc _] H].
  rewrite !append_String. cbn [Js.spacesToUnderscore]. by rewrite Hc, IH.
Qed.

Lemma spacesToUnderscore_clean_only s : clean s -> Js.spacesToUnderscore s = s.
Proof.
  unfold clean. induction s as [|c s IH]; intros H; [done|].
  simpl in H. apply Forall_cons in H as [[Hc _] H].
  cbn [Js.spacesToUnderscore]. by rewrite Hc, IH.
Qed.

Lemma splitOn_clean s t :
  clean s ->
  Js.splitOn "_" (s +:+ t) =
    match Js.splitOn "_" t with
    | hd :: tl => (s +:+ hd) :: tl
    | [] => [s]
    end.
Proof.
  unfold clean. induction s as [|c s IH]; intros H.
  - rewrite append_empty. destruct (Js.splitOn "_" t) as [|hd tl] eqn:Ht.
    + destruct t as [|d t']; simpl in Ht; [done|].
      destruct (Ascii.eqb d "_"); [done|]. by destruct (Js.splitOn "_" t').
    + by rewrite append_empty.
  - simpl in H. apply Forall_cons in H as [[_ Hc] H]. rewrite append_String.
    cbn [Js.splitOn]. rewrite Hc, (IH H).
    destruct (Js.splitOn "_" t) as [|hd tl]; [done|]. by rewrite append_String.
Qed.

Lemma sliceInit_cons d x :
  x <> "" -> Js.sliceInit (String d x) = String d (Js.sliceInit x).
Proof. by destruct x. Qed.

Lemma sliceLast_cons d x :
  x <> "" -> Js.sliceLast (String d x) = Js.sliceLast x.
Proof. by destruct x. Qed.

Lemma slice_snoc s c :
  Js.sliceInit (s +:+ String c "") = s /\ Js.sliceLast (s +:+ String c "") = String c "".
Proof.
  induction s as [|d s [IH1 IH2]]; [done|]. rewrite append_String.
  assert (Hne : s +:+ String c "" <> "") by (by destruct s).
  by rewrite sliceInit_cons, sliceLast_cons, IH1, IH2.
Qed.

Lemma append_nil_r (s : string) : s +:+ "" = s.
Proof. induction s as [|c s IH]; [done|]. by rewrite append_String, IH. Qed.

Lemma digits_clean b : madeOf Js.isDigit b -> clean b.
Proof.
  unfold madeOf, clean. intros H. eapply Forall_impl; [exact H|].
  intros c. apply digit_clean.
Qed.

(** X27. PDFParser.filterByBatchSection reads a batch of digits and a
    section letter in four spellings, [71_I], [71 I], with a run of spaces,
    and [71I], in either case of the letter, as the same batch and
    section. *)
Theorem PDFParser_filterByBatchSection_spellings (schedules : list PDFParser.ClassSchedule)
    (b : string) (c : ascii) :
  madeOf Js.isDigit b -> isLetter c = true ->
  let wanted := filter (fun s => PDFParser.batch s = b /\
                                 PDFParser.section s = String (Js.upperChar c) "") schedules in
  PDFParser.filterByBatchSection schedules (b +:+ "_" +:+ String c "") = wanted /\
  PDFParser.filterByBatchSection schedules (b +:+ " " +:+ String c "") = wanted /\
  PDFParser.filterByBatchSection schedules (b +:+ "  " +:+ String c "") = wanted /\
  PDFParser.filterByBatchSection schedules (b +:+ String c "") = wanted.
Proof.
  intros Hb Hc. cbv zeta.
  pose proof (digits_clean b Hb) as Hclean.
  destruct (letter_upper c Hc) as [Hsp Hun].
  unfold PDFParser.filterByBatchSection. cbv zeta.
  rewrite !toUpperCase_append, (digits_upper b Hb).
  change (Js.toUpperCase (String c "")) with (String (Js.upperChar c) "").
  change (Js.toUpperCase "_") with "_".
  change (Js.toUpperCase " ") with " ". change (Js.toUpperCase "  ") with "  ".
  rewrite (spacesToUnderscore_clean b ("_" +:+ String (Js.upperChar c) "") Hclean).
  rewrite (spacesToUnderscore_clean b (" " +:+ String (Js.upperChar c) "") Hclean).
  rewrite (spacesToUnderscore_clean b ("  " +:+ String (Js.upperChar c) "") Hclean).
  rewrite (spacesToUnderscore_clean b (String (Js.upperChar c) "") Hclean).
  assert (H1 : Js.spacesToUnderscore ("_" +:+ String (Js.upperChar c) "")
               = "_" +:+ String (Js.upperChar c) "").
  { change ("_" +:+ String (Js.upperChar c) "") with (String "_" (String (Js.upperChar c) "")).
    cbn [Js.spacesToUnderscore]. simpl. by rewrite Hsp. }
  assert (H2 : Js.spacesToUnderscore (" " +:+ String (Js.upperChar c) "")
               = "_" +:+ String (Js.upperChar c) "").
  { change (" " +:+ String (Js.upperChar c) "") with (String " " (String (Js.upperChar c) "")).
    cbn [Js.spacesToUnderscore]. simpl. by rewrite Hsp. }
  assert (H3 : Js.spacesToUnderscore ("  " +:+ String (Js.upperChar c) "")
               = "_" +:+ String (Js.upperChar c) "").
  { change ("  " +:+ String (Js.upperChar c) "")
      with (String " " (String " " (String (Js.upperChar c) ""))).
    cbn [Js.spacesToUnderscore]. simpl. by rewrite Hsp. }
  assert (H4 : Js.spacesToUnderscore (String (Js.upperChar c) "") = String (Js.upperChar c) "").
  { cbn [Js.spacesToUnderscore]. by rewrite Hsp. }
  rewrite H1, H2, H3, H4.
  assert (Hsplit : Js.splitOn "_" (b +:+ "_" +:+ String (Js.upperChar c) "")
                   = [b; String (Js.upperChar c) ""]).
  { rewrite splitOn_clean by done.
    change ("_" +:+ String (Js.upperChar c) "") with (String "_" (String (Js.upperChar c) "")).
    cbn [Js.splitOn]. simpl. rewrite Hun. by rewrite append_nil_r. }
  assert (Hone : Js.splitOn "_" (b +:+ String (Js.upperChar c) "")
                 = [b +:+ String (Js.upperChar c) ""]).
  { rewrite splitOn_clean by done. cbn [Js.splitOn]. by rewrite Hun. }
  rewrite Hsplit, Hone. destruct (slice_snoc b (Js.upperChar c)) as [-> ->]. done.
Qed.

End LegacyFilters.

(* ===================================================================== *)
(** ** The noticeboard *)
(* ===================================================================== *)

Section NoticeboardFacts.
Import Noticeboard.

Lemma contains_trans s t u : contains s t -> contains t u -> contains s u.
Proof.
  intros (p1 & q1 & ->) (p2 & q2 & ->). exists (p1 +:+ p2), (q2 +:+ q1).
  clear. induction p1 as [|c p1 IH]; rewrite ?append_empty, ?append_String.
  - induction p2 as [|c p2 IH]; rewrite ?append_empty, ?append_String; [|by rewrite IH].
    induction u as [|c u IH]; rewrite ?append_empty, ?append_String; [done | by rewrite IH].
  - by rewrite IH.
Qed.

Lemma includes_trans s t u :
  Js.includes s t = true -> contains t u -> Js.includes s u = true.
Proof.
  intros Hs Ht. apply includes_spec. apply includes_spec in Hs. by eapply contains_trans.
Qed.


Lemma departmentOf_found text :
  departmentOf text <> "unknown" ->
  departmentOf text ∈ departments /\
  mentions text (keywordsOf (departmentOf text)) = true.
Proof.
  unfold departmentOf. destruct (find _ DEPARTMENT_KEYWORDS) as [entry|] eqn:Hf; [|done].
  intros _. apply find_some in Hf as [Hin Hm]. split.
  - apply (elem_of_map_1 fst). by apply list_elem_of_In.
  - unfold DEPARTMENT_KEYWORDS in Hin. simpl in Hin.
    repeat (destruct Hin as [<- | Hin]; [exact Hm|]). done.
Qed.


End NoticeboardFacts.

Section NoticeboardCalls.
Import Noticeboard.
Variable net : Outside.
Variable anchorsOf : string -> list Anchor.

Lemma routineOf_shape now a r :
  routineOf now a = Some r ->
  department r ∈ departments /\ isRoutineNotice (title r) = true /\
  mentions (title r) (keywordsOf (department r)) = true /\
  title r = Js.trim (anchorText a) /\ title r <> "" /\
  pdfUrl r = "" /\ date r = now /\
  exists href, anchorHref a = Some href /\ href <> "".
Proof.
  unfold routineOf. cbv zeta.
  destruct (anchorHref a) as [href|]; [|done].
  destruct (String.eqb_spec href "") as [|Hhref]; [done|].
  destruct (String.eqb_spec (Js.trim (anchorText a)) "") as [|Htext]; [done|]. simpl.
  destruct (isRoutineNotice _) eqn:Hr; [|done].
  destruct (String.eqb_spec (departmentOf (Js.trim (anchorText a))) "unknown") as [|Hd];
    [done|].
  intros [= <-]. simpl.
  destruct (departmentOf_found (Js.trim (anchorText a)) Hd) as [Hin Hm].
  split; [done|]. split; [done|]. split; [done|]. split; [done|]. split; [done|].
  split; [done|]. split; [done|]. by exists href.
Qed.

(** X29. scrapeNoticeboardRoutines never throws and downloads the
    noticeboard once; the routines it returns are notices of a routine of a
    known department, in the order of the page, without a PDF address; when
    the download fails it returns none. *)
Theorem scrapeNoticeboardRoutines_is_safe (w : World) :
  exists routines,
    scrapeNoticeboardRoutines net anchorsOf w =
      (Returned routines, logged w [Download noticeboard]) /\
    Forall (fun r => department r ∈ departments /\
                     isRoutineNotice (title r) = true /\
                     mentions (title r) (keywordsOf (department r)) = true /\
                     title r <> "" /\ pdfUrl r = "" /\ date r = clock w) routines /\
    (forall cause, httpGet net noticeboard = inl cause -> routines = []) /\
    (forall html, httpGet net noticeboard = inr html ->
       map title routines `sublist_of` map (fun a => Js.trim (anchorText a)) (anchorsOf html)).
Proof.
  unfold scrapeNoticeboardRoutines, V3Url.axiosGet.
  unfold mbind, M_bind, mret, M_ret, bind, attempt, emit, ofSum, newDate, throw, ret, logged.
  simpl. destruct (httpGet net noticeboard) as [cause|html]; simpl.
  - exists []. split; [done|]. split; [constructor|]. split; [done | done].
  - eexists. split; [done|]. split; [|split; [done|]].
    + apply Forall_forall. intros r (a & Ha & Hr)%list_elem_of_omap.
      destruct (routineOf_shape _ _ _ Hr) as (H1 & H2 & H3 & H4 & H5 & H6 & H7 & _). done.
    + intros html' [= <-]. induction (anchorsOf html) as [|a l IH]; [constructor|].
      simpl. destruct (routineOf (clock w) a) as [r|] eqn:Hr; simpl.
      * destruct (routineOf_shape _ _ _ Hr) as (_ & _ & _ & -> & _). by constructor.
      * by constructor.
Qed.

Lemma absolute_http href : Js.startsWith (absolute href) "http" = true.
Proof.
  unfold absolute. destruct (Js.startsWith href "http") eqn:H; [done|]. reflexivity.
Qed.

Lemma getNoticePdfUrl_outcome noticeUrl w :
  exists result,
    getNoticePdfUrl net anchorsOf noticeUrl w = (Returned result, logged w [Download noticeUrl]) /\
    (forall url, result = Some url ->
       exists href, url = absolute href /\ Js.endsWith (Js.toLowerCase href) ".pdf" = true).
Proof.
  unfold getNoticePdfUrl, V3Url.axiosGet.
  unfold mbind, M_bind, mret, M_ret, bind, attempt, emit, ofSum, newDate, throw, ret, logged.
  simpl. destruct (httpGet net noticeUrl) as [cause|html]; simpl.
  - by exists None.
  - eexists. split; [done|]. intros url Hurl. unfold firstOf in Hurl.
    apply head_Some_elem_of in Hurl. apply list_elem_of_omap in Hurl as (a & _ & Ha).
    unfold pdfLinkOf in Ha. destruct (anchorHref a) as [href|]; [|done].
    destruct (negb _ && _) eqn:Hb; [|done]. injection Ha as <-.
    apply andb_prop in Hb as [_ Hb]. by exists href.
Qed.

(** X30. getLatestRoutinePdfUrl never throws; it downloads the
    noticeboard and at most one notice, by an absolute address; for a
    department without keywords, or when the download fails, it returns
    nothing after the one download; an address it returns is absolute and
    that of a link whose target ends in [.pdf]. *)
Theorem getLatestRoutinePdfUrl_is_safe (department : string) (w : World) :
  exists result evs,
    getLatestRoutinePdfUrl net anchorsOf department w =
      (Returned result, logged w (Download noticeboard :: evs)) /\
    (evs = [] \/
     exists notice, evs = [Download notice] /\ Js.startsWith notice "http" = true) /\
    (department ∉ departments -> result = None /\ evs = []) /\
    (forall cause, httpGet net noticeboard = inl cause -> result = None /\ evs = []) /\
    (forall url, result = Some url ->
       Js.startsWith url "http" = true /\
       exists href, url = absolute href /\ Js.endsWith (Js.toLowerCase href) ".pdf" = true).
Proof.
  unfold getLatestRoutinePdfUrl, V3Url.axiosGet.
  unfold mbind at 1 2, M_bind at 1 2, bind at 1 2, attempt, emit, ofSum.
  cbn [fst snd]. 
  destruct (httpGet net noticeboard) as [cause|html] eqn:Hget.
  - exists None, []. unfold throw, mret, M_ret, ret, logged. simpl.
    split; [done|]. split; [by left|]. split; [done|]. split; [done | done].
  - unfold ret at 1. cbn [trace clock store].
    destruct (firstOf (noticeOf (keywordsOf department)) (anchorsOf html)) as [notice|] eqn:Hn.
    + destruct (getNoticePdfUrl_outcome notice
                  {| clock := clock w; store := store w;
                     trace := (trace w ++ [Download noticeboard])%list |})
        as (result & Hres & Hurl).
      exists result, [Download notice]. rewrite Hres. unfold logged. simpl.
      rewrite <- app_assoc. simpl. split; [done|].
      assert (Hnotice : Js.startsWith notice "http" = true /\ department ∈ departments).
      { unfold firstOf in Hn. apply head_Some_elem_of in Hn.
        apply list_elem_of_omap in Hn as (a & _ & Ha). unfold noticeOf in Ha. cbv zeta in Ha.
        destruct (anchorHref a) as [href|]; [|done].
        destruct (_ || _); [done|].
        destruct (isRoutineNotice _ && mentions _ _) eqn:Hm; [|done]. injection Ha as <-.
        split; [apply absolute_http|].
        apply andb_prop in Hm as [_ Hm]. unfold keywordsOf in Hm.
        destruct (find _ DEPARTMENT_KEYWORDS) as [entry|] eqn:Hf; [|done].
        apply find_some in Hf as [Hin Heq%String.eqb_eq]. rewrite <- Heq.
        apply (elem_of_map_1 fst). by apply list_elem_of_In. }
      destruct Hnotice as [Hhttp Hdep].
      split; [right; by exists notice|]. split; [done|]. split; [done|].
      intros url Hu. destruct (Hurl url Hu) as (href & -> & Hpdf).
      split; [apply absolute_http | by exists href].
    + exists None, []. unfold mret, M_ret, ret, logged. simpl.
      split; [done|]. split; [by left|]. split; [done|]. split; [done | done].
Qed.

End NoticeboardCalls.

(* ===================================================================== *)
(** ** The further models at concrete inputs *)
(* ===================================================================== *)

(** The theorem at the classes of the aligned scenario. *)
Lemma Optimized_calculateStats_witness :
  totalClasses (Optimized.calculateStats (Optimized.extractClasses scenarioAligned)) =
    length (Optimized.extractClasses scenarioAligned) /\
  busiestDayCount (Optimized.calculateStats (Optimized.extractClasses scenarioAligned)) =
    occurrences (Optimized.extractClasses scenarioAligned)
      (busiestDay (Optimized.calculateStats (Optimized.extractClasses scenarioAligned))).
Proof.
  destruct (Optimized_calculateStats_extremes (Optimized.extractClasses scenarioAligned))
    as [_ H].
  - vm_compute. repeat constructor.
  - destruct H as (H1 & H2 & _); [vm_compute; discriminate|]. split; [exact H1 | exact H2].
Defined.

(** The theorem at an empty cache. *)
Lemma memory_cache_next_call_witness :
  exists m' w',
    OptimizedUrl.parsePDFFromURL (serves scenarioAligned) "routine.pdf" [] emptyWorld =
      (Returned (OptimizedUrl.parsedOf scenarioAligned), m', w') /\
    parseCount w' = 1 /\
    OptimizedUrl.parsePDFFromURL (serves scenarioAligned) "routine.pdf" m' (snd (wait 1000 w')) =
      (Returned (OptimizedUrl.parsedOf scenarioAligned), m', snd (wait 1000 w')).
Proof.
  destruct (memory_cache_serves_the_next_call (serves scenarioAligned) "routine.pdf" []
              emptyWorld "%PDF-1.4" scenarioAligned)
    as (m' & w' & H1 & H2 & _ & _ & H5).
  - split; [simpl; lia|]. split; constructor.
  - exact I.
  - reflexivity.
  - reflexivity.
  - reflexivity.
  - exists m', w'. split; [exact H1|]. split; [exact H2|]. apply H5.
    unfold OptimizedUrl.MEMORY_CACHE_TTL. lia.
Defined.

(** The theorem at an empty cache. *)
Lemma memory_cache_small_witness :
  cacheOK 0 (snd (fst (OptimizedUrl.parsePDFFromURL (serves scenarioAligned) "routine.pdf" []
                         emptyWorld))).
Proof.
  pose proof (memory_cache_stays_small (serves scenarioAligned) "routine.pdf" [] emptyWorld)
    as H.
  destruct (OptimizedUrl.parsePDFFromURL (serves scenarioAligned) "routine.pdf" [] emptyWorld)
    as [[o m'] w'].
  destruct H as (Hok & Hclock & _).
  - split; [simpl; lia|]. split; constructor.
  - simpl. rewrite Hclock in Hok. exact Hok.
Defined.


(** The theorem at batch 71 and section i. *)
Lemma filterByBatchSection_witness :
  PDFParser.filterByBatchSection [sampleSchedule] ("71" +:+ " " +:+ String "i" "") =
    [sampleSchedule] /\
  PDFParser.filterByBatchSection [sampleSchedule] ("71" +:+ String "i" "") =
    [sampleSchedule].
Proof.
  destruct (PDFParser_filterByBatchSection_spellings [sampleSchedule] "71" "i")
    as (_ & H2 & _ & H4).
  - repeat constructor.
  - reflexivity.
  - split; [rewrite H2 | rewrite H4]; reflexivity.
Defined.

